(** * The wallet client orchestrator (lib/api.js)

    A shallow embedding of the client API of the shared-custody wallet:
    the [API] object of lib/api.js, its static helpers and the operations
    that fetch, verify, sign and export.  JavaScript objects that the
    orchestrator mutates in place (the credential set) live in a store
    addressed by references; the collaborators whose code is outside of
    lib/api.js (WalletUtils, sjcl, JSON, Bitcore, the Verifier and the
    methods of Credentials) are interfaces the development is generic in. *)

From stdpp Require Import gmap strings list fin_maps pretty.
From Stdlib Require Import ZArith.

Set Warnings "-register-all".

Open Scope string_scope.
Open Scope Z_scope.

(** ** JavaScript values *)

(** Plain documents: what [JSON.parse] produces and request bodies carry. *)
Inductive JValue : Type :=
| JNull
| JBool (b : bool)
| JNum (z : Z)
| JStr (s : string)
| JArr (items : list JValue)
| JObj (fields : list (string * JValue)).

(** [!x] is [negb (truthy x)]; [undefined] is [None]. *)
Definition truthy (v : JValue) : bool :=
  match v with
  | JNull => false
  | JBool b => b
  | JNum z => negb (z =? 0)
  | JStr s => negb (String.eqb s "")
  | JArr _ | JObj _ => true
  end.

Definition truthy_opt (v : option JValue) : bool :=
  match v with Some x => truthy x | None => false end.

(** Truthiness of a field that holds a string or is undefined. *)
Definition present (s : option string) : bool :=
  match s with Some x => negb (String.eqb x "") | None => false end.

(** Truthiness of a field that holds a number or is undefined. *)
Definition nonzero (z : option Z) : bool :=
  match z with Some x => negb (x =? 0) | None => false end.

(** Property access [v.k]: undefined on anything that is not an object
    holding [k]. *)
Fixpoint assoc (k : string) (fields : list (string * JValue)) : option JValue :=
  match fields with
  | [] => None
  | (k', v) :: rest => if String.eqb k k' then Some v else assoc k rest
  end.

Definition prop (k : string) (v : JValue) : option JValue :=
  match v with JObj fields => assoc k fields | _ => None end.

(** [_.isArray(v) && v.length == n] *)
Definition isArrayOfLength (v : JValue) (n : Z) : bool :=
  match v with
  | JArr items => Z.of_nat (length items) =? n
  | _ => false
  end.

Definition lower_ascii (a : Ascii.ascii) : Ascii.ascii :=
  let c := Ascii.nat_of_ascii a in
  if (Nat.leb 65 c && Nat.leb c 90)%bool then Ascii.ascii_of_nat (c + 32)%nat else a.

(** [String.prototype.toLowerCase] on ASCII text. *)
Fixpoint toLowerCase (s : string) : string :=
  match s with
  | EmptyString => EmptyString
  | String a rest => String (lower_ascii a) (toLowerCase rest)
  end.

(** ** Errors and outcomes *)

(** Values the orchestrator throws or hands to a callback as [err]. *)
Inductive JsError : Type :=
| EString (s : string)                      (* a bare string *)
| EError (message : string)                 (* new Error(message) *)
| EServerCompromised (message : string)     (* new ServerCompromisedError(message) *)
| EClientError (code : JValue) (message : option JValue)  (* new ClientError(code, message) *)
| EGeneric (error : option JValue)          (* { code: 'ERROR', error: ... } *)
| ETransport (what : string)                (* err of the request library *)
| ESjcl (what : string)                     (* an sjcl.exception *)
| EInvalidState                             (* $.checkState failed *)
| EInvalidArgument                          (* $.checkArgument failed *)
| ETypeError.                               (* property access on undefined *)

(** How a call ends: it returns or it throws. *)
Inductive Completion (A : Type) : Type :=
| Returned (a : A)
| Threw (e : JsError).
Arguments Returned {A} a.
Arguments Threw {A} e.

(** What a node-style callback [cb(err, value)] receives. *)
Inductive Callback (A : Type) : Type :=
| CbErr (err : JsError)
| CbOk (value : A).
Arguments CbErr {A} err.
Arguments CbOk {A} value.

(** The call threw, or its callback got an [err]. *)
Definition failed {A} (r : Completion (Callback A)) : bool :=
  match r with
  | Returned (CbOk _) => false
  | Returned (CbErr _) | Threw _ => true
  end.

(** ** Data model *)

(** The credential set.  The fields are the properties lib/api.js reads and
    writes on [this.credentials]; a property that is undefined (or null) is
    [None]. *)
Module Credentials.

Record t : Type := mk {
  network : option string;
  xPrivKey : option string;
  xPubKey : option string;
  requestPrivKey : option string;
  copayerId : option string;
  publicKeyRing : option (list JValue);
  walletId : option string;
  walletName : option string;
  m : option Z;
  n : option Z;
  walletPrivKey : option string;
  personalEncryptingKey : option string;
  sharedEncryptingKey : option string;
  copayerName : option string;
}.

(** [delete cred.xPrivKey] *)
Definition delete_xPrivKey (c : t) : t :=
  mk (network c) None (xPubKey c) (requestPrivKey c) (copayerId c)
     (publicKeyRing c) (walletId c) (walletName c) (m c) (n c)
     (walletPrivKey c) (personalEncryptingKey c) (sharedEncryptingKey c)
     (copayerName c).

(** [cred.m = v] *)
Definition set_m (v : Z) (c : t) : t :=
  mk (network c) (xPrivKey c) (xPubKey c) (requestPrivKey c) (copayerId c)
     (publicKeyRing c) (walletId c) (walletName c) (Some v) (n c)
     (walletPrivKey c) (personalEncryptingKey c) (sharedEncryptingKey c)
     (copayerName c).

(** [cred.n = v] *)
Definition set_n (v : Z) (c : t) : t :=
  mk (network c) (xPrivKey c) (xPubKey c) (requestPrivKey c) (copayerId c)
     (publicKeyRing c) (walletId c) (walletName c) (m c) (Some v)
     (walletPrivKey c) (personalEncryptingKey c) (sharedEncryptingKey c)
     (copayerName c).

End Credentials.

(** An accept/reject action on a proposal, with its optional comment. *)
Record Action : Type := {
  action_copayerId : string;
  action_type : string;
  action_comment : option string;
}.

(** A transaction proposal as the server sends it, and as
    [_processTxps] rewrites it. *)
Record Txp : Type := {
  txp_id : string;
  txp_creatorId : string;
  txp_toAddress : string;
  txp_amount : Z;
  txp_message : option string;
  txp_encryptedMessage : option string;
  txp_proposalSignature : string;
  txp_signatures : option (list string);
  txp_actions : list Action;
}.

Record Copayer : Type := {
  copayer_id : string;
  copayer_name : string;
  copayer_xPubKey : string;
}.

(** The server's projection of a wallet. *)
Record Wallet : Type := {
  wallet_id : string;
  wallet_name : string;
  wallet_m : Z;
  wallet_n : Z;
  wallet_status : string;
  wallet_copayers : list Copayer;
  wallet_secret : option string;
}.

(** Body of [GET /v1/wallets/]. *)
Record WalletStatus : Type := {
  status_wallet : Wallet;
  status_pendingTxps : list Txp;
}.

(** ** The transport *)

(** The argument object handed to [this.request]. *)
Record HttpRequest : Type := {
  req_relUrl : string;
  req_x_identity : option string;
  req_x_signature : option string;
  req_method : string;
  req_url : string;
  req_body : JValue;
}.

(** What [this.request] calls back with, for an endpoint whose body has type
    [A]: an [err], a response of status 200, or a response of any other
    status with whatever body came along. *)
Inductive Reply (A : Type) : Type :=
| NetworkError (err : JsError)
| Ok200 (body : A)
| HttpError (statusCode : Z) (body : JValue).
Arguments NetworkError {A} err.
Arguments Ok200 {A} body.
Arguments HttpError {A} statusCode body.

Inductive LogEntry : Type :=
| LogInfo (text : string)
| LogWarn (text : string)
| LogError (what : JsError).

(** ** The client and its store *)

Abbreviation loc := positive.

(** The [API] instance together with the objects it can reach:
    [this.credentials] is a reference into [heap]; [sent] lists the requests
    handed to [this.request], oldest first; [logged] is what went to the log
    at level info and above (the client is built without [verbose]). *)
Record ApiState : Type := {
  heap : gmap loc Credentials.t;
  this_credentials : option loc;
  baseUrl : string;
  basePath : string;
  sent : list HttpRequest;
  logged : list LogEntry;
}.

(** The credential object [this.credentials] refers to. *)
Definition credentialsOf (st : ApiState) : option Credentials.t :=
  match this_credentials st with
  | Some l => heap st !! l
  | None => None
  end.

Definition with_heap (h : gmap loc Credentials.t) (st : ApiState) : ApiState :=
  {| heap := h; this_credentials := this_credentials st;
     baseUrl := baseUrl st; basePath := basePath st;
     sent := sent st; logged := logged st |}.

Definition with_credentials (l : option loc) (st : ApiState) : ApiState :=
  {| heap := heap st; this_credentials := l;
     baseUrl := baseUrl st; basePath := basePath st;
     sent := sent st; logged := logged st |}.

Definition with_sent (q : list HttpRequest) (st : ApiState) : ApiState :=
  {| heap := heap st; this_credentials := this_credentials st;
     baseUrl := baseUrl st; basePath := basePath st;
     sent := q; logged := logged st |}.

Definition with_logged (g : list LogEntry) (st : ApiState) : ApiState :=
  {| heap := heap st; this_credentials := this_credentials st;
     baseUrl := baseUrl st; basePath := basePath st;
     sent := sent st; logged := g |}.

(** Computations of the orchestrator: they read and update the client and
    its store, and either return or throw.  A throw keeps the updates made
    before it. *)
Definition Api (A : Type) : Type := ApiState → Completion A * ApiState.

#[global] Instance Api_ret : MRet Api := λ A a st, (Returned a, st).

#[global] Instance Api_bind : MBind Api := λ A B k c st,
  match c st with
  | (Returned a, st') => k a st'
  | (Threw e, st') => (Threw e, st')
  end.

Definition throw {A} (e : JsError) : Api A := λ st, (Threw e, st).

Definition getState : Api ApiState := λ st, (Returned st, st).

Definition modifyState (f : ApiState → ApiState) : Api unit :=
  λ st, (Returned tt, f st).

(** [$.checkState(cond)] and [$.checkArgument(cond)] *)
Definition checkState (cond : bool) : Api unit :=
  if cond then mret tt else throw EInvalidState.

Definition checkArgument (cond : bool) : Api unit :=
  if cond then mret tt else throw EInvalidArgument.

(** Read the object behind [this.credentials]; a TypeError when there is
    none. *)
Definition credentials : Api Credentials.t := λ st,
  match credentialsOf st with
  | Some c => (Returned c, st)
  | None => (Threw ETypeError, st)
  end.

(** Update the object behind [this.credentials] in place. *)
Definition updateCredentials (f : Credentials.t → Credentials.t) : Api unit := λ st,
  match this_credentials st with
  | Some l =>
      match heap st !! l with
      | Some c => (Returned tt, with_heap (<[l := f c]> (heap st)) st)
      | None => (Threw ETypeError, st)
      end
  | None => (Threw ETypeError, st)
  end.

(** A new credential object in the store. *)
Definition allocCredentials (c : Credentials.t) : Api loc := λ st,
  let l := fresh (dom (heap st)) in
  (Returned l, with_heap (<[l := c]> (heap st)) st).

Definition log (e : LogEntry) : Api unit :=
  modifyState (λ st, with_logged (logged st ++ [e]) st).

(** ** Collaborators

    Code that lib/api.js calls and that lives elsewhere.  A call that can
    throw and whose exception the orchestrator discards returns an [option];
    one whose exception travels on returns a [Completion]. *)

(** bitcore-wallet-utils.  Its [encryptMessage] is sjcl's encryption: it
    draws a fresh initialisation vector at every call, so the same text
    under the same key gives another ciphertext each time.  An instance
    stands for the draws of one call of an operation, none of which
    encrypts more than once; what is said of two calls that encrypt is
    said of two instances, one for each call.  That [encryptMessage]
    throws when it is given no key is not part of the interface: a
    property that such an exception would falsify is stated for calls that
    have nothing to encrypt, or under the law that decryption undoes the
    encryption. *)
Class WalletUtils : Type := {
  encryptMessage : string → option string → string;
  decryptMessage : string → option string → option string;
  signMessage : option string → option string → string;
  getProposalHash : string → Z → option string → string;
  toSecret : option string → option string → option string → string;
  signTxp : Txp → option string → list string;
}.

(** bitcore: [privKey.toPublicKey().toString()] *)
Class Bitcore : Type := {
  toPublicKey : string → string;
}.

(** sjcl, the password-based encryption of exports *)
Class Sjcl : Type := {
  sjcl_encrypt : string → string → Z → string;
  sjcl_decrypt : string → string → Completion string;
}.

(** The JSON built-in *)
Class Json : Type := {
  JSON_stringify : JValue → string;
  JSON_parse : string → option JValue;
}.

(** lib/verifier.js *)
Class Verifier : Type := {
  checkCopayers : Credentials.t → list Copayer → bool;
  checkTxProposal : Credentials.t → Txp → bool;
}.

(** The methods of lib/credentials.js the orchestrator calls on a
    credential object: the queries read it, the two updates say what the
    object holds after the call. [create] draws its keys from [seed]. *)
Class CredentialMethods : Type := {
  create : string → string → Credentials.t;
  isComplete : Credentials.t → bool;
  canSign : Credentials.t → bool;
  hasWalletInfo : Credentials.t → bool;
  addWalletInfo :
    string → string → Z → Z → option string → string →
    Credentials.t → Credentials.t;
  addPublicKeyRing : list JValue → Credentials.t → Credentials.t;
}.

Definition WALLET_ENCRYPTION_OPTS_iter : Z := 5000.

(** ** The serialized credential document *)

Definition slot_str (k : string) (v : option string) : string * option JValue :=
  (k, JStr <$> v).

Definition slot_num (k : string) (v : option Z) : string * option JValue :=
  (k, JNum <$> v).

Definition slot_arr (k : string) (v : option (list JValue)) : string * option JValue :=
  (k, JArr <$> v).

(** Properties that are undefined are left out of the document. *)
Fixpoint emit (slots : list (string * option JValue)) : list (string * JValue) :=
  match slots with
  | [] => []
  | (k, Some v) :: rest => (k, v) :: emit rest
  | (_, None) :: rest => emit rest
  end.

Definition slots (c : Credentials.t) : list (string * option JValue) :=
  [ slot_str "network" (Credentials.network c);
    slot_str "xPrivKey" (Credentials.xPrivKey c);
    slot_str "xPubKey" (Credentials.xPubKey c);
    slot_str "requestPrivKey" (Credentials.requestPrivKey c);
    slot_str "copayerId" (Credentials.copayerId c);
    slot_arr "publicKeyRing" (Credentials.publicKeyRing c);
    slot_str "walletId" (Credentials.walletId c);
    slot_str "walletName" (Credentials.walletName c);
    slot_num "m" (Credentials.m c);
    slot_num "n" (Credentials.n c);
    slot_str "walletPrivKey" (Credentials.walletPrivKey c);
    slot_str "personalEncryptingKey" (Credentials.personalEncryptingKey c);
    slot_str "sharedEncryptingKey" (Credentials.sharedEncryptingKey c);
    slot_str "copayerName" (Credentials.copayerName c) ].

(** Modelled from the spec: [Credentials.prototype.toObj] of
    lib/credentials.js, which is not among the sources.  The serialized
    credential export is a document containing all CredentialSet fields. *)
Definition toObj (c : Credentials.t) : JValue := JObj (emit (slots c)).

Definition read_str (k : string) (doc : list (string * JValue)) : option (option string) :=
  match assoc k doc with
  | None | Some JNull => Some None
  | Some (JStr s) => Some (Some s)
  | Some _ => None
  end.

Definition read_num (k : string) (doc : list (string * JValue)) : option (option Z) :=
  match assoc k doc with
  | None | Some JNull => Some None
  | Some (JNum z) => Some (Some z)
  | Some _ => None
  end.

Definition read_arr (k : string) (doc : list (string * JValue)) : option (option (list JValue)) :=
  match assoc k doc with
  | None | Some JNull => Some None
  | Some (JArr l) => Some (Some l)
  | Some _ => None
  end.

(** Modelled from the spec: [Credentials.fromObj] of lib/credentials.js
    applied to a parsed document, the import direction.  It rebuilds the
    credential set field by field; a malformed payload (not an object, or a
    field of the wrong kind) makes the import fail. *)
Definition fromObj (doc : JValue) : option Credentials.t :=
  match doc with
  | JObj d =>
      network ← read_str "network" d;
      xPrivKey ← read_str "xPrivKey" d;
      xPubKey ← read_str "xPubKey" d;
      requestPrivKey ← read_str "requestPrivKey" d;
      copayerId ← read_str "copayerId" d;
      publicKeyRing ← read_arr "publicKeyRing" d;
      walletId ← read_str "walletId" d;
      walletName ← read_str "walletName" d;
      m ← read_num "m" d;
      n ← read_num "n" d;
      walletPrivKey ← read_str "walletPrivKey" d;
      personalEncryptingKey ← read_str "personalEncryptingKey" d;
      sharedEncryptingKey ← read_str "sharedEncryptingKey" d;
      copayerName ← read_str "copayerName" d;
      Some (Credentials.mk network xPrivKey xPubKey requestPrivKey copayerId
              publicKeyRing walletId walletName m n walletPrivKey
              personalEncryptingKey sharedEncryptingKey copayerName)
  | _ => None
  end.

(** Modelled from the spec: [Credentials.fromObj] of lib/credentials.js
    applied to a live credential object, as [export] does: a new credential
    set carrying the fields of its argument (the caller gets an object of
    its own, never the argument itself). *)
Definition copyOf (c : Credentials.t) : Credentials.t :=
  Credentials.mk
    (Credentials.network c) (Credentials.xPrivKey c) (Credentials.xPubKey c)
    (Credentials.requestPrivKey c) (Credentials.copayerId c)
    (Credentials.publicKeyRing c) (Credentials.walletId c)
    (Credentials.walletName c) (Credentials.m c) (Credentials.n c)
    (Credentials.walletPrivKey c) (Credentials.personalEncryptingKey c)
    (Credentials.sharedEncryptingKey c) (Credentials.copayerName c).

(** The fields the compressed form leaves out: those that live on the server
    (lib/api.js names walletId, walletName and copayerName as missing after a
    compressed import). *)
Definition elide (c : Credentials.t) : Credentials.t :=
  Credentials.mk
    (Credentials.network c) (Credentials.xPrivKey c) (Credentials.xPubKey c)
    (Credentials.requestPrivKey c) (Credentials.copayerId c)
    (Credentials.publicKeyRing c) None None (Credentials.m c) (Credentials.n c)
    (Credentials.walletPrivKey c) (Credentials.personalEncryptingKey c)
    (Credentials.sharedEncryptingKey c) None.

(** Two credential sets are equivalent when they agree on every field but
    the three the compressed form may leave out. *)
Definition equivalent (c1 c2 : Credentials.t) : Prop := elide c1 = elide c2.

(** ** Options and results of the operations *)

(** [opts] of [export] and [import] *)
Record ExportOpts : Type := {
  opts_compressed : bool;
  opts_password : option string;
  opts_noSign : bool;
}.

(** [opts] of [sendTxProposal] *)
Record ProposalOpts : Type := {
  opts_toAddress : string;
  opts_amount : Z;
  opts_message : option string;
}.

(** [opts] of [getTxProposals] *)
Record FetchOpts : Type := {
  opts_doNotVerify : bool;
  opts_forAirGapped : bool;
}.

(** What [getTxProposals] hands to its callback: the proposals, or the
    bundle for an offline signer. *)
Inductive TxProposals : Type :=
| Proposals (txps : list Txp)
| ForAirGapped (txps : list Txp) (encryptedPkr : string) (m n : option Z).

Definition proposalsOf (r : TxProposals) : list Txp :=
  match r with
  | Proposals txps => txps
  | ForAirGapped txps _ _ _ => txps
  end.

(** ** Store primitives of the orchestrator *)

Definition readAt (l : loc) : Api Credentials.t := λ st,
  match heap st !! l with
  | Some c => (Returned c, st)
  | None => (Threw ETypeError, st)
  end.

Definition updateAt (l : loc) (f : Credentials.t → Credentials.t) : Api unit := λ st,
  match heap st !! l with
  | Some c => (Returned tt, with_heap (<[l := f c]> (heap st)) st)
  | None => (Threw ETypeError, st)
  end.

(** [$.checkState(this.credentials)], then the object it refers to. *)
Definition requireCredentials : Api Credentials.t := λ st,
  match credentialsOf st with
  | Some c => (Returned c, st)
  | None => (Threw EInvalidState, st)
  end.

(** [try { body } catch (ex) { handler }] *)
Definition try_catch {A} (body : Api A) (handler : JsError → Api A) : Api A := λ st,
  match body st with
  | (Returned a, st') => (Returned a, st')
  | (Threw ex, st') => handler ex st'
  end.

Definition liftCompletion {A} (r : Completion A) : Api A := λ st, (r, st).

Definition jsonOfOption (v : option string) : JValue :=
  match v with Some s => JStr s | None => JNull end.

(** ** The orchestrator *)

Section API.

Context `{!WalletUtils, !Bitcore, !Sjcl, !Json, !Verifier, !CredentialMethods}.

(** [API._encryptMessage] *)
Definition _encryptMessage (message : option string) (encryptingKey : option string)
  : option string :=
  match message with
  | Some text =>
      if String.eqb text "" then None
      else Some (encryptMessage text encryptingKey)
  | None => None
  end.

(** [API._decryptMessage] *)
Definition _decryptMessage (message : option string) (encryptingKey : option string)
  : string :=
  match message with
  | Some text =>
      if String.eqb text "" then ""
      else match decryptMessage text encryptingKey with
           | Some plain => plain
           | None => "<ECANNOTDECRYPT>"
           end
  | None => ""
  end.

Definition processAction (encryptingKey : option string) (action : Action) : Action :=
  {| action_copayerId := action_copayerId action;
     action_type := action_type action;
     action_comment := Some (_decryptMessage (action_comment action) encryptingKey) |}.

Definition processTxp (encryptingKey : option string) (txp : Txp) : Txp :=
  {| txp_id := txp_id txp;
     txp_creatorId := txp_creatorId txp;
     txp_toAddress := txp_toAddress txp;
     txp_amount := txp_amount txp;
     txp_message := Some (_decryptMessage (txp_message txp) encryptingKey);
     txp_encryptedMessage := txp_message txp;
     txp_proposalSignature := txp_proposalSignature txp;
     txp_signatures := txp_signatures txp;
     txp_actions := processAction encryptingKey <$> txp_actions txp |}.

(** [API._processTxps]: every proposal of the array is rewritten in place;
    the array itself is what the server sent, so it is never falsy. *)
Definition _processTxps (txps : list Txp) (encryptingKey : option string) : list Txp :=
  processTxp encryptingKey <$> txps.

(** [API._parseError] *)
Definition _parseError (body : JValue) : Api JsError :=
  let body :=
    match body with
    | JStr s =>
        match JSON_parse s with
        | Some parsed => parsed
        | None => JObj [("error", JStr s)]
        end
    | _ => body
    end in
  let ret :=
    match prop "code" body with
    | Some code =>
        if truthy body && truthy code then EClientError code (prop "message" body)
        else EGeneric (if truthy body then prop "error" body
                       else Some (JStr "There was an unknown error processing the request"))
    | None =>
        EGeneric (if truthy body then prop "error" body
                  else Some (JStr "There was an unknown error processing the request"))
    end in
  log (LogError ret);;
  mret ret.

(** [API._signRequest] *)
Definition _signRequest (method url : string) (args : JValue) (privKey : option string)
  : string :=
  let message := toLowerCase method +:+ "|" +:+ url +:+ "|" +:+ JSON_stringify args in
  signMessage (Some message) privKey.

(** [API.prototype.seedFromRandom] *)
Definition seedFromRandom (network seed : string) : Api unit :=
  l ← allocCredentials (create network seed);
  modifyState (with_credentials (Some l)).

(** The argument object [_doRequest] builds for [this.request]; the
    request is signed when the request key is there. *)
Definition requestArgs (st : ApiState) (c : Credentials.t)
    (method url : string) (args : JValue) : HttpRequest :=
  let reqSignature :=
    if present (Credentials.requestPrivKey c)
    then Some (_signRequest method url args (Credentials.requestPrivKey c))
    else None in
  {| req_relUrl := basePath st +:+ url;
     req_x_identity := Credentials.copayerId c;
     req_x_signature := reqSignature;
     req_method := method;
     req_url := baseUrl st +:+ url;
     req_body := args |}.

(** [API.prototype._doRequest]: the request goes out and [reply] is what the
    transport calls back with. *)
Definition _doRequest {A} (method url : string) (args : JValue) (reply : Reply A)
  : Api (Callback A) :=
  c ← requireCredentials;
  modifyState (λ st, with_sent (sent st ++ [requestArgs st c method url args]) st);;
  match reply with
  | NetworkError err => mret (CbErr err)
  | HttpError _ body => e ← _parseError body; mret (CbErr e)
  | Ok200 body => mret (CbOk body)
  end.

Definition _doPostRequest {A} (url : string) (args : JValue) (reply : Reply A)
  : Api (Callback A) :=
  _doRequest "post" url args reply.

Definition _doGetRequest {A} (url : string) (reply : Reply A) : Api (Callback A) :=
  _doRequest "get" url (JObj []) reply.

(** [API.prototype._doJoinWallet] *)
Definition _doJoinWallet (walletId walletPrivKey : string) (xPubKey : option string)
    (copayerName : string) (reply : Reply Wallet) : Api (Callback Wallet) :=
  let args := JObj [
    ("walletId", JStr walletId);
    ("name", JStr copayerName);
    ("xPubKey", jsonOfOption xPubKey);
    ("xPubKeySignature", JStr (signMessage xPubKey (Some walletPrivKey))) ] in
  let url := "/v1/wallets/" +:+ walletId +:+ "/copayers" in
  r ← _doPostRequest url args reply;
  match r with
  | CbErr err => mret (CbErr err)
  | CbOk wallet => mret (CbOk wallet)
  end.

(** [API.prototype.isComplete] and [API.prototype.canSign] *)
Definition API_isComplete (st : ApiState) : bool :=
  match credentialsOf st with Some c => isComplete c | None => false end.

Definition API_canSign (st : ApiState) : bool :=
  match credentialsOf st with Some c => canSign c | None => false end.

(** Modelled from the spec: [Credentials.prototype.exportCompressed] of
    lib/credentials.js, which is not among the sources.  The compressed
    export elides the non-essential fields. *)
Definition exportCompressed (c : Credentials.t) : string :=
  JSON_stringify (toObj (elide c)).

(** Modelled from the spec: [Credentials.importCompressed] of
    lib/credentials.js, which is not among the sources.  Import reverses the
    export; a malformed payload fails. *)
Definition importCompressed (input : string) : option Credentials.t :=
  JSON_parse input ≫= fromObj.

(** [API.prototype.export] *)
Definition export (opts : ExportOpts) : Api string :=
  c ← requireCredentials;
  cred ← allocCredentials (copyOf c);
  (if opts_noSign opts then updateAt cred Credentials.delete_xPrivKey else mret tt);;
  credNow ← readAt cred;
  let output :=
    if opts_compressed opts then exportCompressed credNow
    else JSON_stringify (toObj credNow) in
  let output :=
    match opts_password opts with
    | Some password =>
        if present (opts_password opts)
        then sjcl_encrypt password output WALLET_ENCRYPTION_OPTS_iter
        else output
    | None => output
    end in
  mret output.

(** The credential set that goes into the exported document. *)
Definition exported (opts : ExportOpts) (c : Credentials.t) : Credentials.t :=
  if opts_noSign opts then Credentials.delete_xPrivKey c else c.

(** The text [export] returns for the credential set [c]. *)
Definition exportText (opts : ExportOpts) (c : Credentials.t) : string :=
  let output :=
    if opts_compressed opts then exportCompressed (exported opts c)
    else JSON_stringify (toObj (exported opts c)) in
  match opts_password opts with
  | Some password =>
      if present (opts_password opts)
      then sjcl_encrypt password output WALLET_ENCRYPTION_OPTS_iter
      else output
  | None => output
  end.

(** [API.prototype.import] *)
Definition import (str : string) (opts : ExportOpts) : Api unit :=
  input ←
    match opts_password opts with
    | Some password =>
        if present (opts_password opts)
        then try_catch (liftCompletion (sjcl_decrypt password str))
               (λ ex, @throw unit ex;; throw (EError "Incorrect password"))
        else mret str
    | None => mret str
    end;
  let decoded :=
    if opts_compressed opts then importCompressed input
    else JSON_parse input ≫= fromObj in
  match decoded with
  | None => throw (EError "Error importing from source")
  | Some imported =>
      l ← allocCredentials imported;
      modifyState (with_credentials (Some l))
  end.

(** The tail of [openWallet] once the server's wallet is accepted: merge the
    ring, and fill in the wallet information when it is not known yet. *)
Definition openWallet_merge (wallet : Wallet) : Api (Callback bool) :=
  updateCredentials
    (addPublicKeyRing ((λ p, JStr (copayer_xPubKey p)) <$> wallet_copayers wallet));;
  c ← credentials;
  (if negb (hasWalletInfo c) then
     match List.find (λ p, bool_decide (Some (copayer_id p) = Credentials.copayerId c))
                     (wallet_copayers wallet) with
     | Some me =>
         updateCredentials
           (addWalletInfo (wallet_id wallet) (wallet_name wallet)
                          (wallet_m wallet) (wallet_n wallet) None (copayer_name me))
     | None => throw ETypeError
     end
   else mret tt);;
  mret (CbOk true).

(** [API.prototype.openWallet] *)
Definition openWallet (reply : Reply WalletStatus) : Api (Callback bool) :=
  c ← requireCredentials;
  if isComplete c then mret (CbOk false) else
  r ← _doGetRequest "/v1/wallets/" reply;
  match r with
  | CbErr err => mret (CbErr err)
  | CbOk ret =>
      let wallet := status_wallet ret in
      if negb (String.eqb (wallet_status wallet) "complete")
      then mret (CbErr (EString "Wallet Incomplete"))
      else
        c ← credentials;
        if present (Credentials.walletPrivKey c) then
          if negb (checkCopayers c (wallet_copayers wallet))
          then mret (CbErr (EServerCompromised
                 "Copayers in the wallet could not be verified to have known the wallet secret"))
          else openWallet_merge wallet
        else
          log (LogWarn "Could not perform verification of other copayers in the wallet");;
          openWallet_merge wallet
  end.

(** [network || 'livenet'] *)
Definition networkOrDefault (network : option string) : string :=
  match network with
  | Some name => if present network then name else "livenet"
  | None => "livenet"
  end.

(** [API.prototype.createWallet].  [seed] feeds the keys of a new credential
    set and [walletPrivKey] is the key [new Bitcore.PrivateKey()] draws;
    [created] answers the registration and [joined] the self-join. *)
Definition createWallet (walletName copayerName : string) (m n : Z)
    (network : option string) (seed walletPrivKey : string)
    (created : Reply string) (joined : Reply Wallet)
  : Api (Callback (option string)) :=
  let network := networkOrDefault network in
  if negb (bool_decide (network ∈ ["testnet"; "livenet"]))
  then mret (CbErr (EString "Invalid network")) else
  st ← getState;
  (match this_credentials st with
   | None => log (LogInfo "Generating new keys");; seedFromRandom network seed
   | Some _ => log (LogInfo "Using existing keys")
   end);;
  c ← credentials;
  if negb (bool_decide (Some network = Credentials.network c))
  then mret (CbErr (EError "Existing keys were created for a different network")) else
  let args := JObj [
    ("name", JStr walletName);
    ("m", JNum m);
    ("n", JNum n);
    ("pubKey", JStr (toPublicKey walletPrivKey));
    ("network", JStr network) ] in
  r ← _doPostRequest "/v1/wallets/" args created;
  match r with
  | CbErr err => mret (CbErr err)
  | CbOk walletId =>
      let secret := toSecret (Some walletId) (Some walletPrivKey) (Some network) in
      updateCredentials
        (addWalletInfo walletId walletName m n (Some walletPrivKey) copayerName);;
      c ← credentials;
      r ← _doJoinWallet walletId walletPrivKey (Credentials.xPubKey c) copayerName joined;
      match r with
      | CbErr err => mret (CbErr err)
      | CbOk wallet => mret (CbOk (if 1 <? n then Some secret else None))
      end
  end.

(** [API.prototype.getStatus] *)
Definition getStatus (reply : Reply WalletStatus) : Api (Callback WalletStatus) :=
  _ ← requireCredentials;
  r ← _doGetRequest "/v1/wallets/" reply;
  match r with
  | CbErr err => mret (CbErr err)
  | CbOk result =>
      cred ← credentials;
      let wallet := status_wallet result in
      let wallet :=
        if String.eqb (wallet_status wallet) "pending" then
          {| wallet_id := wallet_id wallet; wallet_name := wallet_name wallet;
             wallet_m := wallet_m wallet; wallet_n := wallet_n wallet;
             wallet_status := wallet_status wallet;
             wallet_copayers := wallet_copayers wallet;
             wallet_secret :=
               Some (toSecret (Credentials.walletId cred) (Credentials.walletPrivKey cred)
                              (Credentials.network cred)) |}
        else wallet in
      mret (CbOk {|
        status_wallet := wallet;
        status_pendingTxps :=
          _processTxps (status_pendingTxps result) (Credentials.sharedEncryptingKey cred) |})
  end.

(** [$.checkState(this.credentials && this.credentials.isComplete())] *)
Definition requireComplete : Api Credentials.t :=
  c ← requireCredentials;
  checkState (isComplete c);;
  mret c.

(** [API.prototype.sendTxProposal] *)
Definition sendTxProposal (opts : ProposalOpts) (reply : Reply Txp) : Api (Callback Txp) :=
  c ← requireComplete;
  let message := _encryptMessage (opts_message opts) (Credentials.sharedEncryptingKey c) in
  let hash := getProposalHash (opts_toAddress opts) (opts_amount opts) message in
  let proposalSignature := signMessage (Some hash) (Credentials.requestPrivKey c) in
  let args := JObj [
    ("toAddress", JStr (opts_toAddress opts));
    ("amount", JNum (opts_amount opts));
    ("message", jsonOfOption message);
    ("proposalSignature", JStr proposalSignature) ] in
  r ← _doPostRequest "/v1/txproposals/" args reply;
  match r with
  | CbErr err => mret (CbErr err)
  | CbOk txp => mret (CbOk txp)
  end.

(** The signature [sendTxProposal] puts into its request. *)
Definition proposalSignatureOf (opts : ProposalOpts) (c : Credentials.t) : string :=
  signMessage
    (Some (getProposalHash (opts_toAddress opts) (opts_amount opts)
             (_encryptMessage (opts_message opts) (Credentials.sharedEncryptingKey c))))
    (Credentials.requestPrivKey c).

(** [_.any(txps, f)] *)
Definition any {A} (f : A → bool) (l : list A) : bool := existsb f l.

Definition ringDocument (c : Credentials.t) : JValue :=
  match Credentials.publicKeyRing c with
  | Some ring => JArr ring
  | None => JNull
  end.

(** [API.prototype.getTxProposals].  The deep copy
    [JSON.parse(JSON.stringify(txps))] of the air-gapped bundle is the same
    list of values. *)
Definition getTxProposals (opts : FetchOpts) (reply : Reply (list Txp))
  : Api (Callback TxProposals) :=
  _ ← requireComplete;
  r ← _doGetRequest "/v1/txproposals/" reply;
  match r with
  | CbErr err => mret (CbErr err)
  | CbOk txps =>
      c ← credentials;
      let txps := _processTxps txps (Credentials.sharedEncryptingKey c) in
      let fake :=
        any (λ txp, negb (opts_doNotVerify opts) && negb (checkTxProposal c txp)) txps in
      if fake
      then mret (CbErr (EServerCompromised "Server sent fake transaction proposal"))
      else
        let result :=
          if opts_forAirGapped opts then
            ForAirGapped txps
              (encryptMessage (JSON_stringify (ringDocument c))
                              (Credentials.personalEncryptingKey c))
              (Credentials.m c) (Credentials.n c)
          else Proposals txps in
        mret (CbOk result)
  end.

(** [API.prototype.getSignatures] *)
Definition getSignatures (txp : Txp) : Api (Callback (list string)) :=
  c ← requireComplete;
  checkArgument (negb (String.eqb (txp_creatorId txp) ""));;
  st ← getState;
  if negb (API_canSign st)
  then mret (CbErr (EString "You do not have the required keys to sign transactions"))
  else if negb (checkTxProposal c txp)
  then mret (CbErr (EServerCompromised "Transaction proposal is invalid"))
  else mret (CbOk (signTxp txp (Credentials.xPrivKey c))).

(** [API.prototype.signTxProposal] *)
Definition signTxProposal (txp : Txp) (reply : Reply Txp) : Api (Callback Txp) :=
  c ← requireComplete;
  checkArgument (negb (String.eqb (txp_creatorId txp) ""));;
  st ← getState;
  if negb (API_canSign st) && negb (bool_decide (is_Some (txp_signatures txp)))
  then mret (CbErr (EError "You do not have the required keys to sign transactions"))
  else if negb (checkTxProposal c txp)
  then mret (CbErr (EServerCompromised "Server sent fake transaction proposal"))
  else
    let signatures :=
      match txp_signatures txp with
      | Some given => given
      | None => signTxp txp (Credentials.xPrivKey c)
      end in
    let url := "/v1/txproposals/" +:+ txp_id txp +:+ "/signatures/" in
    let args := JObj [("signatures", JArr (JStr <$> signatures))] in
    r ← _doPostRequest url args reply;
    match r with
    | CbErr err => mret (CbErr err)
    | CbOk txp => mret (CbOk txp)
    end.

(** The signatures [signTxProposal] submits: the ones that came with the
    proposal when there are some, its own otherwise. *)
Definition submittedSignatures (txp : Txp) (c : Credentials.t) : list string :=
  match txp_signatures txp with
  | Some given => given
  | None => signTxp txp (Credentials.xPrivKey c)
  end.

(** [API.prototype.signTxProposalFromAirGapped] *)
Definition signTxProposalFromAirGapped (txp : Txp) (encryptedPkr : string) (m n : Z)
  : Api (list string) :=
  c ← requireCredentials;
  st ← getState;
  if negb (API_canSign st)
  then throw (EError "You do not have the required keys to sign transactions") else
  match decryptMessage encryptedPkr (Credentials.personalEncryptingKey c) ≫= JSON_parse with
  | None => throw (EError "Could not decrypt public key ring")
  | Some publicKeyRing =>
      if negb (isArrayOfLength publicKeyRing n)
      then throw (EError "Invalid public key ring") else
      updateCredentials (Credentials.set_m m);;
      updateCredentials (Credentials.set_n n);;
      updateCredentials
        (addPublicKeyRing (match publicKeyRing with JArr items => items | _ => [] end));;
      c ← credentials;
      if negb (checkTxProposal c txp)
      then throw (EError "Fake transaction proposal")
      else mret (signTxp txp (Credentials.xPrivKey c))
  end.

(** [API.prototype.getTxHistory] *)
Definition getTxHistory (reply : Reply (list Txp)) : Api (Callback (list Txp)) :=
  _ ← requireComplete;
  r ← _doGetRequest "/v1/txhistory/" reply;
  match r with
  | CbErr err => mret (CbErr err)
  | CbOk txs =>
      c ← credentials;
      mret (CbOk (_processTxps txs (Credentials.sharedEncryptingKey c)))
  end.

End API.

(** The credential object once [openWallet] has put the server's copayers
    into the ring. *)
Definition withRing `{!CredentialMethods} (c : Credentials.t) (wallet : Wallet)
  : Credentials.t :=
  addPublicKeyRing ((λ p, JStr (copayer_xPubKey p)) <$> wallet_copayers wallet) c.

(** What the credential object holds after [openWallet] accepted the
    server's wallet. *)
Definition mergedCredentials `{!CredentialMethods} (c : Credentials.t) (wallet : Wallet)
  : Credentials.t :=
  let c1 := withRing c wallet in
  if hasWalletInfo c1 then c1
  else
    match List.find (λ p, bool_decide (Some (copayer_id p) = Credentials.copayerId c1))
                    (wallet_copayers wallet) with
    | Some me =>
        addWalletInfo (wallet_id wallet) (wallet_name wallet)
                      (wallet_m wallet) (wallet_n wallet) None (copayer_name me) c1
    | None => c1
    end.

(** The local copayer is among the copayers the server lists. *)
Definition listsCopayer (c : Credentials.t) (wallet : Wallet) : bool :=
  bool_decide (is_Some
    (List.find (λ p, bool_decide (Some (copayer_id p) = Credentials.copayerId c))
               (wallet_copayers wallet))).

(** ** The orchestrator, continued: joining, addresses, balance and the
    remaining proposal transitions *)

(** An address as the server reports it. *)
Record Address : Type := {
  address_address : string;
  address_path : string;
  address_publicKeys : list string;
}.

(** What an invite secret decodes to. *)
Record SecretData : Type := {
  secret_walletId : string;
  secret_walletPrivKey : string;
  secret_network : string;
}.

(** [WalletUtils.fromSecret]; it throws on a malformed secret. *)
Class SecretDecoder : Type := {
  fromSecret : string → Completion SecretData;
}.

(** [Verifier.checkAddress] of lib/verifier.js *)
Class AddressVerifier : Type := {
  checkAddress : Credentials.t → Address → bool;
}.

(** [Credentials.fromExtendedPrivateKey] of lib/credentials.js *)
Class CredentialRecovery : Type := {
  fromExtendedPrivateKey : string → Credentials.t;
}.

(** The operation leaves the credential store alone: every object holds
    what it held and [this.credentials] refers to the same one. *)
Definition sameStore (st st' : ApiState) : Prop :=
  heap st' = heap st ∧ this_credentials st' = this_credentials st.

Definition keepsStore {A} (c : Api A) : Prop := ∀ st, sameStore st (c st).2.

(** An error made from the body of a response: a ClientError or the
    generic error object. *)
Definition isServerError (e : JsError) : bool :=
  match e with
  | EClientError _ _ | EGeneric _ => true
  | _ => false
  end.

(** A reply that is not a 200 ends the call [r] through its callback: the
    transport's [err] as it is, a response of another status as a server
    error. *)
Definition failureHandedOver {A B} (reply : Reply A) (r : Completion (Callback B)) : Prop :=
  match reply with
  | NetworkError err => r = Returned (CbErr err)
  | HttpError _ _ => ∃ e, r = Returned (CbErr e) ∧ isServerError e = true
  | Ok200 _ => True
  end.

Section API_continued.

Context `{!WalletUtils, !Bitcore, !Sjcl, !Json, !Verifier, !CredentialMethods,
          !SecretDecoder, !AddressVerifier, !CredentialRecovery}.

(** A reply that is not a 200 ends the call [r] through its callback with
    the error of the reply: the transport's [err] as it is, and a response
    of another status as the error [_parseError] makes of its body, which
    is the ClientError of the body's [code] and [message] when the body is
    an object with a truthy [code]. *)
Definition failureReported {A B} (reply : Reply A) (r : Completion (Callback B)) : Prop :=
  match reply with
  | NetworkError err => r = Returned (CbErr err)
  | HttpError statusCode body =>
      statusCode ≠ 200 →
      ∃ e, r = Returned (CbErr e)
           ∧ (∀ st, (_parseError body st).1 = Returned e)
           ∧ (∀ code, prop "code" body = Some code → truthy code = true →
                e = EClientError code (prop "message" body))
  | Ok200 _ => True
  end.

(** [API.prototype.seedFromExtendedPrivateKey] *)
Definition seedFromExtendedPrivateKey (xPrivKey : string) : Api unit :=
  l ← allocCredentials (fromExtendedPrivateKey xPrivKey);
  modifyState (with_credentials (Some l)).

(** [API.prototype._doDeleteRequest] *)
Definition _doDeleteRequest {A} (url : string) (reply : Reply A) : Api (Callback A) :=
  _doRequest "delete" url (JObj []) reply.

(** [API.prototype.joinWallet].  [seed] feeds the keys of a new credential
    set when the client has none. *)
Definition joinWallet (secret copayerName seed : string) (reply : Reply Wallet)
  : Api (Callback Wallet) :=
  match fromSecret secret with
  | Threw ex => mret (CbErr ex)
  | Returned secretData =>
      st ← getState;
      (match this_credentials st with
       | None => seedFromRandom (secret_network secretData) seed
       | Some _ => mret tt
       end);;
      c ← credentials;
      r ← _doJoinWallet (secret_walletId secretData) (secret_walletPrivKey secretData)
            (Credentials.xPubKey c) copayerName reply;
      match r with
      | CbErr err => mret (CbErr err)
      | CbOk wallet =>
          updateCredentials
            (addWalletInfo (wallet_id wallet) (wallet_name wallet)
               (wallet_m wallet) (wallet_n wallet)
               (Some (secret_walletPrivKey secretData)) copayerName);;
          mret (CbOk wallet)
      end
  end.

(** [API.prototype.createAddress] *)
Definition createAddress (reply : Reply Address) : Api (Callback Address) :=
  _ ← requireComplete;
  r ← _doPostRequest "/v1/addresses/" (JObj []) reply;
  match r with
  | CbErr err => mret (CbErr err)
  | CbOk address =>
      c ← credentials;
      if negb (checkAddress c address)
      then mret (CbErr (EServerCompromised "Server sent fake address"))
      else mret (CbOk address)
  end.

(** [API.prototype.getMainAddresses]; [opts] is read only once the
    addresses are there, so a call without [opts] fails late. *)
Definition getMainAddresses (opts : option FetchOpts) (reply : Reply (list Address))
  : Api (Callback (list Address)) :=
  _ ← requireComplete;
  r ← _doGetRequest "/v1/addresses/" reply;
  match r with
  | CbErr err => mret (CbErr err)
  | CbOk addresses =>
      match opts with
      | None => throw ETypeError
      | Some opts =>
          if negb (opts_doNotVerify opts) then
            c ← credentials;
            let fake := any (λ address, negb (checkAddress c address)) addresses in
            if fake
            then mret (CbErr (EServerCompromised "Server sent fake address"))
            else mret (CbOk addresses)
          else mret (CbOk addresses)
      end
  end.

(** [API.prototype.getBalance] *)
Definition getBalance (reply : Reply JValue) : Api (Callback JValue) :=
  _ ← requireComplete;
  _doGetRequest "/v1/balance/" reply.

(** [API.prototype.rejectTxProposal] *)
Definition rejectTxProposal (txp : Txp) (reason : option string) (reply : Reply Txp)
  : Api (Callback Txp) :=
  c ← requireComplete;
  let url := "/v1/txproposals/" +:+ txp_id txp +:+ "/rejections/" in
  let args := JObj [
    ("reason",
     JStr (default "" (_encryptMessage reason (Credentials.sharedEncryptingKey c)))) ] in
  r ← _doPostRequest url args reply;
  match r with
  | CbErr err => mret (CbErr err)
  | CbOk txp => mret (CbOk txp)
  end.

(** [API.prototype.broadcastTxProposal] *)
Definition broadcastTxProposal (txp : Txp) (reply : Reply Txp) : Api (Callback Txp) :=
  _ ← requireComplete;
  let url := "/v1/txproposals/" +:+ txp_id txp +:+ "/broadcast/" in
  r ← _doPostRequest url (JObj []) reply;
  match r with
  | CbErr err => mret (CbErr err)
  | CbOk txp => mret (CbOk txp)
  end.

(** [API.prototype.removeTxProposal]: the callback gets no value. *)
Definition removeTxProposal (txp : Txp) (reply : Reply JValue) : Api (Callback unit) :=
  _ ← requireComplete;
  let url := "/v1/txproposals/" +:+ txp_id txp in
  r ← _doDeleteRequest url reply;
  match r with
  | CbErr err => mret (CbErr err)
  | CbOk _ => mret (CbOk tt)
  end.

(** What [createWallet] does once the credentials are settled: register the
    wallet, write the wallet information, self-join. *)
Definition registerAndJoin (walletName copayerName : string) (m n : Z)
    (network walletPrivKey : string) (created : Reply string) (joined : Reply Wallet)
  : Api (Callback (option string)) :=
  r ← _doPostRequest "/v1/wallets/"
        (JObj [ ("name", JStr walletName); ("m", JNum m); ("n", JNum n);
                ("pubKey", JStr (toPublicKey walletPrivKey));
                ("network", JStr network) ]) created;
  match r with
  | CbErr err => mret (CbErr err)
  | CbOk walletId =>
      updateCredentials
        (addWalletInfo walletId walletName m n (Some walletPrivKey) copayerName);;
      c ← credentials;
      r ← _doJoinWallet walletId walletPrivKey (Credentials.xPubKey c) copayerName joined;
      match r with
      | CbErr err => mret (CbErr err)
      | CbOk wallet =>
          mret (CbOk (if 1 <? n
                      then Some (toSecret (Some walletId) (Some walletPrivKey) (Some network))
                      else None))
      end
  end.

(** What [joinWallet] does once the secret is decoded and the credentials
    are settled: join, then write the wallet information with the wallet
    key of the secret. *)
Definition joinAndStore (secretData : SecretData) (copayerName : string)
    (reply : Reply Wallet) : Api (Callback Wallet) :=
  c ← credentials;
  r ← _doJoinWallet (secret_walletId secretData) (secret_walletPrivKey secretData)
        (Credentials.xPubKey c) copayerName reply;
  match r with
  | CbErr err => mret (CbErr err)
  | CbOk wallet =>
      updateCredentials
        (addWalletInfo (wallet_id wallet) (wallet_name wallet)
           (wallet_m wallet) (wallet_n wallet)
           (Some (secret_walletPrivKey secretData)) copayerName);;
      mret (CbOk wallet)
  end.

(** The credential object once [signTxProposalFromAirGapped] has installed
    [m], [n] and the transported ring. *)
Definition installedRing (c : Credentials.t) (m n : Z) (ring : list JValue)
  : Credentials.t :=
  addPublicKeyRing ring (Credentials.set_n n (Credentials.set_m m c)).

End API_continued.

(** ** A small instance of the collaborators

    Executable stand-ins used to run the orchestrator on concrete inputs:
    keys are tags, a ciphertext names its key in a header, a signature names
    the key and the signed text. *)

Fixpoint strip_prefix (p s : string) : option string :=
  match p with
  | EmptyString => Some s
  | String a p' =>
      match s with
      | String b s' => if Ascii.eqb a b then strip_prefix p' s' else None
      | EmptyString => None
      end
  end.

Definition keyTag (k : option string) : string := default "none" k.

Definition demo_utils : WalletUtils := {|
  encryptMessage text key := "enc[" +:+ keyTag key +:+ "]" +:+ text;
  decryptMessage text key := strip_prefix ("enc[" +:+ keyTag key +:+ "]") text;
  signMessage text key := "sig[" +:+ keyTag key +:+ "]" +:+ keyTag text;
  getProposalHash toAddress amount message :=
    "hash(" +:+ toAddress +:+ "," +:+ pretty amount +:+ "," +:+ keyTag message +:+ ")";
  toSecret walletId walletPrivKey network :=
    "secret(" +:+ keyTag walletId +:+ "," +:+ keyTag walletPrivKey +:+ ","
              +:+ keyTag network +:+ ")";
  signTxp txp xPrivKey := ["txsig[" +:+ keyTag xPrivKey +:+ "]" +:+ txp_id txp];
|}.

Definition demo_bitcore : Bitcore := {|
  toPublicKey privKey := "pub(" +:+ privKey +:+ ")";
|}.

Definition demo_sjcl : Sjcl := {|
  sjcl_encrypt password plaintext iter := "sjcl[" +:+ password +:+ "]" +:+ plaintext;
  sjcl_decrypt password ciphertext :=
    match strip_prefix ("sjcl[" +:+ password +:+ "]") ciphertext with
    | Some plaintext => Returned plaintext
    | None => Threw (ESjcl "CORRUPT: ccm: tag doesn't match")
    end;
|}.

(** A printer of documents, and a reader that recognises the printed form
    of the documents it is given. *)
Fixpoint printJson (v : JValue) : string :=
  match v with
  | JNull => "null"
  | JBool b => if b then "true" else "false"
  | JNum z => pretty z
  | JStr s => "'" +:+ s +:+ "'"
  | JArr items =>
      "[" +:+ (fix each (l : list JValue) : string :=
                 match l with
                 | [] => ""
                 | x :: rest => printJson x +:+ "," +:+ each rest
                 end) items +:+ "]"
  | JObj fields =>
      "{" +:+ (fix each (l : list (string * JValue)) : string :=
                 match l with
                 | [] => ""
                 | (k, x) :: rest => k +:+ ":" +:+ printJson x +:+ "," +:+ each rest
                 end) fields +:+ "}"
  end.

Definition readJson (known : list JValue) (text : string) : option JValue :=
  List.find (λ v, String.eqb (printJson v) text) known.

Definition demo_methods : CredentialMethods := {|
  create network seed :=
    Credentials.mk (Some network) (Some ("xprv-" +:+ seed)) (Some ("xpub-" +:+ seed))
      (Some ("req-" +:+ seed)) (Some ("id-" +:+ seed)) None None None None None None
      (Some ("pek-" +:+ seed)) None None;
  isComplete c :=
    nonzero (Credentials.m c) && nonzero (Credentials.n c) &&
    match Credentials.publicKeyRing c, Credentials.n c with
    | Some ring, Some n => Z.of_nat (length ring) =? n
    | _, _ => false
    end;
  canSign c := present (Credentials.xPrivKey c);
  hasWalletInfo c := present (Credentials.walletId c);
  addWalletInfo walletId walletName m n walletPrivKey copayerName c :=
    Credentials.mk (Credentials.network c) (Credentials.xPrivKey c)
      (Credentials.xPubKey c) (Credentials.requestPrivKey c) (Credentials.copayerId c)
      (if n =? 1 then Some [jsonOfOption (Credentials.xPubKey c)]
       else Credentials.publicKeyRing c)
      (Some walletId) (Some walletName) (Some m) (Some n) walletPrivKey
      (Credentials.personalEncryptingKey c)
      (Some ("sek-" +:+ keyTag walletPrivKey)) (Some copayerName);
  addPublicKeyRing ring c :=
    Credentials.mk (Credentials.network c) (Credentials.xPrivKey c)
      (Credentials.xPubKey c) (Credentials.requestPrivKey c) (Credentials.copayerId c)
      (Some ring) (Credentials.walletId c) (Credentials.walletName c)
      (Credentials.m c) (Credentials.n c) (Credentials.walletPrivKey c)
      (Credentials.personalEncryptingKey c) (Credentials.sharedEncryptingKey c)
      (Credentials.copayerName c);
|}.

(** A proposal verifies when its signature is the creator's over the hash of
    (destination, amount, encrypted message), and the creator is in the ring. *)
Definition demo_verifier : Verifier := {|
  checkCopayers c copayers :=
    forallb (λ p, negb (String.eqb (copayer_xPubKey p) "")) copayers;
  checkTxProposal c txp :=
    String.eqb (txp_proposalSignature txp)
      (@signMessage demo_utils
         (Some (@getProposalHash demo_utils (txp_toAddress txp) (txp_amount txp)
                  (txp_encryptedMessage txp)))
         (Some ("req-" +:+ txp_creatorId txp)))
    && match Credentials.publicKeyRing c with
       | Some ring =>
           existsb (λ v, match v with
                         | JStr s => String.eqb s ("xpub-" +:+ txp_creatorId txp)
                         | _ => false
                         end) ring
       | None => false
       end;
|}.

(** Alice's credential set in a complete 2-of-2 wallet. *)
Definition demo_alice : Credentials.t :=
  Credentials.mk (Some "testnet") (Some "xprv-alice") (Some "xpub-alice")
    (Some "req-alice") (Some "alice") (Some [JStr "xpub-alice"; JStr "xpub-bob"])
    (Some "w1") (Some "fam") (Some 2) (Some 2) (Some "wpk") (Some "pek-alice")
    (Some "sek-wpk") (Some "alice").

(** The same credential set as an import without the signing key leaves it. *)
Definition demo_readonly : Credentials.t := Credentials.delete_xPrivKey demo_alice.

Definition demo_documents : list JValue :=
  [ toObj demo_alice; toObj demo_readonly;
    toObj (elide demo_alice); toObj (elide demo_readonly);
    JArr [JStr "xpub-alice"; JStr "xpub-bob"];
    JArr [JStr "xpub-alice"; JStr "xpub-bob"; JStr "xpub-carol"];
    JObj [("code", JStr "WNOTFOUND"); ("message", JStr "Wallet not found")] ].

Definition demo_json : Json := {|
  JSON_stringify := printJson;
  JSON_parse := readJson demo_documents;
|}.

Definition demo_client (c : Credentials.t) : ApiState := {|
  heap := {[ 1%positive := c ]};
  this_credentials := Some 1%positive;
  baseUrl := "http://localhost:3001/copay/api";
  basePath := "/copay/api";
  sent := [];
  logged := [];
|}.

(** A client on which nothing was seeded yet. *)
Definition demo_fresh : ApiState := {|
  heap := ∅;
  this_credentials := None;
  baseUrl := "http://localhost:3001/copay/api";
  basePath := "/copay/api";
  sent := [];
  logged := [];
|}.

(** A proposal by [creator] as the server relays it: the message encrypted
    under the wallet's shared key, the signature by the creator's request
    key over the proposal hash. *)
Definition demo_proposal (id creator toAddress : string) (amount : Z)
    (message : option string) (signatures : option (list string)) : Txp :=
  let encrypted :=
    @_encryptMessage demo_utils message (Some "sek-wpk") in
  {| txp_id := id;
     txp_creatorId := creator;
     txp_toAddress := toAddress;
     txp_amount := amount;
     txp_message := encrypted;
     txp_encryptedMessage := None;
     txp_proposalSignature :=
       @signMessage demo_utils
         (Some (@getProposalHash demo_utils toAddress amount encrypted))
         (Some ("req-" +:+ creator));
     txp_signatures := signatures;
     txp_actions := [] |}.

(** The same proposal with the amount changed on the way. *)
Definition demo_tampered (txp : Txp) : Txp :=
  {| txp_id := txp_id txp;
     txp_creatorId := txp_creatorId txp;
     txp_toAddress := txp_toAddress txp;
     txp_amount := txp_amount txp + 1;
     txp_message := txp_message txp;
     txp_encryptedMessage := txp_encryptedMessage txp;
     txp_proposalSignature := txp_proposalSignature txp;
     txp_signatures := txp_signatures txp;
     txp_actions := txp_actions txp |}.

(** Alice's credential set before the wallet is complete: no ring yet. *)
Definition demo_pending : Credentials.t :=
  Credentials.mk (Some "testnet") (Some "xprv-alice") (Some "xpub-alice")
    (Some "req-alice") (Some "alice") None
    (Some "w1") (Some "fam") (Some 2) (Some 2) (Some "wpk") (Some "pek-alice")
    (Some "sek-wpk") (Some "alice").

(** The server's view of the complete 2-of-2 wallet. *)
Definition demo_status : WalletStatus := {|
  status_wallet := {|
    wallet_id := "w1"; wallet_name := "fam"; wallet_m := 2; wallet_n := 2;
    wallet_status := "complete";
    wallet_copayers := [
      {| copayer_id := "alice"; copayer_name := "alice"; copayer_xPubKey := "xpub-alice" |};
      {| copayer_id := "bob"; copayer_name := "bob"; copayer_xPubKey := "xpub-bob" |} ];
    wallet_secret := None |};
  status_pendingTxps := [];
|}.

(** Alice's proposal with a note, Bob's without, and Bob's with the amount
    changed on the way. *)
Definition demo_txp_alice : Txp :=
  demo_proposal "t1" "alice" "addr1" 100 (Some "hello") None.

Definition demo_txp_bob : Txp :=
  demo_proposal "t2" "bob" "addr2" 200 None None.

Definition demo_txp_forged : Txp := demo_tampered demo_txp_bob.

(** Alice's proposal as a client fetched it, with the signatures an offline
    signer attached. *)
Definition demo_txp_signed : Txp :=
  @processTxp demo_utils (Some "sek-wpk")
    (demo_proposal "t1" "alice" "addr1" 100 (Some "hello")
       (Some ["txsig[xprv-alice]t1"])).


(** Stand-ins for the collaborators of joining, addresses and recovery: a
    secret is the text [toSecret] of the instance above prints, an address
    names the ring and the path it was derived from. *)
Fixpoint fieldsOf (s : string) : list string :=
  match s with
  | EmptyString => [EmptyString]
  | String a rest =>
      if (String.eqb (String a "") "," || String.eqb (String a "") ")")%bool then EmptyString :: fieldsOf rest
      else match fieldsOf rest with
           | field :: fields => String a field :: fields
           | [] => [String a EmptyString]
           end
  end.

Definition demo_secret : SecretDecoder := {|
  fromSecret secret :=
    match fieldsOf <$> strip_prefix "secret(" secret with
    | Some [walletId; walletPrivKey; network; EmptyString] =>
        Returned {| secret_walletId := walletId;
                    secret_walletPrivKey := walletPrivKey;
                    secret_network := network |}
    | _ => Threw (EError "Invalid secret")
    end;
|}.

Definition demo_addresses : AddressVerifier := {|
  checkAddress c address :=
    String.eqb (address_address address)
      ("addr" +:+ printJson (ringDocument c) +:+ address_path address);
|}.

Definition demo_recovery : CredentialRecovery := {|
  fromExtendedPrivateKey xPrivKey :=
    Credentials.mk (Some "livenet") (Some xPrivKey) (Some ("xpub-of-" +:+ xPrivKey))
      (Some ("req-of-" +:+ xPrivKey)) (Some ("id-of-" +:+ xPrivKey))
      None None None None None None (Some ("pek-of-" +:+ xPrivKey)) None None;
|}.

(** Alice's credential set as [create] leaves it: keys, and no wallet yet. *)
Definition demo_seeded : Credentials.t := @create demo_methods "testnet" "alice".

(** Two addresses of the wallet of Alice and Bob, and one derived from
    another ring. *)
Definition demo_address (path : string) : Address := {|
  address_address := "addr['xpub-alice','xpub-bob',]" +:+ path;
  address_path := path;
  address_publicKeys := ["pub-alice" +:+ path; "pub-bob" +:+ path];
|}.

Definition demo_address_fake : Address := {|
  address_address := "addr['xpub-mallory','xpub-bob',]m/0/2";
  address_path := "m/0/2";
  address_publicKeys := ["pub-mallory"; "pub-bob"];
|}.

(** The wallet a copayer sees after joining it. *)
Definition demo_joined : Wallet := {|
  wallet_id := "w1"; wallet_name := "fam"; wallet_m := 2; wallet_n := 2;
  wallet_status := "pending";
  wallet_copayers := [
    {| copayer_id := "id-alice"; copayer_name := "alice"; copayer_xPubKey := "xpub-alice" |} ];
  wallet_secret := None |}.



(** * Properties *)

Section Properties.

Context `{!WalletUtils, !Bitcore, !Sjcl, !Json, !Verifier, !CredentialMethods}.

(** ** Running the store primitives *)

Lemma credentialsOf_inv (st : ApiState) (c : Credentials.t) :
  credentialsOf st = Some c →
  ∃ l, this_credentials st = Some l ∧ heap st !! l = Some c.
Proof.
  unfold credentialsOf. destruct (this_credentials st) as [l|]; [|done].
  intros Hc. by exists l.
Qed.

Lemma requireCredentials_some (st : ApiState) (c : Credentials.t) :
  credentialsOf st = Some c → requireCredentials st = (Returned c, st).
Proof. unfold requireCredentials. by intros ->. Qed.

Lemma requireComplete_some (st : ApiState) (c : Credentials.t) :
  credentialsOf st = Some c → isComplete c = true →
  requireComplete st = (Returned c, st).
Proof.
  intros Hc Hcomplete. unfold requireComplete, mbind, Api_bind.
  rewrite (requireCredentials_some _ _ Hc). cbn. by rewrite Hcomplete.
Qed.

Lemma credentials_some (st : ApiState) (c : Credentials.t) :
  credentialsOf st = Some c → credentials st = (Returned c, st).
Proof. unfold credentials. by intros ->. Qed.

Lemma API_canSign_some (st : ApiState) (c : Credentials.t) :
  credentialsOf st = Some c → API_canSign st = canSign c.
Proof. unfold API_canSign. by intros ->. Qed.

Lemma credentialsOf_with_sent (q : list HttpRequest) (st : ApiState) :
  credentialsOf (with_sent q st) = credentialsOf st.
Proof. reflexivity. Qed.

Lemma credentialsOf_with_logged (g : list LogEntry) (st : ApiState) :
  credentialsOf (with_logged g st) = credentialsOf st.
Proof. reflexivity. Qed.

(** A request answered with status 200 hands the body over and leaves one
    more entry in [sent]. *)
Lemma _doRequest_ok200 {A} (method url : string) (args : JValue) (body : A)
    (st : ApiState) (c : Credentials.t) :
  credentialsOf st = Some c →
  _doRequest method url args (Ok200 body) st
  = (Returned (CbOk body),
     with_sent (sent st ++ [requestArgs st c method url args]) st).
Proof.
  intros Hc. unfold _doRequest, mbind, Api_bind.
  by rewrite (requireCredentials_some _ _ Hc).
Qed.

(** ** Lists *)

Lemma any_true {A} (f : A → bool) (l : list A) (x : A) :
  x ∈ l → f x = true → any f l = true.
Proof.
  intros Hin Hf. apply existsb_exists. exists x. split; [|done].
  by apply list_elem_of_In.
Qed.

Lemma any_false {A} (f : A → bool) (l : list A) :
  (∀ x, x ∈ l → f x = false) → any f l = false.
Proof.
  intros Hall. induction l as [|y l IH]; [done|]. cbn.
  rewrite (Hall y) by left. apply IH. intros x Hx. apply Hall. by right.
Qed.

Lemma filter_one_elem {A} (P : A → Prop) `{!∀ x, Decision (P x)} (l : list A) :
  length (filter P l) = 1%nat → ∃ x, x ∈ l ∧ P x.
Proof.
  intros Hlen. destruct (filter P l) as [|x rest] eqn:Hf; [done|].
  assert (x ∈ filter P l) as Hx by (rewrite Hf; left).
  apply list_elem_of_filter in Hx as [HP Hin]. by exists x.
Qed.

(** ** Fetching proposals *)

Lemma getTxProposals_ok200 (opts : FetchOpts) (txps : list Txp)
    (st : ApiState) (c : Credentials.t) :
  credentialsOf st = Some c →
  isComplete c = true →
  getTxProposals opts (Ok200 txps) st
  = (Returned
       (let processed := _processTxps txps (Credentials.sharedEncryptingKey c) in
        if any (λ txp, negb (opts_doNotVerify opts) && negb (checkTxProposal c txp))
               processed
        then CbErr (EServerCompromised "Server sent fake transaction proposal")
        else CbOk
          (if opts_forAirGapped opts then
             ForAirGapped processed
               (encryptMessage (JSON_stringify (ringDocument c))
                               (Credentials.personalEncryptingKey c))
               (Credentials.m c) (Credentials.n c)
           else Proposals processed)),
     with_sent (sent st ++ [requestArgs st c "get" "/v1/txproposals/" (JObj [])]) st).
Proof.
  intros Hc Hcomplete. unfold getTxProposals, mbind, Api_bind.
  rewrite (requireComplete_some _ _ Hc Hcomplete).
  unfold _doGetRequest. rewrite (_doRequest_ok200 _ _ _ _ _ _ Hc).
  rewrite credentials_some with (c := c) by done.
  cbn. by destruct (any _ _).
Qed.

(** C1. A batch of server-supplied proposals of which exactly one fails the
    proposal-signature check: with verification on, [getTxProposals] fails
    the whole call with a ServerCompromisedError and hands over no proposal;
    with [doNotVerify] the batch is handed over unverified.  The credential
    set is the same afterwards. *)
Theorem getTxProposals_fail_closed (opts : FetchOpts) (txps : list Txp)
    (st : ApiState) (c : Credentials.t) :
  credentialsOf st = Some c →
  isComplete c = true →
  length (filter (λ txp, checkTxProposal c txp = false)
                 (_processTxps txps (Credentials.sharedEncryptingKey c))) = 1%nat →
  (opts_doNotVerify opts = false →
     (getTxProposals opts (Ok200 txps) st).1
     = Returned (CbErr (EServerCompromised "Server sent fake transaction proposal")))
  ∧ (opts_doNotVerify opts = true →
     ∃ result,
       (getTxProposals opts (Ok200 txps) st).1 = Returned (CbOk result)
       ∧ proposalsOf result = _processTxps txps (Credentials.sharedEncryptingKey c))
  ∧ credentialsOf (getTxProposals opts (Ok200 txps) st).2 = Some c.
Proof.
  intros Hc Hcomplete Hone.
  rewrite (getTxProposals_ok200 _ _ _ _ Hc Hcomplete). cbn.
  split; [|split; [|done]].
  - intros Hverify. apply filter_one_elem in Hone as (bad & Hin & Hbad).
    rewrite (any_true _ _ bad Hin); [done|]. by rewrite Hverify, Hbad.
  - intros Hskip. rewrite any_false.
    + eexists. split; [done|]. by destruct (opts_forAirGapped opts).
    + intros txp _. by rewrite Hskip.
Qed.

(** ** The credential document *)

Lemma assoc_emit_absent (ss : list (string * option JValue)) (k : string) :
  k ∉ ss.*1 → assoc k (emit ss) = None.
Proof.
  induction ss as [|[k' v'] ss IH]; [done|]. cbn. intros Hk.
  apply not_elem_of_cons in Hk as [Hne Hk].
  destruct v' as [x|]; [|by apply IH]. cbn.
  destruct (String.eqb_spec k k') as [->|_]; [done|]. by apply IH.
Qed.

Lemma assoc_emit (ss : list (string * option JValue)) (k : string) (v : option JValue) :
  NoDup ss.*1 → (k, v) ∈ ss → assoc k (emit ss) = v.
Proof.
  induction ss as [|[k' v'] ss IH]; [by intros _ ?%elem_of_nil|].
  cbn. intros [Hfresh Hnodup]%NoDup_cons [Heq|Hin]%elem_of_cons.
  - injection Heq as -> ->. destruct v' as [x|]; cbn.
    + by rewrite String.eqb_refl.
    + by apply assoc_emit_absent.
  - assert (k ≠ k') as Hne.
    { intros ->. apply Hfresh. apply list_elem_of_fmap. by exists (k', v). }
    destruct v' as [x|]; cbn; [|by apply IH].
    destruct (String.eqb_spec k k') as [->|_]; [done|]. by apply IH.
Qed.

Lemma slots_NoDup (c : Credentials.t) : NoDup (slots c).*1.
Proof. cbn. apply NoDup_ListNoDup. repeat (constructor; [cbn; intuition discriminate|]). constructor. Qed.

Lemma read_str_slots (c : Credentials.t) (k : string) (f : option string) :
  slot_str k f ∈ slots c → read_str k (emit (slots c)) = Some f.
Proof.
  intros Hin. unfold read_str.
  rewrite (assoc_emit _ k (JStr <$> f) (slots_NoDup c) Hin). by destruct f.
Qed.

Lemma read_num_slots (c : Credentials.t) (k : string) (f : option Z) :
  slot_num k f ∈ slots c → read_num k (emit (slots c)) = Some f.
Proof.
  intros Hin. unfold read_num.
  rewrite (assoc_emit _ k (JNum <$> f) (slots_NoDup c) Hin). by destruct f.
Qed.

Lemma read_arr_slots (c : Credentials.t) (k : string) (f : option (list JValue)) :
  slot_arr k f ∈ slots c → read_arr k (emit (slots c)) = Some f.
Proof.
  intros Hin. unfold read_arr.
  rewrite (assoc_emit _ k (JArr <$> f) (slots_NoDup c) Hin). by destruct f.
Qed.

(** Reading the document of a credential set gives the credential set back. *)
Lemma fromObj_toObj (c : Credentials.t) : fromObj (toObj c) = Some c.
Proof.
  unfold fromObj, toObj.
  rewrite (read_str_slots c "network" (Credentials.network c)) by (unfold slots; set_solver).
  rewrite (read_str_slots c "xPrivKey" (Credentials.xPrivKey c)) by (unfold slots; set_solver).
  rewrite (read_str_slots c "xPubKey" (Credentials.xPubKey c)) by (unfold slots; set_solver).
  rewrite (read_str_slots c "requestPrivKey" (Credentials.requestPrivKey c)) by (unfold slots; set_solver).
  rewrite (read_str_slots c "copayerId" (Credentials.copayerId c)) by (unfold slots; set_solver).
  rewrite (read_arr_slots c "publicKeyRing" (Credentials.publicKeyRing c)) by (unfold slots; set_solver).
  rewrite (read_str_slots c "walletId" (Credentials.walletId c)) by (unfold slots; set_solver).
  rewrite (read_str_slots c "walletName" (Credentials.walletName c)) by (unfold slots; set_solver).
  rewrite (read_num_slots c "m" (Credentials.m c)) by (unfold slots; set_solver).
  rewrite (read_num_slots c "n" (Credentials.n c)) by (unfold slots; set_solver).
  rewrite (read_str_slots c "walletPrivKey" (Credentials.walletPrivKey c)) by (unfold slots; set_solver).
  rewrite (read_str_slots c "personalEncryptingKey" (Credentials.personalEncryptingKey c))
    by (unfold slots; set_solver).
  rewrite (read_str_slots c "sharedEncryptingKey" (Credentials.sharedEncryptingKey c))
    by (unfold slots; set_solver).
  rewrite (read_str_slots c "copayerName" (Credentials.copayerName c)) by (unfold slots; set_solver).
  cbn. by destruct c.
Qed.

Lemma copyOf_same (c : Credentials.t) : copyOf c = c.
Proof. by destruct c. Qed.

(** ** Export and import *)

Lemma fresh_lookup_None (h : gmap loc Credentials.t) : h !! fresh (dom h) = None.
Proof. apply not_elem_of_dom. apply is_fresh. Qed.

Lemma export_run (opts : ExportOpts) (st : ApiState) (c : Credentials.t) :
  credentialsOf st = Some c →
  export opts st
  = (Returned (exportText opts c),
     with_heap (<[fresh (dom (heap st)) := exported opts c]> (heap st)) st).
Proof.
  intros Hc. unfold export, mbind, Api_bind.
  rewrite (requireCredentials_some _ _ Hc).
  unfold allocCredentials, exportText, exported. rewrite copyOf_same.
  destruct (opts_noSign opts); cbn.
  - unfold updateAt. cbn. rewrite lookup_insert_eq. cbn.
    unfold readAt. cbn. rewrite lookup_insert_eq, insert_insert_eq. done.
  - unfold readAt. cbn. by rewrite lookup_insert_eq.
Qed.

(** C10. [export] leaves the client's credentials alone, whatever the
    options: [this.credentials] refers to the same object, every object of
    the store holds what it held, nothing is sent or logged.  With [noSign]
    the signing key is missing from the exported text only, and the client
    can sign afterwards exactly when it could before. *)
Theorem export_keeps_credentials (opts : ExportOpts) (st : ApiState) (c : Credentials.t) :
  credentialsOf st = Some c →
  (export opts st).1 = Returned (exportText opts c)
  ∧ this_credentials (export opts st).2 = this_credentials st
  ∧ (∀ l o, heap st !! l = Some o → heap (export opts st).2 !! l = Some o)
  ∧ credentialsOf (export opts st).2 = Some c
  ∧ API_canSign (export opts st).2 = canSign c
  ∧ sent (export opts st).2 = sent st
  ∧ logged (export opts st).2 = logged st.
Proof.
  intros Hc. rewrite (export_run _ _ _ Hc). cbn.
  assert (∀ l o, heap st !! l = Some o →
     <[fresh (dom (heap st)) := exported opts c]> (heap st) !! l = Some o) as Hframe.
  { intros l o Hl. rewrite lookup_insert_ne; [done|].
    intros <-. by rewrite fresh_lookup_None in Hl. }
  assert (credentialsOf
    (with_heap (<[fresh (dom (heap st)) := exported opts c]> (heap st)) st) = Some c)
    as Hc'.
  { destruct (credentialsOf_inv _ _ Hc) as (l & Hl & Hlc).
    unfold credentialsOf. cbn. rewrite Hl. by apply Hframe. }
  repeat split; try done.
  unfold API_canSign. by rewrite Hc'.
Qed.

Lemma import_run (str text : string) (opts : ExportOpts) (st : ApiState)
    (c : Credentials.t) :
  match opts_password opts with
  | Some password =>
      if present (opts_password opts)
      then sjcl_decrypt password str = Returned text
      else text = str
  | None => text = str
  end →
  (if opts_compressed opts then importCompressed text
   else JSON_parse text ≫= fromObj) = Some c →
  import str opts st
  = (Returned tt,
     with_credentials (Some (fresh (dom (heap st))))
       (with_heap (<[fresh (dom (heap st)) := c]> (heap st)) st)).
Proof.
  intros Htext Hdecoded. unfold import, mbind, Api_bind in *.
  destruct (opts_password opts) as [password|]; cbn in *.
  - destruct (String.eqb password ""); cbn in *.
    + subst text. by rewrite Hdecoded.
    + unfold try_catch, liftCompletion. rewrite Htext. by rewrite Hdecoded.
  - subst text. by rewrite Hdecoded.
Qed.

(** A failing [import] changes nothing: the credential reference is written
    last. *)
Lemma import_failure_keeps_state (str : string) (opts : ExportOpts) (st : ApiState)
    (e : JsError) :
  (import str opts st).1 = Threw e → (import str opts st).2 = st.
Proof.
  unfold import, mbind, Api_bind, try_catch, liftCompletion, throw.
  destruct (opts_password opts) as [password|]; cbn.
  - destruct (String.eqb password ""); cbn.
    + by destruct (if opts_compressed opts then _ else _).
    + destruct (sjcl_decrypt password str) as [text|ex]; cbn; [|done].
      by destruct (if opts_compressed opts then _ else _).
  - by destruct (if opts_compressed opts then _ else _).
Qed.

(** C4 (what the code does). When sjcl rejects the password, [import] fails
    with sjcl's own exception: the handler rethrows it, and the statement
    that would raise the Incorrect password error is never reached.  The
    client is left as it was. *)
Theorem import_wrong_password_rethrows (str password : string) (opts : ExportOpts)
    (st : ApiState) (ex : JsError) :
  opts_password opts = Some password →
  password ≠ "" →
  sjcl_decrypt password str = Threw ex →
  import str opts st = (Threw ex, st).
Proof.
  intros Hpw Hne Hthrow. unfold import, mbind, Api_bind.
  rewrite Hpw. cbn.
  destruct (String.eqb_spec password "") as [->|_]; [done|]. cbn.
  unfold try_catch, liftCompletion. by rewrite Hthrow.
Qed.

(** C5. Exporting a credential set and importing the text with the same
    options, on any client, installs a credential set equivalent to the
    original one without its signing key if [noSign] was set, and with
    everything the original had otherwise.  Without [compressed] it is that
    credential set field for field; with [compressed] the three server-side
    fields are not there.  The JSON text and the password encryption of this
    one document are taken to read back as written. *)
Theorem import_export_roundtrip (opts : ExportOpts) (st st2 : ApiState)
    (c : Credentials.t) :
  credentialsOf st = Some c →
  let kept := exported opts c in
  let doc := toObj (if opts_compressed opts then elide kept else kept) in
  JSON_parse (JSON_stringify doc) = Some doc →
  (∀ password, opts_password opts = Some password → password ≠ "" →
     sjcl_decrypt password
       (sjcl_encrypt password (JSON_stringify doc) WALLET_ENCRYPTION_OPTS_iter)
     = Returned (JSON_stringify doc)) →
  ∃ output imported,
    (export opts st).1 = Returned output
    ∧ (import output opts st2).1 = Returned tt
    ∧ credentialsOf (import output opts st2).2 = Some imported
    ∧ imported = (if opts_compressed opts then elide kept else kept)
    ∧ equivalent imported kept
    ∧ Credentials.xPrivKey imported
      = (if opts_noSign opts then None else Credentials.xPrivKey c).
Proof.
  intros Hc kept doc Hjson Hsjcl.
  set (target := if opts_compressed opts then elide kept else kept) in *.
  assert (fromObj doc = Some target) as Hread by apply fromObj_toObj.
  assert (exportText opts c
          = match opts_password opts with
            | Some password =>
                if present (opts_password opts)
                then sjcl_encrypt password (JSON_stringify doc) WALLET_ENCRYPTION_OPTS_iter
                else JSON_stringify doc
            | None => JSON_stringify doc
            end) as Htext.
  { unfold exportText, exportCompressed. fold kept. subst doc target.
    by destruct (opts_compressed opts). }
  clearbody doc.
  exists (exportText opts c), target.
  rewrite (export_run _ _ _ Hc). split; [done|].
  rewrite (import_run (exportText opts c) (JSON_stringify doc) opts st2 target).
  - split; [done|]. split.
    { unfold credentialsOf. cbn. by rewrite lookup_insert_eq. }
    split; [done|]. split.
    { unfold equivalent. subst target. destruct (opts_compressed opts); [|done].
      by destruct kept. }
    subst target kept. unfold exported.
    by destruct (opts_compressed opts), (opts_noSign opts), c.
  - rewrite Htext. destruct (opts_password opts) as [password|] eqn:Hpw; [|done].
    unfold present. destruct (String.eqb_spec password "") as [->|Hne]; [done|].
    by apply Hsjcl.
  - unfold importCompressed. rewrite Hjson.
    by destruct (opts_compressed opts).
Qed.

(** ** Requests, whatever the reply *)

(** Whatever the transport answers, [_doRequest] returns to its caller,
    leaves exactly one more request in [sent] and touches nothing but the
    log. *)
Lemma _doRequest_any {A} (method url : string) (args : JValue) (reply : Reply A)
    (st : ApiState) (c : Credentials.t) :
  credentialsOf st = Some c →
  ∃ (r : Callback A) (g : list LogEntry),
    _doRequest method url args reply st
    = (Returned r,
       with_logged g (with_sent (sent st ++ [requestArgs st c method url args]) st))
    ∧ (∀ body, reply = Ok200 body → r = CbOk body)
    ∧ (∀ body, r = CbOk body → reply = Ok200 body).
Proof.
  intros Hc. unfold _doRequest, mbind, Api_bind.
  rewrite (requireCredentials_some _ _ Hc).
  destruct reply as [err|body|code body]; cbn.
  - exists (CbErr err), (logged st). by repeat split.
  - exists (CbOk body), (logged st). repeat split; [by intros ? [= ->]|by intros ? [= ->]].
  - eexists (CbErr _), _. unfold _parseError, mbind, Api_bind, log, modifyState. cbn.
    by repeat split.
Qed.

(** ** Decrypting what was fetched *)




(** ** Sending a proposal *)

Lemma sendTxProposal_run (opts : ProposalOpts) (reply : Reply Txp)
    (st : ApiState) (c : Credentials.t) :
  credentialsOf st = Some c →
  isComplete c = true →
  ∃ (r : Callback Txp) (g : list LogEntry) (q : HttpRequest),
    sendTxProposal opts reply st
    = (Returned r, with_logged g (with_sent (sent st ++ [q]) st))
    ∧ req_method q = "post"
    ∧ prop "proposalSignature" (req_body q) = Some (JStr (proposalSignatureOf opts c)).
Proof.
  intros Hc Hcomplete. unfold sendTxProposal, mbind, Api_bind.
  rewrite (requireComplete_some _ _ Hc Hcomplete).
  unfold _doPostRequest.
  edestruct (@_doRequest_any Txp) as (r & g & -> & _); [exact Hc|].
  eexists _, g, _. split; [by destruct r|]. done.
Qed.

(** ** Signing *)

Lemma checkArgument_creatorId (txp : Txp) (st : ApiState) :
  txp_creatorId txp ≠ "" →
  checkArgument (negb (String.eqb (txp_creatorId txp) "")) st = (Returned tt, st).
Proof.
  intros Hne. by destruct (String.eqb_spec (txp_creatorId txp) "").
Qed.

Lemma getSignatures_run (txp : Txp) (st : ApiState) (c : Credentials.t) :
  credentialsOf st = Some c →
  isComplete c = true →
  txp_creatorId txp ≠ "" →
  getSignatures txp st
  = (Returned
       (if negb (canSign c)
        then CbErr (EString "You do not have the required keys to sign transactions")
        else if negb (checkTxProposal c txp)
        then CbErr (EServerCompromised "Transaction proposal is invalid")
        else CbOk (signTxp txp (Credentials.xPrivKey c))),
     st).
Proof.
  intros Hc Hcomplete Hcreator. unfold getSignatures, mbind, Api_bind.
  rewrite (requireComplete_some _ _ Hc Hcomplete).
  rewrite (checkArgument_creatorId _ _ Hcreator). cbn.
  rewrite (API_canSign_some _ _ Hc).
  by destruct (canSign c), (checkTxProposal c txp).
Qed.

Lemma signTxProposal_run (txp : Txp) (reply : Reply Txp) (st : ApiState)
    (c : Credentials.t) :
  credentialsOf st = Some c →
  isComplete c = true →
  txp_creatorId txp ≠ "" →
  signTxProposal txp reply st
  = if negb (canSign c) && negb (bool_decide (is_Some (txp_signatures txp)))
    then (Returned
            (CbErr (EError "You do not have the required keys to sign transactions")),
          st)
    else if negb (checkTxProposal c txp)
    then (Returned (CbErr (EServerCompromised "Server sent fake transaction proposal")),
          st)
    else
      _doPostRequest ("/v1/txproposals/" +:+ txp_id txp +:+ "/signatures/")
        (JObj [("signatures", JArr (JStr <$> submittedSignatures txp c))]) reply st.
Proof.
  intros Hc Hcomplete Hcreator. unfold signTxProposal, mbind, Api_bind.
  rewrite (requireComplete_some _ _ Hc Hcomplete).
  rewrite (checkArgument_creatorId _ _ Hcreator). cbn.
  rewrite (API_canSign_some _ _ Hc).
  destruct (negb (canSign c) && _); [done|].
  destruct (checkTxProposal c txp); [|done]. cbn.
  unfold submittedSignatures.
  by destruct (_doPostRequest _ _ _ _) as [[[]|] ?].
Qed.

(** C2, as the code has it. On a complete credential set and a proposal
    naming its creator: [getSignatures] fails with the missing-keys error
    when the credentials cannot sign, and [signTxProposal] does when they
    cannot sign and the proposal brings no signatures of its own; past that
    guard both fail with a ServerCompromisedError, nothing sent, when
    [checkTxProposal] rejects the proposal; [getSignatures] hands out
    signatures only for a proposal that verified; [signTxProposal] submits,
    for a proposal that verified, the proposal's own signatures or else the
    ones it computes, and it sends at most one request and none for a
    proposal that did not verify. *)
Theorem signing_needs_keys_and_verification (txp : Txp) (reply : Reply Txp)
    (st : ApiState) (c : Credentials.t) :
  credentialsOf st = Some c →
  isComplete c = true →
  txp_creatorId txp ≠ "" →
  (canSign c = false →
     getSignatures txp st
     = (Returned (CbErr (EString "You do not have the required keys to sign transactions")),
        st))
  ∧ (canSign c = false → txp_signatures txp = None →
     signTxProposal txp reply st
     = (Returned (CbErr (EError "You do not have the required keys to sign transactions")),
        st))
  ∧ (canSign c = true → checkTxProposal c txp = false →
     getSignatures txp st
     = (Returned (CbErr (EServerCompromised "Transaction proposal is invalid")), st))
  ∧ (canSign c = true ∨ is_Some (txp_signatures txp) → checkTxProposal c txp = false →
     signTxProposal txp reply st
     = (Returned (CbErr (EServerCompromised "Server sent fake transaction proposal")), st))
  ∧ (∀ signatures, (getSignatures txp st).1 = Returned (CbOk signatures) →
     canSign c = true ∧ checkTxProposal c txp = true
     ∧ signatures = signTxp txp (Credentials.xPrivKey c))
  ∧ (canSign c = true ∨ is_Some (txp_signatures txp) → checkTxProposal c txp = true →
     ∃ q, sent (signTxProposal txp reply st).2 = (sent st ++ [q])%list
          ∧ req_body q = JObj [("signatures", JArr (JStr <$> submittedSignatures txp c))])
  ∧ (sent (signTxProposal txp reply st).2 = sent st
     ∨ checkTxProposal c txp = true
       ∧ (canSign c = true ∨ is_Some (txp_signatures txp))
       ∧ ∃ q, sent (signTxProposal txp reply st).2 = (sent st ++ [q])%list
              ∧ req_body q
                = JObj [("signatures", JArr (JStr <$> submittedSignatures txp c))]).
Proof.
  intros Hc Hcomplete Hcreator.
  rewrite (getSignatures_run _ _ _ Hc Hcomplete Hcreator).
  rewrite (signTxProposal_run _ _ _ _ Hc Hcomplete Hcreator).
  repeat apply conj.
  - by intros ->.
  - intros -> ->. done.
  - by intros -> ->.
  - intros Hable ->. destruct Hable as [->|[given ->]]; [done|].
    by rewrite andb_false_r.
  - intros signatures. cbn.
    destruct (canSign c); cbn; [|done].
    destruct (checkTxProposal c txp); cbn; [|done].
    by intros [= <-].
  - intros Hable ->.
    assert (negb (canSign c) && negb (bool_decide (is_Some (txp_signatures txp))) = false)
      as ->.
    { destruct Hable as [->|[given ->]]; [done|]. by rewrite andb_false_r. }
    cbn. unfold _doPostRequest.
    edestruct (@_doRequest_any Txp) as (r & g & -> & _); [exact Hc|].
    by eexists.
  - destruct (canSign c) eqn:Hable; cbn.
    + destruct (checkTxProposal c txp); cbn; [|by left]. right.
      split; [done|]. split; [by left|]. unfold _doPostRequest.
      edestruct (@_doRequest_any Txp) as (r & g & -> & _); [exact Hc|].
      by eexists.
    + destruct (txp_signatures txp) as [given|] eqn:Hgiven; cbn; [|by left].
      destruct (checkTxProposal c txp); cbn; [|by left]. right.
      split; [done|]. split; [by right|]. unfold _doPostRequest.
      edestruct (@_doRequest_any Txp) as (r & g & -> & _); [exact Hc|].
      by eexists.
Qed.

(** ** Opening a wallet *)

Lemma updateCredentials_some (f : Credentials.t → Credentials.t) (st : ApiState)
    (l : loc) (c : Credentials.t) :
  this_credentials st = Some l → heap st !! l = Some c →
  updateCredentials f st = (Returned tt, with_heap (<[l := f c]> (heap st)) st).
Proof. intros Hl Hc. unfold updateCredentials. by rewrite Hl, Hc. Qed.

Lemma openWallet_merge_run (wallet : Wallet) (st : ApiState) (l : loc)
    (c : Credentials.t) :
  this_credentials st = Some l → heap st !! l = Some c →
  openWallet_merge wallet st
  = (if hasWalletInfo (withRing c wallet) || listsCopayer (withRing c wallet) wallet
     then Returned (CbOk true) else Threw ETypeError,
     with_heap (<[l := mergedCredentials c wallet]> (heap st)) st).
Proof.
  intros Hl Hc. unfold openWallet_merge, mbind, Api_bind.
  rewrite (updateCredentials_some _ _ _ _ Hl Hc).
  fold (withRing c wallet).
  unfold credentials, credentialsOf. cbn. rewrite Hl, lookup_insert_eq.
  unfold mergedCredentials, listsCopayer.
  destruct (hasWalletInfo (withRing c wallet)); cbn; [done|].
  destruct (List.find _ _) as [me|]; cbn.
  - unfold updateCredentials. cbn. rewrite Hl, lookup_insert_eq. cbn.
    by rewrite insert_insert_eq.
  - done.
Qed.

Lemma openWallet_ok200 (ret : WalletStatus) (st : ApiState) (c : Credentials.t) :
  credentialsOf st = Some c →
  isComplete c = false →
  let wallet := status_wallet ret in
  let st1 := with_sent (sent st ++ [requestArgs st c "get" "/v1/wallets/" (JObj [])]) st in
  openWallet (Ok200 ret) st
  = if negb (String.eqb (wallet_status wallet) "complete")
    then (Returned (CbErr (EString "Wallet Incomplete")), st1)
    else if present (Credentials.walletPrivKey c) then
      if negb (checkCopayers c (wallet_copayers wallet))
      then (Returned (CbErr (EServerCompromised
              "Copayers in the wallet could not be verified to have known the wallet secret")),
            st1)
      else openWallet_merge wallet st1
    else
      openWallet_merge wallet
        (with_logged
           (logged st ++
              [LogWarn "Could not perform verification of other copayers in the wallet"])
           st1).
Proof.
  intros Hc Hcomplete wallet st1. unfold openWallet, mbind, Api_bind.
  rewrite (requireCredentials_some _ _ Hc), Hcomplete.
  unfold _doGetRequest. rewrite (_doRequest_ok200 _ _ _ _ _ _ Hc).
  fold wallet. fold st1.
  destruct (negb (String.eqb (wallet_status wallet) "complete")); [done|].
  rewrite credentials_some with (c := c) by done.
  destruct (present (Credentials.walletPrivKey c)); [|done].
  by destruct (negb (checkCopayers c (wallet_copayers wallet))).
Qed.

(** C7. [openWallet] on a credential set: when it is already complete the
    answer is [false] and no request goes out.  Otherwise the answer is
    [true] only for a server wallet of status "complete", and the credential
    object then holds the merged ring and wallet information; any other
    status fails with nothing changed in the credential store; with the
    wallet key at hand a failing [checkCopayers] is a ServerCompromisedError
    and the credential store is untouched, a passing one lets the merge go
    ahead; without the key the check is not consulted, a warning is logged,
    and the merge goes ahead. *)
Theorem openWallet_completes_verified_wallet (reply : Reply WalletStatus)
    (st : ApiState) (c : Credentials.t) :
  credentialsOf st = Some c →
  (isComplete c = true → openWallet reply st = (Returned (CbOk false), st))
  ∧ (isComplete c = false →
     (∀ flag, (openWallet reply st).1 = Returned (CbOk flag) →
        flag = true
        ∧ ∃ ret, reply = Ok200 ret
            ∧ wallet_status (status_wallet ret) = "complete"
            ∧ credentialsOf (openWallet reply st).2
              = Some (mergedCredentials c (status_wallet ret)))
     ∧ (∀ ret, reply = Ok200 ret →
        wallet_status (status_wallet ret) ≠ "complete" →
        (openWallet reply st).1 = Returned (CbErr (EString "Wallet Incomplete"))
        ∧ heap (openWallet reply st).2 = heap st
        ∧ this_credentials (openWallet reply st).2 = this_credentials st)
     ∧ (∀ ret, reply = Ok200 ret →
        wallet_status (status_wallet ret) = "complete" →
        present (Credentials.walletPrivKey c) = true →
        (checkCopayers c (wallet_copayers (status_wallet ret)) = false →
           (∃ message,
              (openWallet reply st).1 = Returned (CbErr (EServerCompromised message)))
           ∧ heap (openWallet reply st).2 = heap st
           ∧ this_credentials (openWallet reply st).2 = this_credentials st)
        ∧ (checkCopayers c (wallet_copayers (status_wallet ret)) = true →
           credentialsOf (openWallet reply st).2
           = Some (mergedCredentials c (status_wallet ret))
           ∧ (hasWalletInfo (withRing c (status_wallet ret)) = true
              ∨ listsCopayer (withRing c (status_wallet ret)) (status_wallet ret) = true →
              (openWallet reply st).1 = Returned (CbOk true))))
     ∧ (∀ ret, reply = Ok200 ret →
        wallet_status (status_wallet ret) = "complete" →
        present (Credentials.walletPrivKey c) = false →
        LogWarn "Could not perform verification of other copayers in the wallet"
          ∈ logged (openWallet reply st).2
        ∧ credentialsOf (openWallet reply st).2
          = Some (mergedCredentials c (status_wallet ret))
        ∧ (hasWalletInfo (withRing c (status_wallet ret)) = true
           ∨ listsCopayer (withRing c (status_wallet ret)) (status_wallet ret) = true →
           (openWallet reply st).1 = Returned (CbOk true)))).
Proof.
  intros Hc. destruct (credentialsOf_inv _ _ Hc) as (l & Hl & Hlc). split.
  { intros Hcomplete. unfold openWallet, mbind, Api_bind.
    by rewrite (requireCredentials_some _ _ Hc), Hcomplete. }
  intros Hcomplete.
  repeat apply conj.
  - intros flag. destruct reply as [err|ret|code body].
    + unfold openWallet, mbind, Api_bind.
      rewrite (requireCredentials_some _ _ Hc), Hcomplete.
      unfold _doGetRequest.
      edestruct (@_doRequest_any WalletStatus) as (r & g & -> & _ & Hok); [exact Hc|].
      destruct r as [e|body]; [done|]. by specialize (Hok body eq_refl).
    + rewrite (openWallet_ok200 _ _ _ Hc Hcomplete). cbn zeta.
      destruct (String.eqb_spec (wallet_status (status_wallet ret)) "complete")
        as [Hstatus|Hstatus]; cbn -[openWallet_merge]; [|done].
      destruct (present (Credentials.walletPrivKey c)).
      * destruct (checkCopayers c _); cbn -[openWallet_merge]; [|done].
        rewrite (openWallet_merge_run _ _ l c) by done.
        destruct (_ || _); cbn; [|done]. intros [= <-].
        split; [done|]. exists ret. repeat split; [done|].
        unfold credentialsOf. cbn. by rewrite Hl, lookup_insert_eq.
      * rewrite (openWallet_merge_run _ _ l c) by done.
        destruct (_ || _); cbn; [|done]. intros [= <-].
        split; [done|]. exists ret. repeat split; [done|].
        unfold credentialsOf. cbn. by rewrite Hl, lookup_insert_eq.
    + unfold openWallet, mbind, Api_bind.
      rewrite (requireCredentials_some _ _ Hc), Hcomplete.
      unfold _doGetRequest.
      edestruct (@_doRequest_any WalletStatus) as (r & g & -> & _ & Hok); [exact Hc|].
      destruct r as [e|body']; [done|]. by specialize (Hok body' eq_refl).
  - intros ret -> Hstatus. rewrite (openWallet_ok200 _ _ _ Hc Hcomplete). cbn zeta.
    by destruct (String.eqb_spec (wallet_status (status_wallet ret)) "complete").
  - intros ret -> Hstatus Hkey. rewrite (openWallet_ok200 _ _ _ Hc Hcomplete). cbn zeta.
    rewrite Hstatus, Hkey. cbn -[openWallet_merge]. split.
    + intros ->. cbn. split; [by eexists|done].
    + intros ->. cbn -[openWallet_merge].
      rewrite (openWallet_merge_run _ _ l c) by done. cbn. split.
      * unfold credentialsOf. cbn. by rewrite Hl, lookup_insert_eq.
      * by intros [->| ->]; [|rewrite orb_true_r].
  - intros ret -> Hstatus Hkey. rewrite (openWallet_ok200 _ _ _ Hc Hcomplete). cbn zeta.
    rewrite Hstatus, Hkey. cbn -[openWallet_merge].
    rewrite (openWallet_merge_run _ _ l c) by done. cbn.
    split; [|split].
    + apply elem_of_app. right. by left.
    + unfold credentialsOf. cbn. by rewrite Hl, lookup_insert_eq.
    + by intros [->| ->]; [|rewrite orb_true_r].
Qed.

(** ** Creating a wallet *)

Lemma bind_returned {A B} (c : Api A) (k : A → Api B) (st st' : ApiState) (b : B) :
  (c ≫= k) st = (Returned b, st') →
  ∃ a st1, c st = (Returned a, st1) ∧ k a st1 = (Returned b, st').
Proof.
  unfold mbind, Api_bind. destruct (c st) as [[a|e] st1]; [|done].
  intros Hk. by exists a, st1.
Qed.

Lemma _doRequest_returned {A} (method url : string) (args : JValue) (reply : Reply A)
    (st st' : ApiState) (body : A) :
  _doRequest method url args reply st = (Returned (CbOk body), st') →
  reply = Ok200 body.
Proof.
  unfold _doRequest. intros Hrun.
  apply bind_returned in Hrun as (c & st1 & _ & Hrun).
  apply bind_returned in Hrun as ([] & st2 & _ & Hrun).
  destruct reply as [err|body'|code body']; [done|by injection Hrun as <-|].
  apply bind_returned in Hrun as (e & st3 & _ & Hrun). done.
Qed.

(** C6. A [createWallet] that succeeds hands its callback the invite secret
    of the wallet the server registered when [n > 1] and null otherwise (so
    null for [n = 1]).  And a client whose credentials were made for another
    network than the one asked for (after defaulting to livenet) gets an
    error through the callback with no request sent and the credential store
    as it was. *)
Theorem createWallet_secret_iff_shared (walletName copayerName : string) (m n : Z)
    (network : option string) (seed walletPrivKey : string)
    (created : Reply string) (joined : Reply Wallet) (st : ApiState) :
  (∀ secret st',
     createWallet walletName copayerName m n network seed walletPrivKey created joined st
     = (Returned (CbOk secret), st') →
     (∃ walletId wallet,
        created = Ok200 walletId ∧ joined = Ok200 wallet
        ∧ secret = (if 1 <? n
                    then Some (toSecret (Some walletId) (Some walletPrivKey)
                                        (Some (networkOrDefault network)))
                    else None))
     ∧ (is_Some secret ↔ 1 < n)
     ∧ (n = 1 → secret = None))
  ∧ (∀ c, credentialsOf st = Some c →
     Credentials.network c ≠ Some (networkOrDefault network) →
     let outcome :=
       createWallet walletName copayerName m n network seed walletPrivKey created joined st in
     (∃ e, outcome.1 = Returned (CbErr e))
     ∧ sent outcome.2 = sent st
     ∧ heap outcome.2 = heap st
     ∧ this_credentials outcome.2 = this_credentials st).
Proof.
  split.
  - intros secret st' Hrun. unfold createWallet in Hrun.
    destruct (negb (bool_decide _)) in Hrun; [done|].
    apply bind_returned in Hrun as (st0 & st0' & _ & Hrun).
    apply bind_returned in Hrun as ([] & st1 & _ & Hrun).
    apply bind_returned in Hrun as (c & st2 & _ & Hrun).
    destruct (negb (bool_decide _)) in Hrun; [done|].
    apply bind_returned in Hrun as (r & st3 & Hcreated & Hrun).
    destruct r as [e|walletId]; [done|].
    apply _doRequest_returned in Hcreated as ->.
    apply bind_returned in Hrun as ([] & st4 & _ & Hrun).
    apply bind_returned in Hrun as (c4 & st5 & _ & Hrun).
    apply bind_returned in Hrun as (r & st6 & Hjoined & Hrun).
    destruct r as [e|wallet]; [done|].
    unfold _doJoinWallet in Hjoined.
    apply bind_returned in Hjoined as (r & st7 & Hjoined & Hret).
    destruct r as [e|wallet']; [done|].
    apply _doRequest_returned in Hjoined as ->.
    injection Hrun as <- <-.
    split; [by exists walletId, wallet'|].
    destruct (Z.ltb_spec 1 n); split.
    + split; [done|by eexists].
    + lia.
    + split; [by intros [? ?]|lia].
    + done.
  - intros c Hc Hnet outcome. subst outcome.
    destruct (credentialsOf_inv _ _ Hc) as (l & Hl & Hlc).
    unfold createWallet, mbind, Api_bind.
    destruct (negb (bool_decide _)); [by split; [eexists|]|]. cbn.
    rewrite Hl. unfold log, modifyState. cbn.
    unfold credentials, credentialsOf. cbn. rewrite Hl, Hlc.
    rewrite bool_decide_false by done. cbn. by split; [eexists|].
Qed.

(** ** Signing offline *)

(** C3. When the transported ring decrypts and parses to something that is
    not an array of exactly [n] entries, [signTxProposalFromAirGapped]
    throws the Invalid public key ring error and the client is exactly as it
    was: [m], [n] and the ring of the credential set are not written. *)
Theorem signTxProposalFromAirGapped_invalid_ring
    (txp : Txp) (encryptedPkr plain : string) (m n : Z) (ring : JValue)
    (st : ApiState) (c : Credentials.t) :
  credentialsOf st = Some c →
  canSign c = true →
  decryptMessage encryptedPkr (Credentials.personalEncryptingKey c) = Some plain →
  JSON_parse plain = Some ring →
  isArrayOfLength ring n = false →
  signTxProposalFromAirGapped txp encryptedPkr m n st
  = (Threw (EError "Invalid public key ring"), st).
Proof.
  intros Hc Hsign Hdec Hparse Hlen.
  unfold signTxProposalFromAirGapped, mbind, Api_bind.
  rewrite (requireCredentials_some _ _ Hc). cbn.
  rewrite (API_canSign_some _ _ Hc), Hsign, Hdec. cbn.
  rewrite Hparse, Hlen. reflexivity.
Qed.

End Properties.

(** * The orchestrator on concrete inputs *)

Section Demo.

#[local] Existing Instance demo_utils.
#[local] Existing Instance demo_bitcore.
#[local] Existing Instance demo_sjcl.
#[local] Existing Instance demo_json.
#[local] Existing Instance demo_verifier.
#[local] Existing Instance demo_methods.

Example toLowerCase_method : toLowerCase "POST" = "post".
Proof. reflexivity. Qed.

Example networkOrDefault_cases :
  networkOrDefault None = "livenet"
  ∧ networkOrDefault (Some "") = "livenet"
  ∧ networkOrDefault (Some "testnet") = "testnet".
Proof. repeat split. Qed.

Example _encryptMessage_cases :
  _encryptMessage None (Some "sek-wpk") = None
  ∧ _encryptMessage (Some "") (Some "sek-wpk") = None
  ∧ _encryptMessage (Some "hello") (Some "sek-wpk") = Some "enc[sek-wpk]hello".
Proof. repeat split. Qed.

Example _decryptMessage_cases :
  _decryptMessage None (Some "sek-wpk") = ""
  ∧ _decryptMessage (Some "enc[sek-wpk]hello") (Some "sek-wpk") = "hello"
  ∧ _decryptMessage (Some "enc[other]hello") (Some "sek-wpk") = "<ECANNOTDECRYPT>".
Proof. repeat split. Qed.

Example _parseError_structured :
  (_parseError (JStr "{code:'WNOTFOUND',message:'Wallet not found',}") demo_fresh).1
  = Returned (EClientError (JStr "WNOTFOUND") (Some (JStr "Wallet not found"))).
Proof. reflexivity. Qed.

Example _parseError_unstructured :
  (_parseError (JStr "Bad Gateway") demo_fresh).1
  = Returned (EGeneric (Some (JStr "Bad Gateway")))
  ∧ (_parseError JNull demo_fresh).1
    = Returned (EGeneric (Some (JStr "There was an unknown error processing the request"))).
Proof. split; reflexivity. Qed.

(** A request of a client that holds a request key is signed over
    method, url and body. *)
Example getStatus_request :
  sent (getStatus (Ok200 demo_status) (demo_client demo_alice)).2
  = [ {| req_relUrl := "/copay/api/v1/wallets/";
         req_x_identity := Some "alice";
         req_x_signature := Some "sig[req-alice]get|/v1/wallets/|{}";
         req_method := "get";
         req_url := "http://localhost:3001/copay/api/v1/wallets/";
         req_body := JObj [] |} ].
Proof. reflexivity. Qed.
(** A batch of two proposals, the second forged: refused when verified,
    handed over when not. *)
Lemma getTxProposals_fail_closed_demo :
  (getTxProposals {| opts_doNotVerify := false; opts_forAirGapped := false |}
     (Ok200 [demo_txp_alice; demo_txp_forged]) (demo_client demo_alice)).1
  = Returned (CbErr (EServerCompromised "Server sent fake transaction proposal"))
  ∧ ∃ result,
      (getTxProposals {| opts_doNotVerify := true; opts_forAirGapped := false |}
         (Ok200 [demo_txp_alice; demo_txp_forged]) (demo_client demo_alice)).1
      = Returned (CbOk result)
      ∧ length (proposalsOf result) = 2%nat.
Proof.
  split.
  - apply (getTxProposals_fail_closed
             {| opts_doNotVerify := false; opts_forAirGapped := false |}
             [demo_txp_alice; demo_txp_forged] (demo_client demo_alice) demo_alice);
      reflexivity.
  - destruct (getTxProposals_fail_closed
             {| opts_doNotVerify := true; opts_forAirGapped := false |}
             [demo_txp_alice; demo_txp_forged] (demo_client demo_alice) demo_alice)
      as (_ & Hskip & _); [reflexivity..|].
    destruct (Hskip eq_refl) as (result & Hrun & Htxps).
    exists result. split; [exact Hrun|]. rewrite Htxps. reflexivity.
Defined.

(** A read-only client (no signing key) submits the signatures an offline
    signer attached to a verified proposal: [signTxProposal] does not fail,
    and one request goes out with those signatures. *)
Lemma signTxProposal_without_keys_demo :
  canSign demo_readonly = false
  ∧ checkTxProposal demo_readonly demo_txp_signed = true
  ∧ failed (signTxProposal demo_txp_signed (Ok200 demo_txp_signed)
              (demo_client demo_readonly)).1 = false
  ∧ req_body <$> sent (signTxProposal demo_txp_signed (Ok200 demo_txp_signed)
                         (demo_client demo_readonly)).2
    = [JObj [("signatures", JArr [JStr "txsig[xprv-alice]t1"])]].
Proof. repeat split; reflexivity. Qed.

(** The same read-only client is refused by [getSignatures], and by
    [signTxProposal] when the proposal brings no signatures; a client with
    keys is refused a forged proposal. *)
Lemma signing_needs_keys_and_verification_demo :
  getSignatures demo_txp_signed (demo_client demo_readonly)
  = (Returned (CbErr (EString "You do not have the required keys to sign transactions")),
     demo_client demo_readonly)
  ∧ getSignatures demo_txp_forged (demo_client demo_alice)
    = (Returned (CbErr (EServerCompromised "Transaction proposal is invalid")),
       demo_client demo_alice).
Proof.
  split.
  - destruct (signing_needs_keys_and_verification demo_txp_signed
                (Ok200 demo_txp_signed) (demo_client demo_readonly) demo_readonly)
      as (Hkeys & _); [reflexivity|reflexivity|discriminate|].
    apply Hkeys. reflexivity.
  - destruct (signing_needs_keys_and_verification demo_txp_forged
                (Ok200 demo_txp_forged) (demo_client demo_alice) demo_alice)
      as (_ & _ & Hforged & _); [reflexivity|reflexivity|discriminate|].
    apply Hforged; reflexivity.
Defined.

(** A transported ring of three keys for a wallet of two. *)
Lemma signTxProposalFromAirGapped_invalid_ring_demo :
  signTxProposalFromAirGapped demo_txp_signed
    "enc[pek-alice]['xpub-alice','xpub-bob','xpub-carol',]" 2 2
    (demo_client demo_pending)
  = (Threw (EError "Invalid public key ring"), demo_client demo_pending).
Proof.
  apply (signTxProposalFromAirGapped_invalid_ring demo_txp_signed
           "enc[pek-alice]['xpub-alice','xpub-bob','xpub-carol',]"
           "['xpub-alice','xpub-bob','xpub-carol',]" 2 2
           (JArr [JStr "xpub-alice"; JStr "xpub-bob"; JStr "xpub-carol"])
           (demo_client demo_pending) demo_pending); reflexivity.
Defined.

(** An export under one password, imported with another. *)
Lemma import_wrong_password_demo :
  import
    (exportText {| opts_compressed := false; opts_password := Some "secret";
                   opts_noSign := false |} demo_alice)
    {| opts_compressed := false; opts_password := Some "wrong"; opts_noSign := false |}
    demo_fresh
  = (Threw (ESjcl "CORRUPT: ccm: tag doesn't match"), demo_fresh).
Proof.
  apply (import_wrong_password_rethrows _ "wrong"); [reflexivity|discriminate|].
  vm_compute. reflexivity.
Defined.

(** A compressed, password-protected export without the signing key, read
    back on a fresh client. *)
Lemma import_export_roundtrip_demo :
  let opts := {| opts_compressed := true; opts_password := Some "secret";
                 opts_noSign := true |} in
  ∃ output imported,
    (export opts (demo_client demo_alice)).1 = Returned output
    ∧ (import output opts demo_fresh).1 = Returned tt
    ∧ credentialsOf (import output opts demo_fresh).2 = Some imported
    ∧ imported = elide demo_readonly
    ∧ equivalent imported demo_readonly
    ∧ Credentials.xPrivKey imported = None.
Proof.
  intros opts.
  apply (import_export_roundtrip opts (demo_client demo_alice) demo_fresh demo_alice).
  - reflexivity.
  - vm_compute. reflexivity.
  - intros password [= <-] _. vm_compute. reflexivity.
Defined.

(** A 2-of-3 wallet on a fresh client yields the invite secret, a 1-of-1
    wallet yields none, and livenet asked of testnet credentials is refused
    before anything is sent. *)
Lemma createWallet_secret_iff_shared_demo :
  let wallet n := {| wallet_id := "w9"; wallet_name := "fam"; wallet_m := 1;
                     wallet_n := n; wallet_status := "pending";
                     wallet_copayers := []; wallet_secret := None |} in
  (createWallet "fam" "alice" 2 3 (Some "testnet") "alice" "wpk"
     (Ok200 "w9") (Ok200 (wallet 3)) demo_fresh).1
  = Returned (CbOk (Some "secret(w9,wpk,testnet)"))
  ∧ (createWallet "fam" "alice" 1 1 (Some "testnet") "alice" "wpk"
       (Ok200 "w9") (Ok200 (wallet 1)) demo_fresh).1
    = Returned (CbOk None)
  ∧ (is_Some (Some "secret(w9,wpk,testnet)") ↔ 1 < 3)
  ∧ sent (createWallet "fam" "alice" 2 3 (Some "livenet") "alice" "wpk"
            (Ok200 "w9") (Ok200 (wallet 3)) (demo_client demo_alice)).2
    = [].
Proof.
  intros wallet. split; [reflexivity|]. split; [reflexivity|]. split.
  - destruct (createWallet_secret_iff_shared "fam" "alice" 2 3 (Some "testnet")
                "alice" "wpk" (Ok200 "w9") (Ok200 (wallet 3)) demo_fresh)
      as (Hsecret & _).
    eapply Hsecret. vm_compute. reflexivity.
  - destruct (createWallet_secret_iff_shared "fam" "alice" 2 3 (Some "livenet")
                "alice" "wpk" (Ok200 "w9") (Ok200 (wallet 3)) (demo_client demo_alice))
      as (_ & Hnetwork).
    destruct (Hnetwork demo_alice) as (_ & Hsent & _);
      [reflexivity|discriminate|exact Hsent].
Defined.

(** Alice's pending credentials and the server's complete 2-of-2 wallet. *)
Lemma openWallet_completes_verified_wallet_demo :
  (openWallet (Ok200 demo_status) (demo_client demo_pending)).1 = Returned (CbOk true)
  ∧ credentialsOf (openWallet (Ok200 demo_status) (demo_client demo_pending)).2
    = Some demo_alice
  ∧ openWallet (Ok200 demo_status) (demo_client demo_alice)
    = (Returned (CbOk false), demo_client demo_alice).
Proof.
  destruct (openWallet_completes_verified_wallet (Ok200 demo_status)
              (demo_client demo_pending) demo_pending) as (_ & Hopen); [reflexivity|].
  destruct (Hopen eq_refl) as (Honly & _).
  destruct (Honly true) as (_ & ret & [= <-] & _ & Hmerged); [reflexivity|].
  split; [reflexivity|]. split; [exact Hmerged|].
  destruct (openWallet_completes_verified_wallet (Ok200 demo_status)
              (demo_client demo_alice) demo_alice) as (Hdone & _); [reflexivity|].
  apply Hdone. reflexivity.
Defined.


(** Exporting without the signing key leaves Alice able to sign. *)
Lemma export_keeps_credentials_demo :
  let opts := {| opts_compressed := false; opts_password := None; opts_noSign := true |} in
  (export opts (demo_client demo_alice)).1
  = Returned (JSON_stringify (toObj demo_readonly))
  ∧ credentialsOf (export opts (demo_client demo_alice)).2 = Some demo_alice
  ∧ API_canSign (export opts (demo_client demo_alice)).2 = true.
Proof.
  intros opts.
  destruct (export_keeps_credentials opts (demo_client demo_alice) demo_alice)
    as (Htext & _ & _ & Hsame & Hsign & _); [reflexivity|].
  split; [exact Htext|]. split; [exact Hsame|exact Hsign].
Defined.

End Demo.

(** * Further properties of the orchestrator *)

Section MoreProperties.

Context `{!WalletUtils, !Bitcore, !Sjcl, !Json, !Verifier, !CredentialMethods,
          !SecretDecoder, !AddressVerifier, !CredentialRecovery}.

(** ** What never writes the credential store *)

Lemma sameStore_refl (st : ApiState) : sameStore st st.
Proof. by split. Qed.

Lemma sameStore_trans (st1 st2 st3 : ApiState) :
  sameStore st1 st2 → sameStore st2 st3 → sameStore st1 st3.
Proof. intros [? ?] [? ?]. split; congruence. Qed.

Lemma keepsStore_ret {A} (a : A) : keepsStore (mret a : Api A).
Proof. intros st. apply sameStore_refl. Qed.

Lemma keepsStore_throw {A} (e : JsError) : keepsStore (@throw A e).
Proof. intros st. apply sameStore_refl. Qed.

Lemma keepsStore_bind {A B} (c : Api A) (k : A → Api B) :
  keepsStore c → (∀ a, keepsStore (k a)) → keepsStore (c ≫= k).
Proof.
  intros Hc Hk st. unfold mbind, Api_bind. specialize (Hc st).
  destruct (c st) as [[a|e] st1]; cbn in *; [|done].
  eapply sameStore_trans; [exact Hc|apply Hk].
Qed.

Lemma keepsStore_requireCredentials : keepsStore requireCredentials.
Proof.
  intros st. unfold requireCredentials.
  destruct (credentialsOf st); apply sameStore_refl.
Qed.

Lemma keepsStore_credentials : keepsStore credentials.
Proof.
  intros st. unfold credentials. destruct (credentialsOf st); apply sameStore_refl.
Qed.

Lemma keepsStore_getState : keepsStore getState.
Proof. intros st. apply sameStore_refl. Qed.

Lemma keepsStore_checkState (cond : bool) : keepsStore (checkState cond).
Proof. intros st. destruct cond; apply sameStore_refl. Qed.

Lemma keepsStore_checkArgument (cond : bool) : keepsStore (checkArgument cond).
Proof. intros st. destruct cond; apply sameStore_refl. Qed.

Lemma keepsStore_log (e : LogEntry) : keepsStore (log e).
Proof. intros st. by split. Qed.

Lemma keepsStore_requireComplete : keepsStore requireComplete.
Proof.
  unfold requireComplete. apply keepsStore_bind; [apply keepsStore_requireCredentials|].
  intros c. apply keepsStore_bind; [apply keepsStore_checkState|].
  intros _. apply keepsStore_ret.
Qed.

Lemma keepsStore__parseError (body : JValue) : keepsStore (_parseError body).
Proof.
  unfold _parseError. apply keepsStore_bind; [apply keepsStore_log|].
  intros _. apply keepsStore_ret.
Qed.

Lemma keepsStore__doRequest {A} (method url : string) (args : JValue) (reply : Reply A) :
  keepsStore (_doRequest method url args reply).
Proof.
  unfold _doRequest. apply keepsStore_bind; [apply keepsStore_requireCredentials|].
  intros c. apply keepsStore_bind; [by intros st; split|].
  intros _. destruct reply as [err|body|code body]; [apply keepsStore_ret..|].
  apply keepsStore_bind; [apply keepsStore__parseError|].
  intros e. apply keepsStore_ret.
Qed.

(** X1. The fetches and the proposal transitions read the credential set and
    never write it: whatever the server answers and however the call ends,
    every credential object holds what it held and [this.credentials] refers
    to the object it referred to. *)
Theorem fetches_and_transitions_keep_credentials :
  (∀ reply, keepsStore (getStatus reply))
  ∧ (∀ opts reply, keepsStore (sendTxProposal opts reply))
  ∧ (∀ opts reply, keepsStore (getTxProposals opts reply))
  ∧ (∀ reply, keepsStore (getTxHistory reply))
  ∧ (∀ txp, keepsStore (getSignatures txp))
  ∧ (∀ txp reply, keepsStore (signTxProposal txp reply))
  ∧ (∀ txp reason reply, keepsStore (rejectTxProposal txp reason reply))
  ∧ (∀ txp reply, keepsStore (broadcastTxProposal txp reply))
  ∧ (∀ txp reply, keepsStore (removeTxProposal txp reply))
  ∧ (∀ reply, keepsStore (createAddress reply))
  ∧ (∀ opts reply, keepsStore (getMainAddresses opts reply))
  ∧ (∀ reply, keepsStore (getBalance reply)).
Proof.
  repeat apply conj; intros;
    unfold getStatus, sendTxProposal, getTxProposals, getTxHistory, getSignatures,
      signTxProposal, rejectTxProposal, broadcastTxProposal, removeTxProposal,
      createAddress, getMainAddresses, getBalance,
      _doGetRequest, _doPostRequest, _doDeleteRequest;
    repeat first
      [ apply keepsStore_ret
      | apply keepsStore_throw
      | apply keepsStore_requireComplete
      | apply keepsStore_requireCredentials
      | apply keepsStore_credentials
      | apply keepsStore_getState
      | apply keepsStore_checkArgument
      | apply keepsStore_checkState
      | apply keepsStore__doRequest
      | apply keepsStore_bind
      | progress intros
      | match goal with
        | |- keepsStore (match ?x with _ => _ end) => destruct x
        | |- keepsStore (if ?b then _ else _) => destruct b
        end ].
Qed.

(** ** Preconditions *)

Lemma requireComplete_refused (st : ApiState) :
  API_isComplete st = false → requireComplete st = (Threw EInvalidState, st).
Proof.
  unfold API_isComplete, requireComplete, requireCredentials, mbind, Api_bind.
  destruct (credentialsOf st) as [c|]; [|done]. by intros ->.
Qed.

(** X2. Every operation that needs a complete credential set throws the
    invalid-state error on a client that has none or an incomplete one,
    before anything is sent, logged or written. *)
Theorem incomplete_credentials_are_refused (st : ApiState) :
  API_isComplete st = false →
  (∀ opts reply, sendTxProposal opts reply st = (Threw EInvalidState, st))
  ∧ (∀ opts reply, getTxProposals opts reply st = (Threw EInvalidState, st))
  ∧ (∀ reply, getTxHistory reply st = (Threw EInvalidState, st))
  ∧ (∀ txp, getSignatures txp st = (Threw EInvalidState, st))
  ∧ (∀ txp reply, signTxProposal txp reply st = (Threw EInvalidState, st))
  ∧ (∀ txp reason reply, rejectTxProposal txp reason reply st = (Threw EInvalidState, st))
  ∧ (∀ txp reply, broadcastTxProposal txp reply st = (Threw EInvalidState, st))
  ∧ (∀ txp reply, removeTxProposal txp reply st = (Threw EInvalidState, st))
  ∧ (∀ reply, createAddress reply st = (Threw EInvalidState, st))
  ∧ (∀ opts reply, getMainAddresses opts reply st = (Threw EInvalidState, st))
  ∧ (∀ reply, getBalance reply st = (Threw EInvalidState, st)).
Proof.
  intros Hno. pose proof (requireComplete_refused st Hno) as Hrefused.
  repeat apply conj; intros;
    unfold sendTxProposal, getTxProposals, getTxHistory, getSignatures, signTxProposal,
      rejectTxProposal, broadcastTxProposal, removeTxProposal, createAddress,
      getMainAddresses, getBalance, mbind, Api_bind;
    by rewrite Hrefused.
Qed.

(** X3. Without credentials [export], [openWallet], [getStatus] and
    [signTxProposalFromAirGapped] throw the invalid-state error and leave
    the client as it is. *)
Theorem missing_credentials_are_refused (st : ApiState) :
  credentialsOf st = None →
  (∀ opts, export opts st = (Threw EInvalidState, st))
  ∧ (∀ reply, openWallet reply st = (Threw EInvalidState, st))
  ∧ (∀ reply, getStatus reply st = (Threw EInvalidState, st))
  ∧ (∀ txp encryptedPkr m n,
       signTxProposalFromAirGapped txp encryptedPkr m n st = (Threw EInvalidState, st)).
Proof.
  intros Hno.
  assert (requireCredentials st = (Threw EInvalidState, st)) as Hrefused
    by (unfold requireCredentials; by rewrite Hno).
  repeat apply conj; intros;
    unfold export, openWallet, getStatus, signTxProposalFromAirGapped, mbind, Api_bind;
    by rewrite Hrefused.
Qed.

(** ** Replies that are not a 200 *)

Lemma _parseError_run (body : JValue) (st : ApiState) :
  ∃ e, _parseError body st = (Returned e, with_logged (logged st ++ [LogError e]) st)
       ∧ isServerError e = true.
Proof.
  unfold _parseError, mbind, Api_bind, log, modifyState. cbn.
  eexists. split; [reflexivity|].
  destruct (prop "code" _) as [code|]; [|done].
  by destruct (truthy _ && truthy code).
Qed.

Lemma _doRequest_failure {A} (method url : string) (args : JValue) (reply : Reply A)
    (st : ApiState) (c : Credentials.t) :
  credentialsOf st = Some c →
  match reply with
  | NetworkError err =>
      _doRequest method url args reply st
      = (Returned (CbErr err),
         with_sent (sent st ++ [requestArgs st c method url args]) st)
  | HttpError _ _ =>
      ∃ e g, _doRequest method url args reply st
             = (Returned (CbErr e),
                with_logged g
                  (with_sent (sent st ++ [requestArgs st c method url args]) st))
             ∧ isServerError e = true
  | Ok200 _ => True
  end.
Proof.
  intros Hc. destruct reply as [err|body|code body]; [|done|].
  - unfold _doRequest, mbind, Api_bind. by rewrite (requireCredentials_some _ _ Hc).
  - unfold _doRequest, mbind, Api_bind. rewrite (requireCredentials_some _ _ Hc). cbn.
    edestruct _parseError_run as (e & -> & Hserver). by eexists e, _.
Qed.

Lemma _parseError_result (body : JValue) (st : ApiState) :
  ∃ e, _parseError body st = (Returned e, with_logged (logged st ++ [LogError e]) st)
       ∧ (∀ st0, (_parseError body st0).1 = Returned e)
       ∧ (∀ code, prop "code" body = Some code → truthy code = true →
            e = EClientError code (prop "message" body)).
Proof.
  unfold _parseError, mbind, Api_bind, log, modifyState. cbn.
  eexists. split; [reflexivity|]. split; [done|].
  intros code Hcode Htruthy.
  destruct body as [| | |s|items|fields]; try done.
  cbn in *. by rewrite Hcode, Htruthy.
Qed.

Lemma _doRequest_reports {A B} (method url : string) (args : JValue) (reply : Reply A)
    (k : A → Api (Callback B)) (st : ApiState) (c : Credentials.t) :
  credentialsOf st = Some c →
  failureReported reply
    ((_doRequest method url args reply ≫= λ r,
        match r with CbErr err => mret (CbErr err) | CbOk x => k x end) st).1.
Proof.
  intros Hc. unfold _doRequest, mbind, Api_bind.
  rewrite (requireCredentials_some _ _ Hc).
  destruct reply as [err|body|statusCode body]; [done|done|].
  intros _. cbn.
  edestruct _parseError_result as (e & -> & Hsame & Hclient).
  by exists e.
Qed.

(** X4. A transport error reaches the callback of the operation unchanged, and
    a response of a status other than 200 reaches it as the error
    [_parseError] makes of the body of that response, a ClientError of the
    body's code and message when the body has a truthy code; the operation
    does not report success and does not throw.  This holds of every
    operation that sends one request: of [sendTxProposal] and
    [rejectTxProposal], which encrypt before they send, when there is no
    message or reason to encrypt, and of [signTxProposal] past its guards. *)
Theorem failed_requests_reach_the_callback (st : ApiState) (c : Credentials.t) :
  credentialsOf st = Some c →
  (∀ reply, failureReported reply (getStatus reply st).1)
  ∧ (isComplete c = false → ∀ reply, failureReported reply (openWallet reply st).1)
  ∧ (isComplete c = true →
     (∀ opts reply,
        default "" (opts_message opts) = "" →
        failureReported reply (sendTxProposal opts reply st).1)
     ∧ (∀ opts reply, failureReported reply (getTxProposals opts reply st).1)
     ∧ (∀ reply, failureReported reply (getTxHistory reply st).1)
     ∧ (∀ txp reason reply,
          default "" reason = "" →
          failureReported reply (rejectTxProposal txp reason reply st).1)
     ∧ (∀ txp reply, failureReported reply (broadcastTxProposal txp reply st).1)
     ∧ (∀ txp reply, failureReported reply (removeTxProposal txp reply st).1)
     ∧ (∀ reply, failureReported reply (createAddress reply st).1)
     ∧ (∀ opts reply, failureReported reply (getMainAddresses opts reply st).1)
     ∧ (∀ reply, failureReported reply (getBalance reply st).1)
     ∧ (∀ txp reply,
          txp_creatorId txp ≠ "" →
          canSign c = true ∨ is_Some (txp_signatures txp) →
          checkTxProposal c txp = true →
          failureReported reply (signTxProposal txp reply st).1)).
Proof.
  intros Hc.
  pose proof (λ A B method url args reply k,
              _doRequest_reports (A:=A) (B:=B) method url args reply k st c Hc) as Hstep.
  split; [|split].
  - intros reply. unfold getStatus, _doGetRequest, mbind at 1, Api_bind at 1.
    rewrite (requireCredentials_some _ _ Hc). apply Hstep.
  - intros Hincomplete reply. unfold openWallet, _doGetRequest, mbind at 1, Api_bind at 1.
    rewrite (requireCredentials_some _ _ Hc), Hincomplete. apply Hstep.
  - intros Hcomplete.
    pose proof (requireComplete_some st c Hc Hcomplete) as Hpre.
    repeat apply conj; [intros..|intros txp reply Hcreator Hable Hcheck].
    + unfold sendTxProposal, _doPostRequest, mbind at 1, Api_bind at 1.
      rewrite Hpre. apply Hstep.
    + unfold getTxProposals, _doGetRequest, mbind at 1, Api_bind at 1.
      rewrite Hpre. apply Hstep.
    + unfold getTxHistory, _doGetRequest, mbind at 1, Api_bind at 1.
      rewrite Hpre. apply Hstep.
    + unfold rejectTxProposal, _doPostRequest, mbind at 1, Api_bind at 1.
      rewrite Hpre. apply Hstep.
    + unfold broadcastTxProposal, _doPostRequest, mbind at 1, Api_bind at 1.
      rewrite Hpre. apply Hstep.
    + unfold removeTxProposal, _doDeleteRequest, mbind at 1, Api_bind at 1.
      rewrite Hpre. apply Hstep.
    + unfold createAddress, _doPostRequest, mbind at 1, Api_bind at 1.
      rewrite Hpre. apply Hstep.
    + unfold getMainAddresses, _doGetRequest, mbind at 1, Api_bind at 1.
      rewrite Hpre. apply Hstep.
    + unfold getBalance, _doGetRequest, mbind at 1, Api_bind at 1.
      rewrite Hpre. specialize (Hstep JValue JValue "get" "/v1/balance/" (JObj []) reply
                                  (λ x, mret (CbOk x))).
      unfold mbind, Api_bind in Hstep.
      destruct (_doRequest "get" "/v1/balance/" (JObj []) reply st) as [[[e|x]|e] st1];
        exact Hstep.
    + rewrite (signTxProposal_run _ _ _ _ Hc Hcomplete) by done.
      assert (negb (canSign c) && negb (bool_decide (is_Some (txp_signatures txp))) = false)
        as ->.
      { destruct Hable as [->|[given ->]]; [done|]. by rewrite andb_false_r. }
      rewrite Hcheck. cbn -[_doPostRequest]. unfold _doPostRequest.
      specialize (Hstep Txp Txp "post"
        ("/v1/txproposals/" +:+ txp_id txp +:+ "/signatures/")
        (JObj [("signatures", JArr (JStr <$> submittedSignatures txp c))]) reply
        (λ x, mret (CbOk x))).
      unfold mbind, Api_bind in Hstep.
      destruct (_doRequest _ _ _ reply st) as [[[e|x]|e] st1]; exact Hstep.
Qed.

(** ** Messages and comments, there and back *)

Lemma message_reads_back (message key : option string) :
  (∀ text, decryptMessage (encryptMessage text key) key = Some text) →
  (∀ text, encryptMessage text key ≠ "") →
  _decryptMessage (_encryptMessage message key) key = default "" message.
Proof.
  intros Hlaw Hcipher. unfold _encryptMessage, _decryptMessage.
  destruct message as [text|]; cbn; [|done].
  destruct (String.eqb_spec text "") as [->|Hne]; [done|].
  rewrite Hlaw.
  by destruct (String.eqb_spec (encryptMessage text key) "") as [?%Hcipher|_].
Qed.

Lemma empty_message_not_encrypted (message key : option string) :
  default "" message = "" → _encryptMessage message key = None.
Proof.
  unfold _encryptMessage. destruct message as [text|]; cbn; [|done].
  by intros ->.
Qed.

(** X5. What [_encryptMessage] makes of a message, [_decryptMessage] reads back
    under the same key, given that the key's decryption undoes its
    encryption and that a ciphertext is never the empty string (which
    [_decryptMessage] would take for no message); a missing or empty
    message is not encrypted at all and comes back as the empty string. *)
Theorem _decryptMessage_encryptMessage (message key : option string) :
  (∀ text, decryptMessage (encryptMessage text key) key = Some text) →
  (∀ text, encryptMessage text key ≠ "") →
  _decryptMessage (_encryptMessage message key) key = default "" message
  ∧ (default "" message = "" → _encryptMessage message key = None).
Proof.
  intros Hlaw Hcipher. split.
  - by apply message_reads_back.
  - apply empty_message_not_encrypted.
Qed.

(** X6. A proposal sent with [sendTxProposal] and relayed with the message
    field of the request reads back, after [_processTxps] under the same
    shared key, with the sender's message, and the submitted signature is
    the one over the hash of the processed proposal's destination, amount
    and encrypted message. *)
Theorem sent_proposal_reads_back (opts : ProposalOpts) (reply : Reply Txp)
    (st : ApiState) (c : Credentials.t) :
  credentialsOf st = Some c →
  isComplete c = true →
  let key := Credentials.sharedEncryptingKey c in
  (∀ text, decryptMessage (encryptMessage text key) key = Some text) →
  (∀ text, encryptMessage text key ≠ "") →
  ∃ q, sent (sendTxProposal opts reply st).2 = (sent st ++ [q])%list
    ∧ ∀ txp,
        prop "toAddress" (req_body q) = Some (JStr (txp_toAddress txp)) →
        prop "amount" (req_body q) = Some (JNum (txp_amount txp)) →
        prop "message" (req_body q) = Some (jsonOfOption (txp_message txp)) →
        let shown := processTxp key txp in
        txp_message shown = Some (default "" (opts_message opts))
        ∧ prop "proposalSignature" (req_body q)
          = Some (JStr (signMessage
                          (Some (getProposalHash (txp_toAddress shown) (txp_amount shown)
                                   (txp_encryptedMessage shown)))
                          (Credentials.requestPrivKey c))).
Proof.
  intros Hc Hcomplete key Hlaw Hcipher.
  unfold sendTxProposal, mbind, Api_bind.
  rewrite (requireComplete_some _ _ Hc Hcomplete). unfold _doPostRequest.
  edestruct (_doRequest_any (A:=Txp)) as (r & g & -> & _); [exact Hc|].
  eexists. split; [by destruct r|].
  intros txp [= Hto] [= Hamount] [= Hmessage]. cbn.
  assert (txp_message txp = _encryptMessage (opts_message opts) key) as ->.
  { fold key in Hmessage.
    destruct (_encryptMessage (opts_message opts) key), (txp_message txp);
      cbn in Hmessage; congruence. }
  split; [|by rewrite Hto, Hamount].
  f_equal. by apply message_reads_back.
Qed.

(** X7. The reason given to [rejectTxProposal] goes out encrypted under the
    shared key, or as the empty string when there is none; an action that
    carries the submitted text as its comment shows the reason again after
    [_processTxps]. *)
Theorem rejection_reason_reads_back (txp : Txp) (reason : option string)
    (reply : Reply Txp) (st : ApiState) (c : Credentials.t) :
  credentialsOf st = Some c →
  isComplete c = true →
  let key := Credentials.sharedEncryptingKey c in
  (∀ text, decryptMessage (encryptMessage text key) key = Some text) →
  (∀ text, encryptMessage text key ≠ "") →
  ∃ q submitted,
    sent (rejectTxProposal txp reason reply st).2 = (sent st ++ [q])%list
    ∧ req_method q = "post"
    ∧ req_url q = baseUrl st +:+ "/v1/txproposals/" +:+ txp_id txp +:+ "/rejections/"
    ∧ req_body q = JObj [("reason", JStr submitted)]
    ∧ (default "" reason = "" → submitted = "")
    ∧ ∀ action, action_comment action = Some submitted →
        action_comment (processAction key action) = Some (default "" reason).
Proof.
  intros Hc Hcomplete key Hlaw Hcipher.
  unfold rejectTxProposal, mbind, Api_bind.
  rewrite (requireComplete_some _ _ Hc Hcomplete). unfold _doPostRequest.
  edestruct (_doRequest_any (A:=Txp)) as (r & g & -> & _); [exact Hc|].
  eexists _, _. split; [by destruct r|]. split; [done|]. split; [done|].
  split; [done|]. fold key.
  pose proof (message_reads_back reason key Hlaw Hcipher) as Hback.
  pose proof (empty_message_not_encrypted reason key) as Hnone.
  split.
  - intros Hempty. by rewrite (Hnone Hempty).
  - intros action Hcomment. cbn. rewrite Hcomment. f_equal.
    destruct (_encryptMessage reason key) as [cipher|] eqn:Hcipher'; cbn in *; [done|].
    by rewrite <- Hback.
Qed.

(** ** Signatures computed and submitted *)

(** X8. With signing keys and a proposal that brings no signatures,
    [signTxProposal] submits exactly the signatures [getSignatures] hands
    out for it, and it sends nothing when [getSignatures] fails. *)
Theorem signTxProposal_submits_getSignatures (txp : Txp) (reply : Reply Txp)
    (st : ApiState) (c : Credentials.t) :
  credentialsOf st = Some c →
  isComplete c = true →
  txp_creatorId txp ≠ "" →
  txp_signatures txp = None →
  match (getSignatures txp st).1 with
  | Returned (CbOk signatures) =>
      ∃ q, sent (signTxProposal txp reply st).2 = (sent st ++ [q])%list
           ∧ req_body q = JObj [("signatures", JArr (JStr <$> signatures))]
           ∧ req_url q
             = baseUrl st +:+ "/v1/txproposals/" +:+ txp_id txp +:+ "/signatures/"
  | _ => failed (signTxProposal txp reply st).1 = true
         ∧ (signTxProposal txp reply st).2 = st
  end.
Proof.
  intros Hc Hcomplete Hcreator Hnone.
  rewrite (getSignatures_run _ _ _ Hc Hcomplete Hcreator).
  rewrite (signTxProposal_run _ _ _ _ Hc Hcomplete Hcreator).
  unfold submittedSignatures. rewrite Hnone. cbn.
  destruct (canSign c); cbn; [|done].
  destruct (checkTxProposal c txp); cbn; [|done].
  unfold _doPostRequest.
  edestruct (_doRequest_any (A:=Txp)) as (r & g & -> & _); [exact Hc|].
  by eexists.
Qed.

(** ** Creating and joining a wallet *)

(** X9. A network that is neither testnet nor livenet is refused at once: no
    keys are generated, nothing is logged, sent or written.  A missing or
    empty network counts as livenet and is not refused here. *)
Theorem createWallet_invalid_network (walletName copayerName : string) (m n : Z)
    (network : option string) (seed walletPrivKey : string)
    (created : Reply string) (joined : Reply Wallet) (st : ApiState) :
  networkOrDefault network ∉ ["testnet"; "livenet"] →
  createWallet walletName copayerName m n network seed walletPrivKey created joined st
  = (Returned (CbErr (EString "Invalid network")), st)
  ∧ networkOrDefault None = "livenet"
  ∧ networkOrDefault (Some "") = "livenet".
Proof.
  intros Hbad. split; [|done]. unfold createWallet.
  by rewrite bool_decide_false.
Qed.

Lemma createWallet_existing_run (walletName copayerName : string) (m n : Z)
    (network : option string) (seed walletPrivKey : string)
    (created : Reply string) (joined : Reply Wallet) (st : ApiState)
    (c : Credentials.t) :
  credentialsOf st = Some c →
  networkOrDefault network ∈ ["testnet"; "livenet"] →
  Credentials.network c = Some (networkOrDefault network) →
  createWallet walletName copayerName m n network seed walletPrivKey created joined st
  = registerAndJoin walletName copayerName m n (networkOrDefault network) walletPrivKey
      created joined
      (with_logged (logged st ++ [LogInfo "Using existing keys"]) st).
Proof.
  intros Hc Hvalid Hnet. destruct (credentialsOf_inv _ _ Hc) as (l & Hl & Hlc).
  unfold createWallet. rewrite bool_decide_true by done. cbn [negb].
  unfold mbind at 1, Api_bind at 1, getState. rewrite Hl.
  unfold mbind at 1, Api_bind at 1, log, modifyState.
  unfold mbind at 1, Api_bind at 1.
  rewrite (credentials_some _ c) by done.
  by rewrite bool_decide_true.
Qed.

Lemma createWallet_fresh_run (walletName copayerName : string) (m n : Z)
    (network : option string) (seed walletPrivKey : string)
    (created : Reply string) (joined : Reply Wallet) (st : ApiState) :
  this_credentials st = None →
  networkOrDefault network ∈ ["testnet"; "livenet"] →
  Credentials.network (create (networkOrDefault network) seed)
  = Some (networkOrDefault network) →
  createWallet walletName copayerName m n network seed walletPrivKey created joined st
  = registerAndJoin walletName copayerName m n (networkOrDefault network) walletPrivKey
      created joined
      (with_credentials (Some (fresh (dom (heap st))))
         (with_heap (<[fresh (dom (heap st)) := create (networkOrDefault network) seed]>
                       (heap st))
            (with_logged (logged st ++ [LogInfo "Generating new keys"]) st))).
Proof.
  intros Hnone Hvalid Hnet.
  unfold createWallet. rewrite bool_decide_true by done. cbn [negb].
  unfold mbind at 1, Api_bind at 1, getState. rewrite Hnone.
  unfold mbind at 1, Api_bind at 1.
  unfold mbind at 1, Api_bind at 1, log, modifyState, seedFromRandom.
  unfold mbind at 1, Api_bind at 1, allocCredentials. cbn [fst snd].
  unfold mbind at 1, Api_bind at 1.
  unfold credentials at 1, credentialsOf. cbn. rewrite lookup_insert_eq.
  by rewrite bool_decide_true.
Qed.

Lemma registerAndJoin_run (walletName copayerName : string) (m n : Z)
    (network walletPrivKey : string)
    (created : Reply string) (joined : Reply Wallet) (st : ApiState)
    (c : Credentials.t) :
  credentialsOf st = Some c →
  let run :=
    registerAndJoin walletName copayerName m n network walletPrivKey created joined st in
  match created with
  | Ok200 walletId =>
      let c1 := addWalletInfo walletId walletName m n (Some walletPrivKey) copayerName c in
      credentialsOf run.2 = Some c1
      ∧ failureHandedOver joined run.1
      ∧ (∀ wallet, joined = Ok200 wallet →
           run.1 = Returned (CbOk (if 1 <? n
                                   then Some (toSecret (Some walletId) (Some walletPrivKey)
                                                (Some network))
                                   else None)))
      ∧ ∃ q1 q2,
          sent run.2 = (sent st ++ [q1; q2])%list
          ∧ req_method q1 = "post"
          ∧ req_url q1 = baseUrl st +:+ "/v1/wallets/"
          ∧ prop "pubKey" (req_body q1) = Some (JStr (toPublicKey walletPrivKey))
          ∧ req_method q2 = "post"
          ∧ req_url q2 = baseUrl st +:+ "/v1/wallets/" +:+ walletId +:+ "/copayers"
          ∧ req_body q2
            = JObj [ ("walletId", JStr walletId);
                     ("name", JStr copayerName);
                     ("xPubKey", jsonOfOption (Credentials.xPubKey c1));
                     ("xPubKeySignature",
                      JStr (signMessage (Credentials.xPubKey c1) (Some walletPrivKey))) ]
  | _ =>
      credentialsOf run.2 = Some c
      ∧ failureHandedOver created run.1
      ∧ ∃ q1, sent run.2 = (sent st ++ [q1])%list
  end.
Proof.
  intros Hc run. subst run.
  destruct (credentialsOf_inv _ _ Hc) as (l & Hl & Hlc).
  unfold registerAndJoin, _doJoinWallet, _doPostRequest, mbind, Api_bind.
  destruct created as [err|walletId|code body].
  - rewrite (_doRequest_failure _ _ _ (NetworkError err) st c Hc). cbn.
    split; [done|]. split; [done|]. by eexists.
  - rewrite (_doRequest_ok200 _ _ _ _ _ _ Hc).
    rewrite (updateCredentials_some _ _ l c) by done.
    set (c1 := addWalletInfo _ _ _ _ _ _ c).
    set (st1 := with_heap _ _).
    assert (credentialsOf st1 = Some c1) as Hc1.
    { unfold credentialsOf. cbn. by rewrite Hl, lookup_insert_eq. }
    rewrite (credentials_some _ c1) by done.
    set (args := JObj _).
    destruct (_doRequest_any "post" ("/v1/wallets/" +:+ walletId +:+ "/copayers")
                args joined st1 c1 Hc1) as (r & g & Hrun & Hok & _).
    pose proof (_doRequest_failure "post" ("/v1/wallets/" +:+ walletId +:+ "/copayers")
                args joined st1 c1 Hc1) as Hfail.
    rewrite Hrun in *. split; [|split; [|split]].
    + destruct r; cbn; unfold credentialsOf; cbn; by rewrite Hl, lookup_insert_eq.
    + destruct joined as [err|wallet|code body]; [|done|].
      * by injection Hfail as -> _.
      * destruct Hfail as (e & g' & [= -> _] & Hserver). by exists e.
    + intros wallet Hjoined. by rewrite (Hok wallet Hjoined).
    + eexists _, _. split.
      { destruct r; cbn; by rewrite <- app_assoc. }
      done.
  - destruct (_doRequest_failure (A:=string) "post" "/v1/wallets/"
                (JObj [ ("name", JStr walletName); ("m", JNum m); ("n", JNum n);
                        ("pubKey", JStr (toPublicKey walletPrivKey));
                        ("network", JStr network) ])
                (HttpError code body) st c Hc) as (e & g & -> & Hserver). cbn.
    split; [done|]. split; [by exists e|]. by eexists.
Qed.

(** X10. [createWallet] on a client that has credentials for the network asked
    for: the registration goes to /v1/wallets/, and once the server named
    the wallet the wallet information is written and the self-join goes to
    that wallet's copayers, signed with the new wallet key.  A failed
    registration leaves the credential set as it was; a failed self-join
    reaches the callback with the wallet information already written. *)
Theorem createWallet_registers_then_joins (walletName copayerName : string) (m n : Z)
    (network : option string) (seed walletPrivKey : string)
    (created : Reply string) (joined : Reply Wallet) (st : ApiState)
    (c : Credentials.t) :
  credentialsOf st = Some c →
  networkOrDefault network ∈ ["testnet"; "livenet"] →
  Credentials.network c = Some (networkOrDefault network) →
  let run :=
    createWallet walletName copayerName m n network seed walletPrivKey created joined st in
  match created with
  | Ok200 walletId =>
      let c1 := addWalletInfo walletId walletName m n (Some walletPrivKey) copayerName c in
      credentialsOf run.2 = Some c1
      ∧ failureHandedOver joined run.1
      ∧ ∃ q1 q2,
          sent run.2 = (sent st ++ [q1; q2])%list
          ∧ req_method q1 = "post"
          ∧ req_url q1 = baseUrl st +:+ "/v1/wallets/"
          ∧ prop "pubKey" (req_body q1) = Some (JStr (toPublicKey walletPrivKey))
          ∧ req_method q2 = "post"
          ∧ req_url q2 = baseUrl st +:+ "/v1/wallets/" +:+ walletId +:+ "/copayers"
          ∧ req_body q2
            = JObj [ ("walletId", JStr walletId);
                     ("name", JStr copayerName);
                     ("xPubKey", jsonOfOption (Credentials.xPubKey c1));
                     ("xPubKeySignature",
                      JStr (signMessage (Credentials.xPubKey c1) (Some walletPrivKey))) ]
  | _ =>
      credentialsOf run.2 = Some c
      ∧ failureHandedOver created run.1
      ∧ ∃ q1, sent run.2 = (sent st ++ [q1])%list
  end.
Proof.
  intros Hc Hvalid Hnet run. subst run.
  rewrite (createWallet_existing_run _ _ _ _ _ _ _ _ _ _ _ Hc Hvalid Hnet).
  pose proof (registerAndJoin_run walletName copayerName m n (networkOrDefault network)
                walletPrivKey created joined
                (with_logged (logged st ++ [LogInfo "Using existing keys"]) st) c Hc)
    as Hrun.
  destruct created as [err|walletId|code body]; [exact Hrun| |exact Hrun].
  destruct Hrun as (Hc1 & Hjoined & _ & Hsent). by repeat split.
Qed.

(** X11. [createWallet] on a client without credentials generates them for the
    network asked for before it registers the wallet, and they stay: after
    a registration that failed the client holds the new credential set, and
    after one that succeeded it holds it with the wallet information
    written, whether or not the self-join went through. *)
Theorem createWallet_seeds_fresh_client (walletName copayerName : string) (m n : Z)
    (network : option string) (seed walletPrivKey : string)
    (created : Reply string) (joined : Reply Wallet) (st : ApiState) :
  this_credentials st = None →
  networkOrDefault network ∈ ["testnet"; "livenet"] →
  let seeded := create (networkOrDefault network) seed in
  Credentials.network seeded = Some (networkOrDefault network) →
  let run :=
    createWallet walletName copayerName m n network seed walletPrivKey created joined st in
  credentialsOf run.2
  = Some (match created with
          | Ok200 walletId =>
              addWalletInfo walletId walletName m n (Some walletPrivKey) copayerName seeded
          | _ => seeded
          end)
  ∧ failureHandedOver created run.1
  ∧ (∀ walletId wallet, created = Ok200 walletId → joined = Ok200 wallet →
       run.1 = Returned (CbOk (if 1 <? n
                               then Some (toSecret (Some walletId) (Some walletPrivKey)
                                            (Some (networkOrDefault network)))
                               else None))).
Proof.
  intros Hnone Hvalid seeded Hnet run. subst run.
  rewrite (createWallet_fresh_run _ _ _ _ _ _ _ _ _ _ Hnone Hvalid Hnet).
  set (st0 := with_credentials _ _).
  assert (credentialsOf st0 = Some seeded) as Hc0.
  { unfold credentialsOf. cbn. by rewrite lookup_insert_eq. }
  pose proof (registerAndJoin_run walletName copayerName m n (networkOrDefault network)
                walletPrivKey created joined st0 seeded Hc0) as Hrun.
  destruct created as [err|walletId|code body].
  - destruct Hrun as (-> & Hfail & _). by repeat split.
  - destruct Hrun as (-> & _ & Hok & _). repeat split.
    intros ? wallet [= <-] Hjoined. by apply (Hok wallet).
  - destruct Hrun as (-> & Hfail & _). by repeat split.
Qed.

Lemma joinAndStore_run (data : SecretData) (copayerName : string)
    (reply : Reply Wallet) (st : ApiState) (c : Credentials.t) :
  credentialsOf st = Some c →
  let run := joinAndStore data copayerName reply st in
  (∃ q, sent run.2 = (sent st ++ [q])%list
        ∧ req_method q = "post"
        ∧ req_url q = baseUrl st +:+ "/v1/wallets/" +:+ secret_walletId data +:+ "/copayers"
        ∧ req_body q
          = JObj [ ("walletId", JStr (secret_walletId data));
                   ("name", JStr copayerName);
                   ("xPubKey", jsonOfOption (Credentials.xPubKey c));
                   ("xPubKeySignature",
                    JStr (signMessage (Credentials.xPubKey c)
                            (Some (secret_walletPrivKey data)))) ])
  ∧ match reply with
    | Ok200 wallet =>
        run.1 = Returned (CbOk wallet)
        ∧ credentialsOf run.2
          = Some (addWalletInfo (wallet_id wallet) (wallet_name wallet)
                    (wallet_m wallet) (wallet_n wallet)
                    (Some (secret_walletPrivKey data)) copayerName c)
    | _ => failureHandedOver reply run.1 ∧ credentialsOf run.2 = Some c
    end.
Proof.
  intros Hc run. subst run.
  destruct (credentialsOf_inv _ _ Hc) as (l & Hl & Hlc).
  unfold joinAndStore, _doJoinWallet, _doPostRequest, mbind, Api_bind.
  rewrite (credentials_some _ c) by done. cbv beta iota zeta.
  set (args := JObj _).
  destruct reply as [err|wallet|code body].
  - rewrite (_doRequest_failure _ _ _ (NetworkError err) st c Hc). cbn.
    split; [by eexists|done].
  - rewrite (_doRequest_ok200 _ _ _ _ _ _ Hc). unfold mret, Api_ret.
    cbv beta iota zeta.
    rewrite (updateCredentials_some _ _ l c) by done. cbn.
    split; [by eexists|]. split; [done|].
    unfold credentialsOf. cbn. by rewrite Hl, lookup_insert_eq.
  - destruct (_doRequest_failure (A:=Wallet) "post"
                ("/v1/wallets/" +:+ secret_walletId data +:+ "/copayers") args
                (HttpError code body) st c Hc) as (e & g & -> & Hserver). cbn.
    split; [by eexists|]. split; [by exists e|done].
Qed.

(** X12. A secret that does not decode ends [joinWallet] through its callback
    with the decoder's exception: no keys are generated for a client
    without credentials, and nothing is sent or written. *)
Theorem joinWallet_malformed_secret (secret copayerName seed : string)
    (reply : Reply Wallet) (st : ApiState) (ex : JsError) :
  fromSecret secret = Threw ex →
  joinWallet secret copayerName seed reply st = (Returned (CbErr ex), st).
Proof. intros Hbad. unfold joinWallet. by rewrite Hbad. Qed.

(** X13. [joinWallet] with credentials at hand joins the wallet the secret names,
    proving membership with the wallet key of the secret, whatever network
    the credentials were made for; the wallet information is written, with
    that key, only once the server accepted the join, and a failed join
    leaves the credential set as it was. *)
Theorem joinWallet_stores_the_secret_key (secret copayerName seed : string)
    (reply : Reply Wallet) (st : ApiState) (c : Credentials.t) (data : SecretData) :
  fromSecret secret = Returned data →
  credentialsOf st = Some c →
  let run := joinWallet secret copayerName seed reply st in
  (∃ q, sent run.2 = (sent st ++ [q])%list
        ∧ req_method q = "post"
        ∧ req_url q = baseUrl st +:+ "/v1/wallets/" +:+ secret_walletId data +:+ "/copayers"
        ∧ req_body q
          = JObj [ ("walletId", JStr (secret_walletId data));
                   ("name", JStr copayerName);
                   ("xPubKey", jsonOfOption (Credentials.xPubKey c));
                   ("xPubKeySignature",
                    JStr (signMessage (Credentials.xPubKey c)
                            (Some (secret_walletPrivKey data)))) ])
  ∧ match reply with
    | Ok200 wallet =>
        run.1 = Returned (CbOk wallet)
        ∧ credentialsOf run.2
          = Some (addWalletInfo (wallet_id wallet) (wallet_name wallet)
                    (wallet_m wallet) (wallet_n wallet)
                    (Some (secret_walletPrivKey data)) copayerName c)
    | _ => failureHandedOver reply run.1 ∧ credentialsOf run.2 = Some c
    end.
Proof.
  intros Hdata Hc run. subst run.
  destruct (credentialsOf_inv _ _ Hc) as (l & Hl & Hlc).
  assert (joinWallet secret copayerName seed reply st
          = joinAndStore data copayerName reply st) as ->.
  { unfold joinWallet. rewrite Hdata.
    unfold mbind at 1, Api_bind at 1, getState. rewrite Hl.
    by unfold mbind at 1, Api_bind at 1. }
  by apply joinAndStore_run.
Qed.

(** X14. [joinWallet] on a client without credentials generates them for the
    network of the secret before it joins, and they stay when the join
    fails; after a join the server accepted they hold the wallet information
    with the wallet key of the secret. *)
Theorem joinWallet_seeds_fresh_client (secret copayerName seed : string)
    (reply : Reply Wallet) (st : ApiState) (data : SecretData) :
  fromSecret secret = Returned data →
  this_credentials st = None →
  let seeded := create (secret_network data) seed in
  let run := joinWallet secret copayerName seed reply st in
  match reply with
  | Ok200 wallet =>
      run.1 = Returned (CbOk wallet)
      ∧ credentialsOf run.2
        = Some (addWalletInfo (wallet_id wallet) (wallet_name wallet)
                  (wallet_m wallet) (wallet_n wallet)
                  (Some (secret_walletPrivKey data)) copayerName seeded)
  | _ => failureHandedOver reply run.1 ∧ credentialsOf run.2 = Some seeded
  end.
Proof.
  intros Hdata Hnone seeded run. subst run.
  assert (joinWallet secret copayerName seed reply st
          = joinAndStore data copayerName reply
              (with_credentials (Some (fresh (dom (heap st))))
                 (with_heap (<[fresh (dom (heap st)) := seeded]> (heap st)) st))) as ->.
  { unfold joinWallet. rewrite Hdata.
    unfold mbind at 1, Api_bind at 1, getState. rewrite Hnone.
    by unfold mbind at 1, Api_bind at 1. }
  set (st0 := with_credentials _ _).
  assert (credentialsOf st0 = Some seeded) as Hc0.
  { unfold credentialsOf. cbn. by rewrite lookup_insert_eq. }
  by destruct (joinAndStore_run data copayerName reply st0 seeded Hc0) as [_ Hrun].
Qed.

(** ** The invite secret of a pending wallet *)

Lemma getStatus_secret_run (result : WalletStatus) (st : ApiState)
    (c : Credentials.t) :
  credentialsOf st = Some c →
  ∃ shown,
    (getStatus (Ok200 result) st).1 = Returned (CbOk shown)
    ∧ wallet_secret (status_wallet shown)
      = (if String.eqb (wallet_status (status_wallet result)) "pending"
         then Some (toSecret (Credentials.walletId c) (Credentials.walletPrivKey c)
                      (Credentials.network c))
         else wallet_secret (status_wallet result)).
Proof.
  intros Hc. unfold getStatus, mbind, Api_bind.
  rewrite (requireCredentials_some _ _ Hc).
  unfold _doGetRequest. rewrite (_doRequest_ok200 _ _ _ _ _ _ Hc).
  rewrite credentials_some with (c := c) by done.
  eexists. split; [reflexivity|]. cbn.
  by destruct (String.eqb (wallet_status (status_wallet result)) "pending").
Qed.

(** X15. [getStatus] attaches an invite secret exactly when the server reports
    the wallet as pending, and computes it from the wallet id, wallet key
    and network of the local credential set; the rest of the wallet is what
    the server sent and the pending proposals are processed. *)
Theorem getStatus_attaches_secret (result : WalletStatus) (st : ApiState)
    (c : Credentials.t) :
  credentialsOf st = Some c →
  ∃ shown,
    (getStatus (Ok200 result) st).1 = Returned (CbOk shown)
    ∧ wallet_secret (status_wallet shown)
      = (if String.eqb (wallet_status (status_wallet result)) "pending"
         then Some (toSecret (Credentials.walletId c) (Credentials.walletPrivKey c)
                      (Credentials.network c))
         else wallet_secret (status_wallet result))
    ∧ wallet_id (status_wallet shown) = wallet_id (status_wallet result)
    ∧ wallet_name (status_wallet shown) = wallet_name (status_wallet result)
    ∧ wallet_m (status_wallet shown) = wallet_m (status_wallet result)
    ∧ wallet_n (status_wallet shown) = wallet_n (status_wallet result)
    ∧ wallet_status (status_wallet shown) = wallet_status (status_wallet result)
    ∧ wallet_copayers (status_wallet shown) = wallet_copayers (status_wallet result)
    ∧ status_pendingTxps shown
      = _processTxps (status_pendingTxps result) (Credentials.sharedEncryptingKey c).
Proof.
  intros Hc. unfold getStatus, mbind, Api_bind.
  rewrite (requireCredentials_some _ _ Hc).
  unfold _doGetRequest. rewrite (_doRequest_ok200 _ _ _ _ _ _ Hc).
  rewrite credentials_some with (c := c) by done.
  eexists. split; [reflexivity|]. cbn.
  by destruct (String.eqb (wallet_status (status_wallet result)) "pending").
Qed.

(** X16. The secret [createWallet] hands out for a shared wallet is the one
    [getStatus] attaches afterwards while the server reports the wallet as
    pending, provided [addWalletInfo] stores the wallet id and wallet key it
    is given and keeps the network. *)
Theorem createWallet_secret_is_recoverable (walletName copayerName : string) (m n : Z)
    (network : option string) (seed walletPrivKey walletId : string)
    (wallet : Wallet) (result : WalletStatus) (st : ApiState) (c : Credentials.t) :
  credentialsOf st = Some c →
  networkOrDefault network ∈ ["testnet"; "livenet"] →
  Credentials.network c = Some (networkOrDefault network) →
  1 < n →
  wallet_status (status_wallet result) = "pending" →
  let c1 := addWalletInfo walletId walletName m n (Some walletPrivKey) copayerName c in
  Credentials.walletId c1 = Some walletId →
  Credentials.walletPrivKey c1 = Some walletPrivKey →
  Credentials.network c1 = Credentials.network c →
  let run :=
    createWallet walletName copayerName m n network seed walletPrivKey
      (Ok200 walletId) (Ok200 wallet) st in
  ∃ secret shown,
    run.1 = Returned (CbOk (Some secret))
    ∧ (getStatus (Ok200 result) run.2).1 = Returned (CbOk shown)
    ∧ wallet_secret (status_wallet shown) = Some secret.
Proof.
  intros Hc Hvalid Hnet Hshared Hpending c1 Hid Hkey Hsame run.
  pose proof (createWallet_existing_run walletName copayerName m n network seed
                walletPrivKey (Ok200 walletId) (Ok200 wallet) st c Hc Hvalid Hnet) as Hrun.
  pose proof (registerAndJoin_run walletName copayerName m n (networkOrDefault network)
                walletPrivKey (Ok200 walletId) (Ok200 wallet)
                (with_logged (logged st ++ [LogInfo "Using existing keys"]) st) c Hc)
    as (Hc1 & _ & Hok & _).
  fold run in Hrun. rewrite <- Hrun in Hc1, Hok.
  destruct (getStatus_secret_run result run.2 c1 Hc1)
    as (shown & Hstatus & Hsecret).
  exists (toSecret (Some walletId) (Some walletPrivKey) (Some (networkOrDefault network))),
    shown.
  split; [|split; [exact Hstatus|]].
  - rewrite (Hok wallet eq_refl). by destruct (Z.ltb_spec 1 n); [|lia].
  - rewrite Hsecret, Hpending. cbn. by rewrite Hid, Hkey, Hsame, Hnet.
Qed.

(** ** Opening a wallet, the edges *)

(** X17. When the wallet information is not known locally and the server's
    copayer list does not name the local copayer, [openWallet] throws a
    TypeError after it has already replaced the ring: the call fails with
    the credential set half updated. *)
Theorem openWallet_unlisted_copayer (ret : WalletStatus) (st : ApiState)
    (c : Credentials.t) :
  credentialsOf st = Some c →
  isComplete c = false →
  wallet_status (status_wallet ret) = "complete" →
  present (Credentials.walletPrivKey c) = false
  ∨ checkCopayers c (wallet_copayers (status_wallet ret)) = true →
  hasWalletInfo (withRing c (status_wallet ret)) = false →
  listsCopayer (withRing c (status_wallet ret)) (status_wallet ret) = false →
  (openWallet (Ok200 ret) st).1 = Threw ETypeError
  ∧ credentialsOf (openWallet (Ok200 ret) st).2 = Some (withRing c (status_wallet ret)).
Proof.
  intros Hc Hincomplete Hstatus Hpass Hinfo Hlisted.
  destruct (credentialsOf_inv _ _ Hc) as (l & Hl & Hlc).
  rewrite (openWallet_ok200 _ _ _ Hc Hincomplete). cbv zeta.
  rewrite Hstatus. cbn -[openWallet_merge].
  assert (mergedCredentials c (status_wallet ret) = withRing c (status_wallet ret))
    as Hmerged.
  { unfold mergedCredentials. rewrite Hinfo. unfold listsCopayer in Hlisted.
    destruct (List.find _ _) as [me|]; [|done].
    by rewrite bool_decide_true in Hlisted. }
  destruct (present (Credentials.walletPrivKey c)).
  - destruct Hpass as [?| ->]; [done|]. cbn -[openWallet_merge].
    rewrite (openWallet_merge_run _ _ l c) by done.
    rewrite Hinfo, Hlisted, Hmerged. cbn. split; [done|].
    unfold credentialsOf. cbn. by rewrite Hl, lookup_insert_eq.
  - rewrite (openWallet_merge_run _ _ l c) by done.
    rewrite Hinfo, Hlisted, Hmerged. cbn. split; [done|].
    unfold credentialsOf. cbn. by rewrite Hl, lookup_insert_eq.
Qed.

(** X18. Once [openWallet] has answered [true] and the merged credential set is
    complete, calling it again answers [false] without contacting the
    server, whatever the server would say. *)
Theorem openWallet_twice (ret : WalletStatus) (again : Reply WalletStatus)
    (st : ApiState) (c : Credentials.t) :
  credentialsOf st = Some c →
  isComplete c = false →
  (openWallet (Ok200 ret) st).1 = Returned (CbOk true) →
  isComplete (mergedCredentials c (status_wallet ret)) = true →
  let st1 := (openWallet (Ok200 ret) st).2 in
  openWallet again st1 = (Returned (CbOk false), st1).
Proof.
  intros Hc Hincomplete Hopened Hnow st1.
  destruct (credentialsOf_inv _ _ Hc) as (l & Hl & Hlc).
  assert (credentialsOf st1 = Some (mergedCredentials c (status_wallet ret))) as Hc1.
  { subst st1. revert Hopened.
    rewrite (openWallet_ok200 _ _ _ Hc Hincomplete). cbv zeta.
    destruct (negb _); [done|].
    destruct (present _).
    - destruct (negb _); [done|].
      rewrite (openWallet_merge_run _ _ l c) by done. cbn. intros _.
      unfold credentialsOf. cbn. by rewrite Hl, lookup_insert_eq.
    - rewrite (openWallet_merge_run _ _ l c) by done. cbn. intros _.
      unfold credentialsOf. cbn. by rewrite Hl, lookup_insert_eq. }
  unfold openWallet, mbind, Api_bind.
  by rewrite (requireCredentials_some _ _ Hc1), Hnow.
Qed.

(** ** Signing offline, the edges *)

(** X19. [signTxProposalFromAirGapped] needs no network: however it ends, nothing
    is sent and nothing is logged, and [this.credentials] refers to the
    object it referred to. *)
Theorem signTxProposalFromAirGapped_is_offline (txp : Txp) (encryptedPkr : string)
    (m n : Z) (st : ApiState) :
  let st' := (signTxProposalFromAirGapped txp encryptedPkr m n st).2 in
  sent st' = sent st
  ∧ logged st' = logged st
  ∧ this_credentials st' = this_credentials st.
Proof.
  unfold signTxProposalFromAirGapped, mbind, Api_bind, requireCredentials, getState,
    updateCredentials, credentials, credentialsOf, throw.
  cbn. repeat (case_match; cbn in *; simplify_eq; try done).
Qed.

(** X20. A transported ring that does not decrypt under the personal key, or
    whose plaintext is not JSON, makes [signTxProposalFromAirGapped] throw
    the Could not decrypt error, a plain Error, with the client as it was. *)
Theorem signTxProposalFromAirGapped_undecryptable (txp : Txp) (encryptedPkr : string)
    (m n : Z) (st : ApiState) (c : Credentials.t) :
  credentialsOf st = Some c →
  canSign c = true →
  decryptMessage encryptedPkr (Credentials.personalEncryptingKey c) ≫= JSON_parse = None →
  signTxProposalFromAirGapped txp encryptedPkr m n st
  = (Threw (EError "Could not decrypt public key ring"), st).
Proof.
  intros Hc Hsign Hbad. unfold mbind in Hbad.
  unfold signTxProposalFromAirGapped, mbind, Api_bind.
  rewrite (requireCredentials_some _ _ Hc). cbn.
  by rewrite (API_canSign_some _ _ Hc), Hsign, Hbad.
Qed.

Lemma signTxProposalFromAirGapped_run (txp : Txp) (encryptedPkr plain : string)
    (m n : Z) (ring : list JValue) (st : ApiState) (c : Credentials.t) :
  credentialsOf st = Some c →
  canSign c = true →
  decryptMessage encryptedPkr (Credentials.personalEncryptingKey c) = Some plain →
  JSON_parse plain = Some (JArr ring) →
  Z.of_nat (length ring) = n →
  ∃ l, this_credentials st = Some l
    ∧ signTxProposalFromAirGapped txp encryptedPkr m n st
      = (if checkTxProposal (installedRing c m n ring) txp
         then Returned (signTxp txp (Credentials.xPrivKey (installedRing c m n ring)))
         else Threw (EError "Fake transaction proposal"),
         with_heap (<[l := installedRing c m n ring]> (heap st)) st).
Proof.
  intros Hc Hsign Hdec Hparse Hlen.
  destruct (credentialsOf_inv _ _ Hc) as (l & Hl & Hlc). exists l. split; [done|].
  unfold signTxProposalFromAirGapped, mbind, Api_bind.
  rewrite (requireCredentials_some _ _ Hc). cbn.
  rewrite (API_canSign_some _ _ Hc), Hsign, Hdec. cbn.
  rewrite Hparse. cbn. rewrite (proj2 (Z.eqb_eq _ _) Hlen). cbn.
  unfold updateCredentials, credentials, credentialsOf. cbn.
  rewrite Hl, Hlc. cbn. rewrite Hl, lookup_insert_eq. cbn.
  rewrite Hl, lookup_insert_eq. cbn. rewrite Hl, lookup_insert_eq.
  fold (installedRing c m n ring). rewrite !insert_insert_eq.
  by destruct (checkTxProposal (installedRing c m n ring) txp).
Qed.

(** X21. [signTxProposalFromAirGapped] installs [m], [n] and the transported ring
    before it verifies the proposal, and verifies against the credential
    set so updated: a proposal that fails the check makes the call throw the
    Fake transaction proposal error with the ring already installed; one
    that passes is signed with the signing key. *)
Theorem signTxProposalFromAirGapped_installs_then_verifies
    (txp : Txp) (encryptedPkr plain : string)
    (m n : Z) (ring : list JValue) (st : ApiState) (c : Credentials.t) :
  credentialsOf st = Some c →
  canSign c = true →
  decryptMessage encryptedPkr (Credentials.personalEncryptingKey c) = Some plain →
  JSON_parse plain = Some (JArr ring) →
  Z.of_nat (length ring) = n →
  let run := signTxProposalFromAirGapped txp encryptedPkr m n st in
  let installed := installedRing c m n ring in
  credentialsOf run.2 = Some installed
  ∧ (checkTxProposal installed txp = false →
     run.1 = Threw (EError "Fake transaction proposal"))
  ∧ (checkTxProposal installed txp = true →
     run.1 = Returned (signTxp txp (Credentials.xPrivKey installed))).
Proof.
  intros Hc Hsign Hdec Hparse Hlen run installed. subst run.
  destruct (signTxProposalFromAirGapped_run txp _ _ m n ring st c Hc Hsign Hdec Hparse Hlen)
    as (l & Hl & ->). cbn. fold installed. split; [|split].
  - unfold credentialsOf. cbn. by rewrite Hl, lookup_insert_eq.
  - by intros ->.
  - by intros ->.
Qed.

(** X22. The bundle [getTxProposals] prepares for an offline signer is accepted
    by a signer that holds the same personal encrypting key: the ring it
    installs is the online client's ring, with the online [m] and [n], and
    a proposal is then signed exactly when it verifies against that ring.
    This takes the personal key's decryption to undo its encryption, and
    JSON to read the ring back as written. *)
Theorem airgapped_bundle_is_accepted (opts : FetchOpts) (txps : list Txp) (txp : Txp)
    (online offline : ApiState) (c signer : Credentials.t)
    (m n : Z) (ring : list JValue) :
  credentialsOf online = Some c →
  isComplete c = true →
  credentialsOf offline = Some signer →
  canSign signer = true →
  Credentials.personalEncryptingKey signer = Credentials.personalEncryptingKey c →
  Credentials.publicKeyRing c = Some ring →
  Credentials.m c = Some m →
  Credentials.n c = Some n →
  Z.of_nat (length ring) = n →
  opts_forAirGapped opts = true →
  opts_doNotVerify opts = true
  ∨ (∀ p, p ∈ _processTxps txps (Credentials.sharedEncryptingKey c) →
          checkTxProposal c p = true) →
  decryptMessage
    (encryptMessage (JSON_stringify (JArr ring)) (Credentials.personalEncryptingKey c))
    (Credentials.personalEncryptingKey c)
  = Some (JSON_stringify (JArr ring)) →
  JSON_parse (JSON_stringify (JArr ring)) = Some (JArr ring) →
  ∃ encryptedPkr,
    (getTxProposals opts (Ok200 txps) online).1
    = Returned (CbOk (ForAirGapped
                        (_processTxps txps (Credentials.sharedEncryptingKey c))
                        encryptedPkr (Some m) (Some n)))
    ∧ let run := signTxProposalFromAirGapped txp encryptedPkr m n offline in
      let installed := installedRing signer m n ring in
      credentialsOf run.2 = Some installed
      ∧ run.1 = (if checkTxProposal installed txp
                 then Returned (signTxp txp (Credentials.xPrivKey installed))
                 else Threw (EError "Fake transaction proposal")).
Proof.
  intros Hc Hcomplete Hsigner Hsign Hkey Hring Hm Hn Hlen Hbundle Hpass Hdec Hjson.
  rewrite (getTxProposals_ok200 _ _ _ _ Hc Hcomplete). cbn.
  rewrite any_false.
  2:{ intros p Hin. destruct Hpass as [Hskip|Hvalid]; [by rewrite Hskip|].
      rewrite (Hvalid p Hin). by destruct (opts_doNotVerify opts). }
  rewrite Hbundle, Hm, Hn. unfold ringDocument. rewrite Hring.
  eexists. split; [reflexivity|].
  rewrite <- Hkey in Hdec |- *.
  destruct (signTxProposalFromAirGapped_run txp _ _ m n ring offline signer
              Hsigner Hsign Hdec Hjson Hlen) as (l & Hl & ->).
  cbn. split; [|done].
  unfold credentialsOf. cbn. by rewrite Hl, lookup_insert_eq.
Qed.

(** ** Addresses *)

(** X23. [createAddress] hands out an address only if it is the one the server
    sent and [checkAddress] accepts it against the local credential set; a
    rejected address ends the call with a ServerCompromisedError. *)
Theorem createAddress_only_verified (reply : Reply Address) (st : ApiState)
    (c : Credentials.t) :
  credentialsOf st = Some c →
  isComplete c = true →
  (∀ address, (createAddress reply st).1 = Returned (CbOk address) →
     reply = Ok200 address ∧ checkAddress c address = true)
  ∧ (∀ address, reply = Ok200 address → checkAddress c address = false →
       (createAddress reply st).1
       = Returned (CbErr (EServerCompromised "Server sent fake address")))
  ∧ (∀ address, reply = Ok200 address → checkAddress c address = true →
       (createAddress reply st).1 = Returned (CbOk address)).
Proof.
  intros Hc Hcomplete.
  assert (∀ address, createAddress (Ok200 address) st
    = (Returned (if negb (checkAddress c address)
                 then CbErr (EServerCompromised "Server sent fake address")
                 else CbOk address),
       with_sent (sent st ++ [requestArgs st c "post" "/v1/addresses/" (JObj [])]) st))
    as Hrun.
  { intros address. unfold createAddress, _doPostRequest, mbind, Api_bind.
    rewrite (requireComplete_some _ _ Hc Hcomplete).
    rewrite (_doRequest_ok200 _ _ _ _ _ _ Hc).
    rewrite credentials_some with (c := c) by done.
    by destruct (checkAddress c address). }
  split; [|split].
  - intros address. destruct reply as [err|sentAddress|code body].
    + unfold createAddress, _doPostRequest, mbind, Api_bind.
      rewrite (requireComplete_some _ _ Hc Hcomplete).
      by rewrite (_doRequest_failure (A:=Address) _ _ _ (NetworkError err) _ _ Hc).
    + rewrite Hrun. cbn. destruct (checkAddress c sentAddress) eqn:Hcheck; [|done].
      by intros [= <-].
    + unfold createAddress, _doPostRequest, mbind, Api_bind.
      rewrite (requireComplete_some _ _ Hc Hcomplete).
      destruct (_doRequest_failure (A:=Address) "post" "/v1/addresses/" (JObj [])
                  (HttpError code body) st c Hc) as (e & g & -> & _).
      done.
  - intros address -> Hfake. by rewrite Hrun, Hfake.
  - intros address -> Hgood. by rewrite Hrun, Hgood.
Qed.

(** X24. [getMainAddresses] is all or nothing: with verification on, the list
    of the server is handed over only when [checkAddress] accepts every
    entry, and one rejected entry ends the call with a
    ServerCompromisedError; with [doNotVerify] the list is handed over as
    it came.  Nothing but the server's own list is ever handed over. *)
Theorem getMainAddresses_fail_closed (opts : FetchOpts) (addresses : list Address)
    (st : ApiState) (c : Credentials.t) :
  credentialsOf st = Some c →
  isComplete c = true →
  (opts_doNotVerify opts = false →
     (∀ bad, bad ∈ addresses → checkAddress c bad = false →
        (getMainAddresses (Some opts) (Ok200 addresses) st).1
        = Returned (CbErr (EServerCompromised "Server sent fake address")))
     ∧ ((∀ address, address ∈ addresses → checkAddress c address = true) →
        (getMainAddresses (Some opts) (Ok200 addresses) st).1
        = Returned (CbOk addresses)))
  ∧ (opts_doNotVerify opts = true →
       (getMainAddresses (Some opts) (Ok200 addresses) st).1
       = Returned (CbOk addresses))
  ∧ (∀ reply handed,
       (getMainAddresses (Some opts) reply st).1 = Returned (CbOk handed) →
       reply = Ok200 handed).
Proof.
  intros Hc Hcomplete.
  assert (∀ sentList, getMainAddresses (Some opts) (Ok200 sentList) st
    = (Returned
         (if negb (opts_doNotVerify opts)
               && any (λ address, negb (checkAddress c address)) sentList
          then CbErr (EServerCompromised "Server sent fake address")
          else CbOk sentList),
       with_sent (sent st ++ [requestArgs st c "get" "/v1/addresses/" (JObj [])]) st))
    as Hrun.
  { intros sentList. unfold getMainAddresses, _doGetRequest, mbind, Api_bind.
    rewrite (requireComplete_some _ _ Hc Hcomplete).
    rewrite (_doRequest_ok200 _ _ _ _ _ _ Hc).
    destruct (opts_doNotVerify opts); cbn; [done|].
    rewrite credentials_some with (c := c) by done.
    by destruct (any _ _). }
  split; [|split].
  - intros Hverify. split.
    + intros bad Hin Hbad. rewrite Hrun, Hverify. cbn.
      rewrite (any_true _ _ bad Hin); [done|]. by rewrite Hbad.
    + intros Hall. rewrite Hrun, Hverify. cbn.
      rewrite any_false; [done|]. intros address Hin. by rewrite (Hall _ Hin).
  - intros Hskip. by rewrite Hrun, Hskip.
  - intros reply handed. destruct reply as [err|sentList|code body].
    + unfold getMainAddresses, _doGetRequest, mbind, Api_bind.
      rewrite (requireComplete_some _ _ Hc Hcomplete).
      by rewrite (_doRequest_failure (A:=list Address) _ _ _ (NetworkError err) _ _ Hc).
    + rewrite Hrun. cbn. destruct (_ && _); [done|]. by intros [= <-].
    + unfold getMainAddresses, _doGetRequest, mbind, Api_bind.
      rewrite (requireComplete_some _ _ Hc Hcomplete).
      destruct (_doRequest_failure (A:=list Address) "get" "/v1/addresses/" (JObj [])
                  (HttpError code body) st c Hc) as (e & g & -> & _).
      done.
Qed.

(** X25. [getMainAddresses] reads [opts] only when the addresses have arrived:
    a call without [opts] sends its request and then fails with a
    TypeError instead of reaching the callback. *)
Theorem getMainAddresses_without_opts (addresses : list Address)
    (st : ApiState) (c : Credentials.t) :
  credentialsOf st = Some c →
  isComplete c = true →
  getMainAddresses None (Ok200 addresses) st
  = (Threw ETypeError,
     with_sent (sent st ++ [requestArgs st c "get" "/v1/addresses/" (JObj [])]) st).
Proof.
  intros Hc Hcomplete. unfold getMainAddresses, _doGetRequest, mbind, Api_bind.
  rewrite (requireComplete_some _ _ Hc Hcomplete).
  by rewrite (_doRequest_ok200 _ _ _ _ _ _ Hc).
Qed.

(** ** Importing, exporting and seeding *)

(** X26. [import] is all or nothing.  Either it throws and the client is exactly
    as it was, or it returns and [this.credentials] refers to a new object:
    every credential object that existed still holds what it held, and no
    request is sent and nothing is logged. *)
Theorem import_all_or_nothing (str : string) (opts : ExportOpts) (st : ApiState) :
  (∃ e, import str opts st = (Threw e, st))
  ∨ (∃ l imported,
       heap st !! l = None
       ∧ import str opts st
         = (Returned tt,
            with_credentials (Some l) (with_heap (<[l := imported]> (heap st)) st))).
Proof.
  assert (∀ input,
    (∃ e, (match (if opts_compressed opts then importCompressed input
                  else JSON_parse input ≫= fromObj) with
           | None => throw (EError "Error importing from source")
           | Some imported =>
               l ← allocCredentials imported;
               modifyState (with_credentials (Some l))
           end) st = (Threw e, st))
    ∨ (∃ l imported,
         heap st !! l = None
         ∧ (match (if opts_compressed opts then importCompressed input
                   else JSON_parse input ≫= fromObj) with
            | None => throw (EError "Error importing from source")
            | Some imported =>
                l ← allocCredentials imported;
                modifyState (with_credentials (Some l))
            end) st
           = (Returned tt,
              with_credentials (Some l) (with_heap (<[l := imported]> (heap st)) st))))
    as Htail.
  { intros input.
    destruct (if opts_compressed opts then _ else _) as [imported|].
    - right. exists (fresh (dom (heap st))), imported.
      split; [apply fresh_lookup_None|done].
    - left. by eexists. }
  unfold import. unfold mbind at 1. unfold Api_bind.
  destruct (opts_password opts) as [password|]; cbn.
  - destruct (String.eqb password ""); cbn.
    + apply Htail.
    + unfold try_catch, liftCompletion.
      destruct (sjcl_decrypt password str) as [text|ex]; cbn.
      * apply Htail.
      * left. by eexists.
  - apply Htail.
Qed.

(** X27. An empty password is no password: [export] then returns the document
    unencrypted, exactly as without the option, and [import] reads its
    input without decrypting it. *)
Theorem empty_password_is_no_password (str : string) (opts : ExportOpts)
    (st : ApiState) :
  opts_password opts = Some "" →
  export opts st
  = export {| opts_compressed := opts_compressed opts; opts_password := None;
              opts_noSign := opts_noSign opts |} st
  ∧ import str opts st
    = import str {| opts_compressed := opts_compressed opts; opts_password := None;
                    opts_noSign := opts_noSign opts |} st.
Proof.
  intros Hempty. unfold export, import. cbn. by rewrite Hempty.
Qed.

(** X28. Seeding gives the client a credential object of its own: afterwards
    [this.credentials] holds the new credential set, whatever was there
    before, and every object that existed still holds what it held; no
    request is sent. *)
Theorem seeding_replaces_the_reference (network seed xPrivKey : string) (st : ApiState) :
  let st1 := (seedFromRandom network seed st).2 in
  let st2 := (seedFromExtendedPrivateKey xPrivKey st).2 in
  (credentialsOf st1 = Some (create network seed)
   ∧ (∀ l c, heap st !! l = Some c → heap st1 !! l = Some c)
   ∧ sent st1 = sent st)
  ∧ (credentialsOf st2 = Some (fromExtendedPrivateKey xPrivKey)
     ∧ (∀ l c, heap st !! l = Some c → heap st2 !! l = Some c)
     ∧ sent st2 = sent st).
Proof.
  assert (∀ l c, heap st !! l = Some c → l ≠ fresh (dom (heap st))) as Hold.
  { intros l c Hl ->. by rewrite fresh_lookup_None in Hl. }
  intros st1 st2. subst st1 st2.
  unfold seedFromRandom, seedFromExtendedPrivateKey, mbind, Api_bind,
    allocCredentials, modifyState, credentialsOf.
  cbn. rewrite !lookup_insert_eq.
  repeat split; try done.
  - intros l c Hl. rewrite lookup_insert_ne; [done|]. intros Heq. by apply (Hold l c).
  - intros l c Hl. rewrite lookup_insert_ne; [done|]. intros Heq. by apply (Hold l c).
Qed.

(** ** Error bodies *)

(** X29. A textual body that is no JSON document becomes the [error] of the
    generic error object: [_parseError] returns that object and logs it,
    once. *)
Theorem _parseError_unparsable_text (s : string) (st : ApiState) :
  JSON_parse s = None →
  _parseError (JStr s) st
  = (Returned (EGeneric (Some (JStr s))),
     with_logged (logged st ++ [LogError (EGeneric (Some (JStr s)))]) st).
Proof.
  intros Hbad. unfold _parseError. rewrite Hbad. reflexivity.
Qed.

(** ** Sending a proposal twice *)


End MoreProperties.

(** * Further runs on concrete inputs *)

Section MoreDemo.

#[local] Existing Instance demo_utils.
#[local] Existing Instance demo_bitcore.
#[local] Existing Instance demo_sjcl.
#[local] Existing Instance demo_json.
#[local] Existing Instance demo_verifier.
#[local] Existing Instance demo_methods.
#[local] Existing Instance demo_secret.
#[local] Existing Instance demo_addresses.
#[local] Existing Instance demo_recovery.

(** The ciphertexts of the instance read back, and none is empty. *)
Lemma strip_prefix_app (p q s : string) :
  strip_prefix (p +:+ q) (p +:+ (q +:+ s)) = strip_prefix q (q +:+ s).
Proof.
  induction p as [|a p IH]; [done|].
  change (strip_prefix (String a (p +:+ q)) (String a (p +:+ (q +:+ s)))
          = strip_prefix q (q +:+ s)).
  cbn. by rewrite Ascii.eqb_refl.
Qed.

Lemma strip_prefix_same (q s : string) : strip_prefix q (q +:+ s) = Some s.
Proof.
  induction q as [|a q IH]; [done|].
  change (strip_prefix (String a q) (String a (q +:+ s)) = Some s).
  cbn. by rewrite Ascii.eqb_refl.
Qed.

Lemma append_assoc (p q s : string) : (p +:+ q) +:+ s = p +:+ (q +:+ s).
Proof.
  induction p as [|a p IH]; [done|].
  change (String a ((p +:+ q) +:+ s) = String a (p +:+ (q +:+ s))). by rewrite IH.
Qed.

Lemma demo_decrypts (key : option string) (text : string) :
  decryptMessage (encryptMessage text key) key = Some text.
Proof.
  change (strip_prefix ("enc[" +:+ (keyTag key +:+ "]"))
            ("enc[" +:+ (keyTag key +:+ ("]" +:+ text))) = Some text).
  rewrite <- (append_assoc (keyTag key) "]" text).
  rewrite strip_prefix_app. apply strip_prefix_same.
Qed.

Lemma demo_ciphertext_nonempty (key : option string) (text : string) :
  encryptMessage text key ≠ "".
Proof. done. Qed.

(** Alice before her wallet is complete: every operation on the wallet is
    refused. *)
Lemma incomplete_credentials_are_refused_demo :
  getBalance (Ok200 (JNum 5)) (demo_client demo_pending)
  = (Threw EInvalidState, demo_client demo_pending)
  ∧ createAddress (Ok200 (demo_address "m/0/1")) (demo_client demo_pending)
    = (Threw EInvalidState, demo_client demo_pending).
Proof.
  destruct (incomplete_credentials_are_refused (demo_client demo_pending))
    as (_ & _ & _ & _ & _ & _ & _ & _ & Haddress & _ & Hbalance); [reflexivity|].
  split; [apply Hbalance|apply Haddress].
Defined.

(** A client on which nothing was seeded. *)
Lemma missing_credentials_are_refused_demo :
  openWallet (Ok200 demo_status) demo_fresh = (Threw EInvalidState, demo_fresh)
  ∧ export {| opts_compressed := false; opts_password := None; opts_noSign := false |}
      demo_fresh
    = (Threw EInvalidState, demo_fresh).
Proof.
  destruct (missing_credentials_are_refused demo_fresh) as (Hexport & Hopen & _);
    [reflexivity|].
  split; [apply Hopen|apply Hexport].
Defined.

(** A dropped connection, a 404 with a structured body, and a 502 whose
    body is plain text. *)
Lemma failed_requests_reach_the_callback_demo :
  (getBalance (NetworkError (ETransport "ECONNREFUSED")) (demo_client demo_alice)).1
  = Returned (CbErr (ETransport "ECONNREFUSED"))
  ∧ (getStatus
       (HttpError 404 (JObj [("code", JStr "WNOTFOUND");
                             ("message", JStr "Wallet not found")]))
       (demo_client demo_alice)).1
    = Returned (CbErr (EClientError (JStr "WNOTFOUND") (Some (JStr "Wallet not found"))))
  ∧ (removeTxProposal demo_txp_bob (HttpError 502 (JStr "Bad Gateway"))
       (demo_client demo_alice)).1
    = Returned (CbErr (EGeneric (Some (JStr "Bad Gateway")))).
Proof.
  destruct (failed_requests_reach_the_callback (demo_client demo_alice) demo_alice)
    as (Hstatus & _ & Hcomplete); [reflexivity|].
  destruct (Hcomplete eq_refl) as (_ & _ & _ & _ & _ & Hremove & _ & _ & Hbalance & _).
  split; [exact (Hbalance (NetworkError (ETransport "ECONNREFUSED")))|]. split.
  - destruct (Hstatus (HttpError 404 (JObj [("code", JStr "WNOTFOUND");
                                           ("message", JStr "Wallet not found")])))
      as (e & Hrun & _ & Hclient); [discriminate|].
    rewrite Hrun. by rewrite (Hclient (JStr "WNOTFOUND") eq_refl eq_refl).
  - destruct (Hremove demo_txp_bob (HttpError 502 (JStr "Bad Gateway")))
      as (e & Hrun & Hparsed & _); [discriminate|].
    rewrite Hrun. specialize (Hparsed demo_fresh). cbn in Hparsed.
    by injection Hparsed as <-.
Defined.

(** A note under the wallet's shared key, and no note. *)
Lemma _decryptMessage_encryptMessage_demo :
  _decryptMessage (_encryptMessage (Some "hello") (Some "sek-wpk")) (Some "sek-wpk")
  = "hello"
  ∧ _encryptMessage None (Some "sek-wpk") = None.
Proof.
  destruct (_decryptMessage_encryptMessage (Some "hello") (Some "sek-wpk"))
    as (Hback & _);
    [apply demo_decrypts|apply demo_ciphertext_nonempty|].
  destruct (_decryptMessage_encryptMessage None (Some "sek-wpk")) as (_ & Hnone);
    [apply demo_decrypts|apply demo_ciphertext_nonempty|].
  split; [exact Hback|]. apply Hnone. reflexivity.
Defined.

(** Alice proposes a payment with a note; the server relays the proposal
    as it got it, and a copayer reads the note back. *)
Lemma sent_proposal_reads_back_demo :
  txp_message (processTxp (Some "sek-wpk") demo_txp_alice) = Some "hello"
  ∧ length (sent (sendTxProposal
                    {| opts_toAddress := "addr1"; opts_amount := 100;
                       opts_message := Some "hello" |}
                    (Ok200 demo_txp_alice) (demo_client demo_alice)).2) = 1%nat.
Proof.
  pose proof (sent_proposal_reads_back
                {| opts_toAddress := "addr1"; opts_amount := 100;
                   opts_message := Some "hello" |}
                (Ok200 demo_txp_alice) (demo_client demo_alice) demo_alice
                eq_refl eq_refl) as Hback.
  cbv zeta in Hback.
  destruct (Hback (demo_decrypts _) (demo_ciphertext_nonempty _))
    as (q & Hsent & Hread).
  split; [|rewrite Hsent; reflexivity].
  vm_compute in Hsent. injection Hsent as Hq. subst q.
  destruct (Hread demo_txp_alice) as (Hmessage & _); [reflexivity..|].
  exact Hmessage.
Defined.

(** Alice rejects Bob's proposal with a reason: one request is posted, and
    a copayer reads the reason back from the action the server records. *)
Lemma rejection_reason_reads_back_demo :
  (λ q, (req_method q, req_url q, req_body q))
    <$> sent (rejectTxProposal demo_txp_bob (Some "too much") (Ok200 demo_txp_bob)
                (demo_client demo_alice)).2
  = [ ("post", "http://localhost:3001/copay/api/v1/txproposals/t2/rejections/",
       JObj [("reason", JStr "enc[sek-wpk]too much")]) ]
  ∧ action_comment
      (processAction (Some "sek-wpk")
         {| action_copayerId := "alice"; action_type := "reject";
            action_comment := Some "enc[sek-wpk]too much" |})
    = Some "too much".
Proof.
  pose proof (rejection_reason_reads_back demo_txp_bob (Some "too much")
                (Ok200 demo_txp_bob) (demo_client demo_alice) demo_alice
                eq_refl eq_refl) as Hback.
  cbv zeta in Hback.
  destruct (Hback (demo_decrypts _) (demo_ciphertext_nonempty _))
    as (q & submitted & Hsent & Hmethod & Hurl & Hbody & _ & Hread).
  split.
  - rewrite Hsent. cbn. rewrite Hmethod, Hurl, Hbody. repeat f_equal.
    vm_compute in Hsent. injection Hsent as Hq. subst q.
    by injection Hbody as <-.
  - vm_compute in Hsent. injection Hsent as Hq. subst q.
    injection Hbody as Hsubmitted. subst submitted.
    apply (Hread {| action_copayerId := "alice"; action_type := "reject";
                    action_comment := Some "enc[sek-wpk]too much" |}).
    reflexivity.
Defined.

(** Alice signs her own proposal: the signatures of [getSignatures] are
    what goes to the server. *)
Lemma signTxProposal_submits_getSignatures_demo :
  ∃ q, sent (signTxProposal (processTxp (Some "sek-wpk") demo_txp_alice)
               (Ok200 demo_txp_alice) (demo_client demo_alice)).2 = [q]
       ∧ req_body q = JObj [("signatures", JArr [JStr "txsig[xprv-alice]t1"])].
Proof.
  pose proof (signTxProposal_submits_getSignatures
                (processTxp (Some "sek-wpk") demo_txp_alice)
                (Ok200 demo_txp_alice) (demo_client demo_alice) demo_alice
                eq_refl eq_refl) as Hsubmit.
  destruct Hsubmit as (q & Hsent & Hbody & _); [discriminate|reflexivity|].
  exists q. split; [exact Hsent|exact Hbody].
Defined.

(** A network that is neither testnet nor livenet. *)
Lemma createWallet_invalid_network_demo :
  createWallet "fam" "alice" 2 2 (Some "regtest") "alice" "wpk"
    (Ok200 "w9") (Ok200 demo_joined) demo_fresh
  = (Returned (CbErr (EString "Invalid network")), demo_fresh).
Proof.
  destruct (createWallet_invalid_network "fam" "alice" 2 2 (Some "regtest") "alice" "wpk"
              (Ok200 "w9") (Ok200 demo_joined) demo_fresh) as (Hrefused & _).
  - apply (bool_decide_unpack _). vm_compute. exact I.
  - exact Hrefused.
Defined.

(** Alice, seeded, creates a 2-of-2 wallet: two requests, the second to the
    wallet the first one registered. *)
Lemma createWallet_registers_then_joins_demo :
  req_url <$> sent (createWallet "fam" "alice" 2 2 (Some "testnet") "alice" "wpk"
                      (Ok200 "w9") (Ok200 demo_joined) (demo_client demo_seeded)).2
  = [ "http://localhost:3001/copay/api/v1/wallets/";
      "http://localhost:3001/copay/api/v1/wallets/w9/copayers" ].
Proof.
  pose proof (createWallet_registers_then_joins "fam" "alice" 2 2 (Some "testnet")
                "alice" "wpk" (Ok200 "w9") (Ok200 demo_joined)
                (demo_client demo_seeded) demo_seeded eq_refl) as Hrun.
  destruct Hrun as (_ & _ & q1 & q2 & Hsent & _ & Hurl1 & _ & _ & Hurl2 & _).
  - apply (bool_decide_unpack _). vm_compute. exact I.
  - reflexivity.
  - rewrite Hsent. cbn. rewrite Hurl1, Hurl2. reflexivity.
Defined.

(** The same on a client that holds no credentials yet: it is seeded from
    the requested network first. *)
Lemma createWallet_seeds_fresh_client_demo :
  credentialsOf (createWallet "fam" "alice" 2 2 (Some "testnet") "alice" "wpk"
                   (Ok200 "w9") (Ok200 demo_joined) demo_fresh).2
  = Some (addWalletInfo "w9" "fam" 2 2 (Some "wpk") "alice" demo_seeded).
Proof.
  pose proof (createWallet_seeds_fresh_client "fam" "alice" 2 2 (Some "testnet")
                "alice" "wpk" (Ok200 "w9") (Ok200 demo_joined) demo_fresh eq_refl)
    as Hrun.
  destruct Hrun as (Hstored & _).
  - apply (bool_decide_unpack _). vm_compute. exact I.
  - reflexivity.
  - exact Hstored.
Defined.

(** A text that is no invite secret. *)
Lemma joinWallet_malformed_secret_demo :
  joinWallet "w1-wpk" "bob" "bob" (Ok200 demo_joined) demo_fresh
  = (Returned (CbErr (EError "Invalid secret")), demo_fresh).
Proof.
  apply (joinWallet_malformed_secret "w1-wpk" "bob" "bob" (Ok200 demo_joined)
           demo_fresh (EError "Invalid secret")).
  reflexivity.
Defined.

(** Alice, seeded, joins the wallet of the secret: the join is signed with
    the wallet key of the secret, and that key is stored. *)
Lemma joinWallet_stores_the_secret_key_demo :
  Credentials.walletPrivKey
    <$> credentialsOf (joinWallet "secret(w1,wpk,testnet)" "alice" "alice"
                         (Ok200 demo_joined) (demo_client demo_seeded)).2
  = Some (Some "wpk")
  ∧ ∃ q, sent (joinWallet "secret(w1,wpk,testnet)" "alice" "alice"
                 (Ok200 demo_joined) (demo_client demo_seeded)).2 = [q]
         ∧ prop "xPubKeySignature" (req_body q) = Some (JStr "sig[wpk]xpub-alice").
Proof.
  pose proof (joinWallet_stores_the_secret_key "secret(w1,wpk,testnet)" "alice" "alice"
                (Ok200 demo_joined) (demo_client demo_seeded) demo_seeded
                {| secret_walletId := "w1"; secret_walletPrivKey := "wpk";
                   secret_network := "testnet" |} eq_refl eq_refl) as Hrun.
  destruct Hrun as ((q & Hsent & _ & _ & Hbody) & _ & Hstored).
  split.
  - rewrite Hstored. reflexivity.
  - exists q. split; [exact Hsent|]. rewrite Hbody. reflexivity.
Defined.

(** The same on a client that holds no credentials yet: the new keys are
    for the network the secret names. *)
Lemma joinWallet_seeds_fresh_client_demo :
  Credentials.network
    <$> credentialsOf (joinWallet "secret(w1,wpk,testnet)" "alice" "alice"
                         (Ok200 demo_joined) demo_fresh).2
  = Some (Some "testnet").
Proof.
  pose proof (joinWallet_seeds_fresh_client "secret(w1,wpk,testnet)" "alice" "alice"
                (Ok200 demo_joined) demo_fresh
                {| secret_walletId := "w1"; secret_walletPrivKey := "wpk";
                   secret_network := "testnet" |} eq_refl eq_refl) as Hrun.
  destruct Hrun as (_ & Hstored).
  rewrite Hstored. reflexivity.
Defined.

(** The status of a wallet that still waits for Bob. *)
Lemma getStatus_attaches_secret_demo :
  ∃ shown,
    (getStatus (Ok200 {| status_wallet := demo_joined; status_pendingTxps := [] |})
       (demo_client demo_pending)).1 = Returned (CbOk shown)
    ∧ wallet_secret (status_wallet shown) = Some "secret(w1,wpk,testnet)".
Proof.
  destruct (getStatus_attaches_secret
              {| status_wallet := demo_joined; status_pendingTxps := [] |}
              (demo_client demo_pending) demo_pending eq_refl)
    as (shown & Hrun & Hsecret & _).
  exists shown. split; [exact Hrun|exact Hsecret].
Defined.

(** The secret [createWallet] hands out is the one [getStatus] shows while
    the wallet is pending. *)
Lemma createWallet_secret_is_recoverable_demo :
  ∃ secret shown,
    (createWallet "fam" "alice" 2 2 (Some "testnet") "alice" "wpk"
       (Ok200 "w1") (Ok200 demo_joined) (demo_client demo_seeded)).1
    = Returned (CbOk (Some secret))
    ∧ (getStatus (Ok200 {| status_wallet := demo_joined; status_pendingTxps := [] |})
         (createWallet "fam" "alice" 2 2 (Some "testnet") "alice" "wpk"
            (Ok200 "w1") (Ok200 demo_joined) (demo_client demo_seeded)).2).1
      = Returned (CbOk shown)
    ∧ wallet_secret (status_wallet shown) = Some secret.
Proof.
  apply (createWallet_secret_is_recoverable "fam" "alice" 2 2 (Some "testnet")
           "alice" "wpk" "w1" demo_joined
           {| status_wallet := demo_joined; status_pendingTxps := [] |}
           (demo_client demo_seeded) demo_seeded); try reflexivity.
  apply (bool_decide_unpack _). vm_compute. exact I.
Defined.

(** Alice's seeded keys against a wallet in which the server lists no
    copayer under her id: the ring is replaced before the call fails. *)
Lemma openWallet_unlisted_copayer_demo :
  (openWallet (Ok200 demo_status) (demo_client demo_seeded)).1 = Threw ETypeError
  ∧ Credentials.publicKeyRing
      <$> credentialsOf (openWallet (Ok200 demo_status) (demo_client demo_seeded)).2
    = Some (Some [JStr "xpub-alice"; JStr "xpub-bob"]).
Proof.
  destruct (openWallet_unlisted_copayer demo_status (demo_client demo_seeded)
              demo_seeded) as (Hthrown & Hstored);
    [reflexivity|reflexivity|reflexivity|left; reflexivity|reflexivity|reflexivity|].
  split; [exact Hthrown|]. rewrite Hstored. reflexivity.
Defined.

(** Opening the wallet again after it was completed asks the server
    nothing. *)
Lemma openWallet_twice_demo :
  openWallet (NetworkError (ETransport "ECONNREFUSED"))
    (openWallet (Ok200 demo_status) (demo_client demo_pending)).2
  = (Returned (CbOk false),
     (openWallet (Ok200 demo_status) (demo_client demo_pending)).2).
Proof.
  apply (openWallet_twice demo_status (NetworkError (ETransport "ECONNREFUSED"))
           (demo_client demo_pending) demo_pending); reflexivity.
Defined.

(** A ring encrypted under another key than Alice's. *)
Lemma signTxProposalFromAirGapped_undecryptable_demo :
  signTxProposalFromAirGapped demo_txp_signed
    "enc[pek-bob]['xpub-alice','xpub-bob',]" 2 2 (demo_client demo_alice)
  = (Threw (EError "Could not decrypt public key ring"), demo_client demo_alice).
Proof.
  apply (signTxProposalFromAirGapped_undecryptable demo_txp_signed
           "enc[pek-bob]['xpub-alice','xpub-bob',]" 2 2
           (demo_client demo_alice) demo_alice); reflexivity.
Defined.

(** Alice's offline client, which has no ring yet, is handed her proposal
    and Bob's forged one. *)
Lemma signTxProposalFromAirGapped_installs_then_verifies_demo :
  (signTxProposalFromAirGapped demo_txp_signed
     "enc[pek-alice]['xpub-alice','xpub-bob',]" 2 2 (demo_client demo_pending)).1
  = Returned ["txsig[xprv-alice]t1"]
  ∧ credentialsOf
      (signTxProposalFromAirGapped demo_txp_signed
         "enc[pek-alice]['xpub-alice','xpub-bob',]" 2 2 (demo_client demo_pending)).2
    = Some demo_alice
  ∧ (signTxProposalFromAirGapped demo_txp_forged
       "enc[pek-alice]['xpub-alice','xpub-bob',]" 2 2 (demo_client demo_pending)).1
    = Threw (EError "Fake transaction proposal").
Proof.
  destruct (signTxProposalFromAirGapped_installs_then_verifies demo_txp_signed
              "enc[pek-alice]['xpub-alice','xpub-bob',]" "['xpub-alice','xpub-bob',]"
              2 2 [JStr "xpub-alice"; JStr "xpub-bob"]
              (demo_client demo_pending) demo_pending) as (Hstored & _ & Hsigned);
    [reflexivity..|].
  destruct (signTxProposalFromAirGapped_installs_then_verifies demo_txp_forged
              "enc[pek-alice]['xpub-alice','xpub-bob',]" "['xpub-alice','xpub-bob',]"
              2 2 [JStr "xpub-alice"; JStr "xpub-bob"]
              (demo_client demo_pending) demo_pending) as (_ & Hforged & _);
    [reflexivity..|].
  split; [exact (Hsigned eq_refl)|]. split; [exact Hstored|exact (Hforged eq_refl)].
Defined.

(** The bundle Alice's read-only client fetches is what her offline client
    signs from. *)
Lemma airgapped_bundle_is_accepted_demo :
  ∃ encryptedPkr,
    (getTxProposals {| opts_doNotVerify := false; opts_forAirGapped := true |}
       (Ok200 [demo_txp_alice]) (demo_client demo_readonly)).1
    = Returned (CbOk (ForAirGapped
                        (_processTxps [demo_txp_alice] (Some "sek-wpk"))
                        encryptedPkr (Some 2) (Some 2)))
    ∧ (signTxProposalFromAirGapped demo_txp_signed encryptedPkr 2 2
         (demo_client demo_pending)).1
      = Returned ["txsig[xprv-alice]t1"].
Proof.
  destruct (airgapped_bundle_is_accepted
              {| opts_doNotVerify := false; opts_forAirGapped := true |}
              [demo_txp_alice] demo_txp_signed
              (demo_client demo_readonly) (demo_client demo_pending)
              demo_readonly demo_pending 2 2 [JStr "xpub-alice"; JStr "xpub-bob"])
    as (encryptedPkr & Hbundle & _ & Hsigned);
    [reflexivity..| |reflexivity|reflexivity|].
  - right. intros p Hp. apply list_elem_of_singleton in Hp as ->. reflexivity.
  - exists encryptedPkr. split; [exact Hbundle|exact Hsigned].
Defined.

(** An address of the wallet's ring, and one of another ring. *)
Lemma createAddress_only_verified_demo :
  (createAddress (Ok200 (demo_address "m/0/1")) (demo_client demo_alice)).1
  = Returned (CbOk (demo_address "m/0/1"))
  ∧ (createAddress (Ok200 demo_address_fake) (demo_client demo_alice)).1
    = Returned (CbErr (EServerCompromised "Server sent fake address")).
Proof.
  destruct (createAddress_only_verified (Ok200 (demo_address "m/0/1"))
              (demo_client demo_alice) demo_alice) as (_ & _ & Hgood);
    [reflexivity|reflexivity|].
  destruct (createAddress_only_verified (Ok200 demo_address_fake)
              (demo_client demo_alice) demo_alice) as (_ & Hfake & _);
    [reflexivity|reflexivity|].
  split; [apply (Hgood (demo_address "m/0/1"))|apply (Hfake demo_address_fake)];
    reflexivity.
Defined.

(** Two addresses of the wallet with a foreign one among them. *)
Lemma getMainAddresses_fail_closed_demo :
  (getMainAddresses (Some {| opts_doNotVerify := false; opts_forAirGapped := false |})
     (Ok200 [demo_address "m/0/1"; demo_address_fake; demo_address "m/0/3"])
     (demo_client demo_alice)).1
  = Returned (CbErr (EServerCompromised "Server sent fake address"))
  ∧ (getMainAddresses (Some {| opts_doNotVerify := true; opts_forAirGapped := false |})
       (Ok200 [demo_address "m/0/1"; demo_address_fake; demo_address "m/0/3"])
       (demo_client demo_alice)).1
    = Returned (CbOk [demo_address "m/0/1"; demo_address_fake; demo_address "m/0/3"]).
Proof.
  split.
  - destruct (getMainAddresses_fail_closed
                {| opts_doNotVerify := false; opts_forAirGapped := false |}
                [demo_address "m/0/1"; demo_address_fake; demo_address "m/0/3"]
                (demo_client demo_alice) demo_alice) as (Hverify & _);
      [reflexivity|reflexivity|].
    destruct (Hverify eq_refl) as (Hfake & _).
    apply (Hfake demo_address_fake); [|reflexivity].
    right. left.
  - destruct (getMainAddresses_fail_closed
                {| opts_doNotVerify := true; opts_forAirGapped := false |}
                [demo_address "m/0/1"; demo_address_fake; demo_address "m/0/3"]
                (demo_client demo_alice) demo_alice) as (_ & Hskip & _);
      [reflexivity|reflexivity|].
    exact (Hskip eq_refl).
Defined.

(** A call that passes only the callback. *)
Lemma getMainAddresses_without_opts_demo :
  (getMainAddresses None (Ok200 [demo_address "m/0/1"]) (demo_client demo_alice)).1
  = Threw ETypeError
  ∧ length (sent (getMainAddresses None (Ok200 [demo_address "m/0/1"])
                    (demo_client demo_alice)).2) = 1%nat.
Proof.
  rewrite (getMainAddresses_without_opts [demo_address "m/0/1"]
             (demo_client demo_alice) demo_alice) by reflexivity.
  split; reflexivity.
Defined.

(** An export under the empty password is the plain document. *)
Lemma empty_password_is_no_password_demo :
  (export {| opts_compressed := false; opts_password := Some ""; opts_noSign := false |}
     (demo_client demo_alice)).1
  = Returned (JSON_stringify (toObj demo_alice)).
Proof.
  destruct (empty_password_is_no_password "{}"
              {| opts_compressed := false; opts_password := Some ""; opts_noSign := false |}
              (demo_client demo_alice) eq_refl) as (Hexport & _).
  rewrite Hexport. reflexivity.
Defined.

(** The body of a gateway that answers in plain text. *)
Lemma _parseError_unparsable_text_demo :
  (_parseError (JStr "Bad Gateway") demo_fresh).1
  = Returned (EGeneric (Some (JStr "Bad Gateway"))).
Proof.
  rewrite (_parseError_unparsable_text "Bad Gateway" demo_fresh) by reflexivity.
  reflexivity.
Defined.



End MoreDemo.
